(** * pinas: an expression evaluation sandbox

    A shallow embedding of [src/pinas.py].  The module validates the tokens
    of a Python expression against white lists held by a [Backend], sorts the
    identifiers into predefined names and free variables, and hands the
    normalised text to Python's [eval] with a restricted globals dict.

    Python sets are [gset string], dicts whose order is never observed are
    [gmap string _], dicts that are iterated are association lists in
    insertion order, and a raised exception is the [Raise] branch of
    [result]. *)

From Stdlib Require Import ZArith Ascii String.
From stdpp Require Import gmap strings list fin_maps.

Open Scope string_scope.
Open Scope Z_scope.

(** ** Tokens, as [tokenize.generate_tokens] yields them *)

Inductive toktype :=
| ENDMARKER | NAME | NUMBER | STRING | NEWLINE | INDENT | DEDENT
| OP | ERRORTOKEN | COMMENT | NL
| OTHERTOKEN (code : nat).

Global Instance toktype_eq_dec : EqDecision toktype.
Proof. solve_decision. Defined.

(** [tokenize.TokenInfo]; a position is a [(row, column)] pair, rows count
    from 1 and columns from 0.  The [line] field is never read. *)
Record TokenInfo := {
  tok_type : toktype;
  tok_string : string;
  tok_start : Z * Z;
  tok_end : Z * Z;
}.

Global Instance TokenInfo_eq_dec : EqDecision TokenInfo.
Proof. solve_decision. Defined.

(** ** Exceptions and results *)

Inductive exn :=
| PinasExpressionError (tok : TokenInfo) (errtext : string)
| PinasNameError (names : list string)
| ValueError (msg : string)
| AttributeError (name : string)
| KeyError (key : string)
| IndexError
| NameError (name : option string)   (* [exc.name], absent before Python 3.10 *)
| SyntaxError
| IndentationError
| TokenError
| TypeError
| HostError (what : string)          (* any other exception of host code *)
| OutsideFragment.                   (* text the fragment models below do not cover *)

Global Instance exn_eq_dec : EqDecision exn.
Proof. solve_decision. Defined.

Inductive result (A : Type) :=
| Ok (a : A)
| Raise (e : exn).
Arguments Ok {A} a.
Arguments Raise {A} e.

Global Instance result_ret : MRet result := fun _ a => Ok a.
Global Instance result_bind : MBind result := fun _ _ f m =>
  match m with
  | Ok a => f a
  | Raise e => Raise e
  end.

(** ** Python objects *)

(** The part of [fn.__code__] that the module reads. *)
Record code := {
  co_varnames : list string;
  co_posonlyargcount : nat;
  co_argcount : nat;
  co_kwonlyargcount : nat;
}.

(** The values that reach the sandbox.  A function object carries its
    identity, its [__code__] (absent on builtins and classes) and its
    [__kwdefaults__] ([None] in Python is [None] here); what calling it does
    is the host's business.  [OWrapper fn] is the closure
    [supply_namespace_args] that [SupplyImpliedArguments] returns for [fn]. *)
Inductive obj :=
| ONone
| OBool (b : bool)
| OInt (n : Z)
| OStr (s : string)
| OTuple (items : list obj)
| ODict (items : list (string * obj))
| OFunction (name : string) (fn_code : option code)
            (fn_kwdefaults : option (list (string * obj)))
| OWrapper (fn : obj).

(** [fn.__code__]; [None] stands for the [AttributeError]. *)
Definition get_code (fn : obj) : option code :=
  match fn with
  | OFunction _ c _ => c
  | OWrapper _ =>
      Some {| co_varnames := ["args"; "kwargs"; "full_kwargs"];
              co_posonlyargcount := 0; co_argcount := 0; co_kwonlyargcount := 0 |}
  | _ => None
  end.

(** [fn.__kwdefaults__] of an object that has a [__code__]. *)
Definition get_kwdefaults (fn : obj) : option (list (string * obj)) :=
  match fn with
  | OFunction _ _ d => d
  | _ => None
  end.

(** The slice [t[lo:hi]] for non-negative bounds. *)
Definition slice {A} (t : list A) (lo hi : nat) : list A :=
  take (hi - lo)%nat (drop lo t).

(** ** Whitelists and the blacklist *)

Definition default_allow_builtin_names : gset string := list_to_set [
  "False"; "None"; "True"; "abs"; "all"; "any"; "bin"; "bytes"; "chr"; "float"; "hex"; "int"; "len";
  "max"; "min"; "oct"; "ord"; "pow"; "range"; "round"; "sorted"; "str"; "sum"].

Definition default_allow_keywords : gset string :=
  list_to_set ["and"; "or"; "not"; "in"; "if"; "else"; "for"].

Definition default_allow_methods : gset string := list_to_set [
  "encode"; "decode"; "from_hex"; "split"; "join"; "upper"; "lower"; "casefold"; "replace"; "find"; "format";
  "isalpha"; "isdigit"; "isascii"; "isdecimal"; "isdigit"; "isidentifier"; "islower"; "isupper"; "isnumeric";
  "isprintable"; "isspace"; "strip"; "lstrip"; "rstrip"; "startswith"; "endswith"; "rjust"; "ljust"; "zfill";
  "index"].

Definition known_unsafe_builtins : gset string := list_to_set [
  "getattr"; "setattr"; "delattr"; "vars"; "open"; "__import__"; "compile"; "exec"; "eval"; "globals"; "locals";
  "memoryview"; "delattr"; "__loader__"; "__build_class__"; "property"; "staticmethod"; "classmethod"; "type";
  "object"; "super"; "vars"; "dir"].

(** ** Introspection helpers *)

Definition NamedParameterNames (fn : obj) : list string :=
  match get_code fn with
  | None => []
  | Some co =>
      slice (co_varnames co) (co_posonlyargcount co)
            (co_argcount co + co_kwonlyargcount co)%nat
  end.

Definition ImpliedArguments (fn : obj) : list string :=
  match get_code fn with
  | None => []
  | Some co =>
      if (co_kwonlyargcount co =? 0)%nat then []
      else
        let kwonlyargs :=
          slice (co_varnames co) (co_argcount co)
                (co_argcount co + co_kwonlyargcount co)%nat in
        match get_kwdefaults fn with
        | None => kwonlyargs
        | Some kwdefaults =>
            if existsb (fun anavn => bool_decide (anavn ∈ kwdefaults.*1)) kwonlyargs
            then [] else kwonlyargs
        end
  end.

(** ** The backend *)

(** A host module: [__all__] and attribute access. *)
Record pymodule := {
  __all__ : list string;
  module_attrs : gmap string obj;
}.

Definition getattr (attrs : gmap string obj) (n : string) : result obj :=
  match attrs !! n with
  | Some v => Ok v
  | None => Raise (AttributeError n)
  end.

(** [d[k] = v] on a dict kept in insertion order. *)
Fixpoint dict_set {V} (k : string) (v : V) (d : list (string * V)) : list (string * V) :=
  match d with
  | [] => [(k, v)]
  | (k', v') :: d' => if decide (k' = k) then (k, v) :: d' else (k', v') :: dict_set k v d'
  end.

(** [dict((n, get(n)) for n in names)], stopping at the first exception. *)
Fixpoint dict_of_names (get : string → result obj) (names : list string)
    (acc : list (string * obj)) : result (list (string * obj)) :=
  match names with
  | [] => Ok acc
  | n :: names' => v ← get n; dict_of_names get names' (dict_set n v acc)
  end.

Record Backend := {
  _allow_methods : gset string;
  _allow_keywords : gset string;
  _allow_keywords_and_methods : gset string;
  Backend_predefined_names : gset string;
  _module_functions : list (string * obj);
  _SupplyImpliedArguments_for : list (string * obj);
  predefined_functions : gmap string obj;
  _named_parameter_names_for : gmap string (gset string);
}.

(** The set of named parameters an expression may use with [fn]. *)
Definition allowed_named_parameters (fn : obj) : gset string :=
  list_to_set (filter (fun n => ¬ String.prefix "_" n) (NamedParameterNames fn))
    ∖ list_to_set (ImpliedArguments fn).

Section Registry.
(** The attributes of Python's [builtins] module. *)
Variable builtins : gmap string obj.

Definition Backend_init (module : pymodule)
    (allow_builtin_names allow_keywords allow_methods : option (gset string))
    : result Backend :=
  let allow_builtin_names := default default_allow_builtin_names allow_builtin_names in
  if bool_decide (size (allow_builtin_names ∩ known_unsafe_builtins) ≠ 0%nat)
  then Raise (ValueError "")
  else
    allow_builtin_functions ←
      dict_of_names (getattr builtins) (elements allow_builtin_names) [];
    let allow_keywords := default default_allow_keywords allow_keywords in
    let allow_methods := default default_allow_methods allow_methods in
    module_functions ←
      dict_of_names (getattr (module_attrs module)) (__all__ module) [];
    Ok {|
      _allow_methods := allow_methods;
      _allow_keywords := allow_keywords;
      _allow_keywords_and_methods := allow_keywords ∪ allow_methods;
      Backend_predefined_names := list_to_set (__all__ module) ∪ allow_builtin_names;
      _module_functions := module_functions;
      _SupplyImpliedArguments_for :=
        filter (fun nfn => (0 < length (ImpliedArguments nfn.2))%nat) module_functions;
      predefined_functions :=
        foldl (fun d kv => if bool_decide (kv.1 ∈ module_functions.*1) then d
                           else <[kv.1 := kv.2]> d)
              (list_to_map module_functions) allow_builtin_functions;
      _named_parameter_names_for :=
        foldl (fun d nfn => <[nfn.1 := allowed_named_parameters nfn.2]> d)
              ∅ (allow_builtin_functions ++ module_functions)%list;
    |}.
End Registry.

(** ** Compiling an expression *)

(** [s * n]: a negative count gives the empty string. *)
Definition str_repeat (s : string) (n : Z) : string :=
  Nat.iter (Z.to_nat n) (String.append s) "".

(** [str.isspace] on one ASCII character. *)
Definition is_space (c : ascii) : bool :=
  let n := nat_of_ascii c in
  ((9 <=? n) && (n <=? 13) || (28 <=? n) && (n <=? 32))%nat.

Fixpoint lstrip_chars (l : list ascii) : list ascii :=
  match l with
  | c :: l' => if is_space c then lstrip_chars l' else l
  | [] => []
  end.

(** [s.strip()] *)
Definition strip (s : string) : string :=
  string_of_list_ascii
    (rev (lstrip_chars (rev (lstrip_chars (list_ascii_of_string s))))).

(** [s[-1]]; [None] stands for the [IndexError] on the empty string. *)
Fixpoint last_char (s : string) : option ascii :=
  match s with
  | EmptyString => None
  | String c EmptyString => Some c
  | String _ s' => last_char s'
  end.

(** [''.join(parts)] *)
Definition join (parts : list string) : string :=
  foldr String.append "" parts.

(** The local variables of the token loop of [Expression.__init__];
    [net_expr] and [net_toks] are kept in append order. *)
Record scan_state := {
  unbound_names : gset string;
  used_named_params : gset string;
  available_named_parameter_names : gset string;
  net_expr : list string;
  net_toks : list TokenInfo;
  prev_end : Z * Z;
  prev : option TokenInfo;
}.

Definition scan_start : scan_state := {|
  unbound_names := ∅;
  used_named_params := ∅;
  available_named_parameter_names := ∅;
  net_expr := [];
  net_toks := [];
  prev_end := (1, 0);
  prev := None;
|}.

(** The token types that leave no trace in the normalised expression. *)
Definition is_layout (t : toktype) : bool :=
  bool_decide (t ∈ [COMMENT; NEWLINE; INDENT; DEDENT; ENDMARKER; NL]).

(** What the loop appends to [net_expr] before it looks at [tok]. *)
Definition gap (prev_end : Z * Z) (tok : TokenInfo) : list string :=
  if bool_decide (tok_start tok ≠ prev_end) then
    if bool_decide ((tok_start tok).1 = prev_end.1)
    then [str_repeat " " ((tok_start tok).2 - prev_end.2)]
    else ["  "]
  else [].

(** [prev is not None and prev.string=='.'] *)
Definition after_dot (prev : option TokenInfo) : bool :=
  match prev with
  | Some p => bool_decide (tok_string p = ".")
  | None => false
  end.

(** The white-list checks of one token; they update the three name sets. *)
Definition check_token (backend : Backend) (st : scan_state) (tok : TokenInfo)
    : result scan_state :=
  if bool_decide (tok_type tok = NAME) then
    if after_dot (prev st) then
      if bool_decide (tok_string tok ∉ _allow_methods backend)
      then Raise (PinasExpressionError tok ("Illegal method ." +:+ tok_string tok))
      else Ok st
    else
      Ok {| unbound_names := unbound_names st ∪ {[ tok_string tok ]};
            used_named_params := used_named_params st;
            available_named_parameter_names :=
              available_named_parameter_names st
              ∪ default ∅ (_named_parameter_names_for backend !! tok_string tok);
            net_expr := net_expr st; net_toks := net_toks st;
            prev_end := prev_end st; prev := prev st |}
  else if bool_decide (tok_type tok = ERRORTOKEN) then
    Raise (PinasExpressionError tok "Syntax error")
  else if bool_decide (tok_type tok = OP) then
    match last_char (tok_string tok) with
    | None => Raise IndexError
    | Some c =>
        if bool_decide (c = "="%char) then
          if bool_decide (tok_string tok = "=") then
            match prev st with
            | Some p =>
                if bool_decide (tok_type p = NAME) then
                  if bool_decide (tok_string p ∉ available_named_parameter_names st)
                  then Raise (PinasExpressionError tok
                                ("No such named parameter: " +:+ tok_string p))
                  else
                    Ok {| unbound_names := unbound_names st;
                          used_named_params := used_named_params st ∪ {[ tok_string p ]};
                          available_named_parameter_names :=
                            available_named_parameter_names st;
                          net_expr := net_expr st; net_toks := net_toks st;
                          prev_end := prev_end st; prev := prev st |}
                else Raise (PinasExpressionError tok "Syntax error")
            | None => Raise (PinasExpressionError tok "Syntax error")
            end
          else if bool_decide (tok_string tok ∉ ["="; "=="; "!="; "<="; ">="])
          then Raise (PinasExpressionError tok ("Illegal operator " +:+ tok_string tok))
          else Ok st
        else Ok st
    end
  else Ok st.

(** One turn of the loop: the gap, the checks, then the token itself unless
    it is layout. *)
Definition scan_token (backend : Backend) (st : scan_state) (tok : TokenInfo)
    : result scan_state :=
  let net_expr1 := (net_expr st ++ gap (prev_end st) tok)%list in
  st' ← check_token backend st tok;
  if is_layout (tok_type tok) then
    Ok {| unbound_names := unbound_names st';
          used_named_params := used_named_params st';
          available_named_parameter_names := available_named_parameter_names st';
          net_expr := net_expr1; net_toks := net_toks st';
          prev_end := prev_end st'; prev := prev st' |}
  else
    Ok {| unbound_names := unbound_names st';
          used_named_params := used_named_params st';
          available_named_parameter_names := available_named_parameter_names st';
          net_expr := (net_expr1 ++ [tok_string tok])%list;
          net_toks := (net_toks st' ++ [tok])%list;
          prev_end := tok_end tok; prev := Some tok |}.

Fixpoint scan_tokens (backend : Backend) (st : scan_state) (toks : list TokenInfo)
    : result scan_state :=
  match toks with
  | [] => Ok st
  | tok :: toks' => st' ← scan_token backend st tok; scan_tokens backend st' toks'
  end.

(** The whole [for tok in tokenize.generate_tokens(...)] loop.  The generator
    yields its tokens one by one and may end by raising an exception of its
    own, which is reached only if no earlier token was rejected. *)
Definition scan (backend : Backend) (stream : list TokenInfo * option exn)
    : result scan_state :=
  st ← scan_tokens backend scan_start stream.1;
  match stream.2 with
  | Some e => Raise e
  | None => Ok st
  end.

(** The loop over [backend._SupplyImpliedArguments_for]: the pair is
    [(self.predefined_names, self.free_variables)]. *)
Definition add_implied (backend : Backend) (sets : gset string * gset string)
    (nfn : string * obj) : gset string * gset string :=
  if bool_decide (nfn.1 ∈ sets.1) then
    foldl (fun s implied_arg =>
             if bool_decide (implied_arg ∈ Backend_predefined_names backend)
             then (s.1 ∪ {[ implied_arg ]}, s.2)
             else (s.1, s.2 ∪ {[ implied_arg ]}))
          sets (ImpliedArguments nfn.2)
  else sets.

(** [for n in names: ns[n] = functions[n]] *)
Fixpoint bind_predefined (functions : gmap string obj) (names : list string)
    (ns : gmap string obj) : result (gmap string obj) :=
  match names with
  | [] => Ok ns
  | n :: names' =>
      match functions !! n with
      | Some v => bind_predefined functions names' (<[n := v]> ns)
      | None => Raise (KeyError n)
      end
  end.

Record Expression := {
  _backend : Backend;
  expr : string;
  _net_tokens : list TokenInfo;
  Expression_predefined_names : gset string;
  free_variables : gset string;
  _base_namespace : gmap string obj;
}.

Section Compile.
(** [tokenize.generate_tokens(io.StringIO(expr).readline)]: the tokens
    yielded and the exception that ends the stream, if any. *)
Variable generate_tokens : string → list TokenInfo * option exn.

Definition Expression_init (text : string) (backend : Backend) : result Expression :=
  st ← scan backend (generate_tokens text);
  let predefined_names :=
    (unbound_names st ∩ Backend_predefined_names backend)
      ∖ _allow_keywords_and_methods backend in
  let free_variables :=
    unbound_names st ∖ Backend_predefined_names backend
      ∖ _allow_keywords_and_methods backend in
  let sets := foldl (add_implied backend) (predefined_names, free_variables)
                    (_SupplyImpliedArguments_for backend) in
  base_namespace ←
    bind_predefined (predefined_functions backend) (elements sets.1)
                    {[ "__builtins__" := ODict [] ]};
  Ok {| _backend := backend;
        expr := strip (join (net_expr st));
        _net_tokens := net_toks st;
        Expression_predefined_names := sets.1;
        free_variables := sets.2;
        _base_namespace := base_namespace |}.

Definition net_tokens (e : Expression) : list TokenInfo := _net_tokens e.
End Compile.

(** ** Evaluating an expression *)

(** [SupplyImpliedArguments(fn, namespace)].  The closure keeps a reference
    to [namespace], not a copy: every wrapper made by [effective_namespace]
    reads, when it is called, the dict that [eval] runs the expression in.
    The wrapper object therefore records [fn] only, and [supply_namespace_args]
    below takes the dict as it is at call time. *)
Definition SupplyImpliedArguments (fn : obj) : obj :=
  if (length (ImpliedArguments fn) =? 0)%nat then fn else OWrapper fn.

(** The body of the closure: [call] is what calling [fn] does. *)
Definition supply_namespace_args
    (call : list obj → gmap string obj → result obj)
    (fn : obj) (namespace : gmap string obj)
    (args : list obj) (kwargs : gmap string obj) : result obj :=
  let iargs := ImpliedArguments fn in
  match mapM (fun iarg => (fun v => (iarg, v)) <$> namespace !! iarg) iargs with
  | None =>
      Raise (PinasNameError (filter (fun iarg => iarg ∉ dom namespace) iargs))
  | Some full_kwargs =>
      (* full_kwargs.update(kwargs) *)
      call args (kwargs ∪ list_to_map full_kwargs)
  end.

(** The first loop of [effective_namespace]. *)
Fixpoint supply_free (namespace : gmap string obj) (names : list string)
    (eff_namespace : gmap string obj) : result (gmap string obj) :=
  match names with
  | [] => Ok eff_namespace
  | n :: names' =>
      if bool_decide (n ∈ dom eff_namespace)
      then Raise (ValueError ("'" +:+ n +:+ "' is ambiguous"))
      else
        supply_free namespace names'
          match namespace !! n with
          | Some v => <[n := v]> eff_namespace
          | None => eff_namespace
          end
  end.

(** The second loop of [effective_namespace]. *)
Definition wrap_implied (eff_namespace : gmap string obj) (nfn : string * obj)
    : gmap string obj :=
  if bool_decide (nfn.1 ∈ dom eff_namespace)
  then <[nfn.1 := SupplyImpliedArguments nfn.2]> eff_namespace
  else eff_namespace.

(** [Expression.effective_namespace].  The copy of the base namespace is
    shallow; what that means for the dict under [__builtins__] is the
    subject of the section on that dict below. *)
Definition effective_namespace (e : Expression) (namespace : gmap string obj)
    : result (gmap string obj) :=
  eff_namespace ← supply_free namespace (elements (free_variables e)) (_base_namespace e);
  Ok (foldl wrap_implied eff_namespace (_SupplyImpliedArguments_for (_backend e))).

Section Evaluate.
(** Python's builtin [eval(source, globals)]. *)
Variable py_eval : string → gmap string obj → result obj.

(** [set(ident for ident in self.free_variables if ident not in namespace)] *)
Definition missing_names (e : Expression) (namespace : gmap string obj) : gset string :=
  free_variables e ∖ dom namespace.

(** [Expression.eval].  The test is [getattr(exc, 'name', None) in missing];
    the [PinasNameError] carries the set [missing], here as the list of its
    elements. *)
Definition Expression_eval (e : Expression) (namespace : gmap string obj) : result obj :=
  eff_namespace ← effective_namespace e namespace;
  match py_eval (expr e) eff_namespace with
  | Raise (NameError name) =>
      let missing := missing_names e namespace in
      if bool_decide (name ∈ Some <$> elements missing)
      then Raise (PinasNameError (elements missing))
      else Raise (NameError name)
  | r => r
  end.
End Evaluate.

(** ** The dict behind [__builtins__]

    [dict(__builtins__=dict())] makes one dict object for each expression,
    and [self._base_namespace.copy()] is a shallow copy: the effective
    namespace of every evaluation binds [__builtins__] to that same object,
    unless a registry function has taken the key.  In the definitions above
    a dict is a value, which is all there is to it as long as nobody writes
    to the object: [ODict []] under [__builtins__] stands for the reference.
    The definitions below make the content of the object explicit, as a
    state that goes from one evaluation of the expression to the next. *)

(** The base namespace binds [__builtins__] to the object: the loop at the
    end of the constructor has not overwritten the entry. *)
Definition base_aliases (e : Expression) : bool :=
  bool_decide ("__builtins__" ∉ Expression_predefined_names e).

(** So does its copy after the second loop of [effective_namespace]. *)
Definition eff_aliases (e : Expression) : bool :=
  base_aliases e
  && bool_decide ("__builtins__" ∉ (_SupplyImpliedArguments_for (_backend e)).*1).

(** A namespace as Python sees it while the object holds [content]. *)
Definition with_builtins_dict (aliased : bool) (content : list (string * obj))
    (ns : gmap string obj) : gmap string obj :=
  if aliased then <["__builtins__" := ODict content]> ns else ns.

(** [self._base_namespace] at such a time. *)
Definition base_namespace_at (e : Expression) (content : list (string * obj))
    : gmap string obj :=
  with_builtins_dict (base_aliases e) content (_base_namespace e).

(** [self.effective_namespace(namespace)] at such a time. *)
Definition effective_namespace_at (e : Expression) (namespace : gmap string obj)
    (content : list (string * obj)) : result (gmap string obj) :=
  eff_namespace ← effective_namespace e namespace;
  Ok (with_builtins_dict (eff_aliases e) content eff_namespace).

Section EvaluateShared.
(** Python's [eval(source, globals)], with what it leaves in the dict
    object that [globals] binds to [__builtins__]. *)
Variable py_eval_shared : string → gmap string obj → result obj * list (string * obj).

(** [Expression.eval] when the object holds [content]: the outcome, and
    what the object holds afterwards. *)
Definition Expression_eval_at (e : Expression) (namespace : gmap string obj)
    (content : list (string * obj)) : result obj * list (string * obj) :=
  match effective_namespace_at e namespace content with
  | Raise x => (Raise x, content)
  | Ok eff_namespace =>
      let out := py_eval_shared (expr e) eff_namespace in
      (match out.1 with
       | Raise (NameError name) =>
           let missing := missing_names e namespace in
           if bool_decide (name ∈ Some <$> elements missing)
           then Raise (PinasNameError (elements missing))
           else Raise (NameError name)
       | r => r
       end,
       if eff_aliases e then out.2 else content)
  end.

(** Evaluations of one expression, one after the other. *)
Fixpoint eval_all (e : Expression) (namespaces : list (gmap string obj))
    (content : list (string * obj)) : list (result obj) * list (string * obj) :=
  match namespaces with
  | [] => ([], content)
  | namespace :: rest =>
      let out := Expression_eval_at e namespace content in
      let outs := eval_all e rest out.2 in
      (out.1 :: outs.1, outs.2)
  end.
End EvaluateShared.

(** ** Python's side: a model of [tokenize] on a fragment of the lexical syntax

    [generate_tokens] is library code, so the theorems on [Expression_init]
    hold for every token stream.  The examples need the tokens of concrete
    texts; [tokenize_model] follows the pure-Python tokenizer of CPython
    3.8-3.11 ([tokenize._tokenize]) on texts made of spaces, line feeds,
    comments, names, decimal integers, operators and stray characters.  On
    anything else (quotes, backslashes, tabs, floats, ...) the stream ends
    with [OutsideFragment]. *)

Definition newline : ascii := ascii_of_nat 10.

Definition is_digit (c : ascii) : bool :=
  let n := nat_of_ascii c in ((48 <=? n) && (n <=? 57))%nat.

Definition is_letter (c : ascii) : bool :=
  let n := nat_of_ascii c in
  ((65 <=? n) && (n <=? 90) || (97 <=? n) && (n <=? 122) || (n =? 95))%nat.

Definition is_word (c : ascii) : bool := is_letter c || is_digit c.

(** Characters that start no token and are not layout: the tokenizer
    yields an [ERRORTOKEN] for them. *)
Definition is_stray (c : ascii) : bool :=
  bool_decide (c ∈ ["$"; "?"; "!"; "`"]%char).

Definition is_quote (c : ascii) : bool :=
  let n := nat_of_ascii c in ((n =? 34) || (n =? 39))%nat.

Fixpoint span_chars (p : ascii → bool) (l : list ascii) : list ascii * list ascii :=
  match l with
  | c :: l' =>
      if p c then let r := span_chars p l' in (c :: r.1, r.2) else ([], l)
  | [] => ([], [])
  end.

(** [token.EXACT_TOKEN_TYPES] *)
Definition operators : list string := [
  "!="; "%"; "%="; "&"; "&="; "("; ")"; "*"; "**"; "**="; "*="; "+"; "+="; ","; "-"; "-="; "->";
  "."; "..."; "/"; "//"; "//="; "/="; ":"; ":="; ";"; "<"; "<<"; "<<="; "<="; "="; "=="; ">";
  ">="; ">>"; ">>="; "@"; "@="; "["; "]"; "^"; "^="; "{"; "|"; "|="; "}"; "~"].

(** The longest operator that starts [rest]. *)
Definition match_operator (rest : list ascii) : option string :=
  let try (n : nat) :=
    let cand := string_of_list_ascii (take n rest) in
    if bool_decide (cand ∈ operators) then Some cand else None in
  match try 3%nat, try 2%nat, try 1%nat with
  | Some op, _, _ | None, Some op, _ | None, None, Some op => Some op
  | None, None, None => None
  end.

Definition len (l : list ascii) : Z := Z.of_nat (length l).

Definition mk_token (ty : toktype) (text : list ascii) (lnum scol ecol : Z) : TokenInfo :=
  {| tok_type := ty; tok_string := string_of_list_ascii text;
     tok_start := (lnum, scol); tok_end := (lnum, ecol) |}.

(** The result of scanning part of a line: tokens, parenthesis level, and
    whether the text stayed inside the fragment. *)
Definition emit (t : TokenInfo) (r : list TokenInfo * Z * bool) : list TokenInfo * Z * bool :=
  (t :: r.1.1, r.1.2, r.2).

(** The [while pos < max] loop of the tokenizer on the rest of one line. *)
Fixpoint lex_rest (fuel : nat) (lnum pos : Z) (rest : list ascii) (parenlev : Z)
    : list TokenInfo * Z * bool :=
  match fuel with
  | O => ([], parenlev, false)
  | S fuel' =>
      let ws := span_chars (fun c => bool_decide (c = " "%char)) rest in
      let start := pos + len ws.1 in
      match ws.2 with
      | [] => ([], parenlev, true)
      | c :: tail =>
          if bool_decide (c = newline) then
            (* the line feed ends the line *)
            ([mk_token (if 0 <? parenlev then NL else NEWLINE) [c] lnum start (start + 1)],
             parenlev, bool_decide (tail = []))
          else if bool_decide (c = "#"%char) then
            let cm := span_chars (fun c => bool_decide (c ≠ newline)) ws.2 in
            emit (mk_token COMMENT cm.1 lnum start (start + len cm.1))
                 (lex_rest fuel' lnum (start + len cm.1) cm.2 parenlev)
          else if is_digit c then
            let num := span_chars is_digit ws.2 in
            let plain :=
              (bool_decide (c ≠ "0"%char) || bool_decide (length num.1 = 1%nat))
              && match num.2 with
                 | d :: _ => negb (is_word d || bool_decide (d = "."%char))
                 | [] => true
                 end in
            if plain then
              emit (mk_token NUMBER num.1 lnum start (start + len num.1))
                   (lex_rest fuel' lnum (start + len num.1) num.2 parenlev)
            else ([], parenlev, false)
          else if is_letter c then
            let name := span_chars is_word ws.2 in
            if match name.2 with d :: _ => is_quote d | [] => false end
            then ([], parenlev, false)   (* a string prefix *)
            else
              emit (mk_token NAME name.1 lnum start (start + len name.1))
                   (lex_rest fuel' lnum (start + len name.1) name.2 parenlev)
          else
            match match_operator ws.2 with
            | Some op =>
                let n := Z.of_nat (String.length op) in
                let after := drop (String.length op) ws.2 in
                let float_ahead :=
                  bool_decide (op = ".")
                  && match after with d :: _ => is_digit d | [] => false end in
                let parenlev' :=
                  if bool_decide (op ∈ ["("; "["; "{"]) then parenlev + 1
                  else if bool_decide (op ∈ [")"; "]"; "}"]) then parenlev - 1
                  else parenlev in
                if float_ahead then ([], parenlev, false)
                else
                  emit {| tok_type := OP; tok_string := op;
                          tok_start := (lnum, start); tok_end := (lnum, start + n) |}
                       (lex_rest fuel' lnum (start + n) after parenlev')
            | None =>
                if is_stray c then
                  (* no token matches at [pos]: the character at [pos] itself,
                     a space if there is one, becomes the error token *)
                  emit (mk_token ERRORTOKEN (take 1 rest) lnum pos (pos + 1))
                       (lex_rest fuel' lnum (pos + 1) (drop 1 rest) parenlev)
                else ([], parenlev, false)
            end
      end
  end.

(** The [while column < indents[-1]] loop; the stack has its top first. *)
Fixpoint dedent (lnum pos column : Z) (indents : list Z) : list TokenInfo * list Z * bool :=
  match indents with
  | top :: below =>
      if column <? top then
        if bool_decide (column ∈ indents) then
          let r := dedent lnum pos column below in
          (mk_token DEDENT [] lnum pos pos :: r.1.1, r.1.2, r.2)
        else ([], indents, false)
      else ([], indents, true)
  | [] => ([], [], true)
  end.

(** The outer loop, one line per turn; [lnum] is the number of the line
    about to be read and [last_line] the last one read. *)
Fixpoint lex_lines (lines : list (list ascii)) (lnum : Z) (last_line : list ascii)
    (parenlev : Z) (indents : list Z) : list TokenInfo * option exn :=
  match lines with
  | [] =>
      if bool_decide (parenlev ≠ 0) then ([], Some TokenError)
      else
        let implicit_newline :=
          match last last_line with
          | Some c =>
              if bool_decide (c ≠ newline)
                 && negb (bool_decide
                            (head (span_chars (fun c => bool_decide (c = " "%char))
                                              last_line).2 = Some "#"%char))
              then [mk_token NEWLINE [] (lnum - 1) (len last_line) (len last_line + 1)]
              else []
          | None => []
          end in
        ((implicit_newline
          ++ map (fun _ => mk_token DEDENT [] lnum 0 0) (drop 1 (rev indents))
          ++ [mk_token ENDMARKER [] lnum 0 0])%list, None)
  | line :: lines' =>
      let continue_with (r : list TokenInfo * Z * bool) (indents' : list Z) :=
        if r.2 then
          let s := lex_lines lines' (lnum + 1) line r.1.2 indents' in
          ((r.1.1 ++ s.1)%list, s.2)
        else (r.1.1, Some OutsideFragment) in
      if bool_decide (parenlev = 0) then
        let ws := span_chars (fun c => bool_decide (c = " "%char)) line in
        let pos := len ws.1 in
        match ws.2 with
        | [] => ([], Some OutsideFragment)
        | c :: _ =>
            if bool_decide (c = "#"%char) || bool_decide (c = newline) then
              (* a comment or blank line *)
              let cm := span_chars (fun c => bool_decide (c ≠ newline)) ws.2 in
              let comment :=
                if bool_decide (c = "#"%char)
                then [mk_token COMMENT cm.1 lnum pos (pos + len cm.1)] else [] in
              let s := lex_lines lines' (lnum + 1) line parenlev indents in
              ((comment ++ mk_token NL cm.2 lnum (pos + len cm.1) (len line) :: s.1)%list, s.2)
            else
              let indent :=
                match indents with
                | top :: _ =>
                    if top <? pos then ([mk_token INDENT ws.1 lnum 0 pos], pos :: indents)
                    else ([], indents)
                | [] => ([], indents)
                end in
              let d := dedent lnum pos pos indent.2 in
              if d.2 then
                let r := lex_rest (S (length line)) lnum pos ws.2 parenlev in
                continue_with ((indent.1 ++ d.1.1 ++ r.1.1)%list, r.1.2, r.2) d.1.2
              else ((indent.1 ++ d.1.1)%list, Some IndentationError)
        end
      else
        continue_with (lex_rest (S (length line)) lnum 0 line parenlev) indents
  end.

(** [readline] hands out the text one line at a time, line feed included. *)
Fixpoint split_lines (text : list ascii) (line : list ascii) : list (list ascii) :=
  match text with
  | [] => match line with [] => [] | _ => [rev line] end
  | c :: text' =>
      if bool_decide (c = newline) then rev (c :: line) :: split_lines text' []
      else split_lines text' (c :: line)
  end.

Definition tokenize_model (text : string) : list TokenInfo * option exn :=
  lex_lines (split_lines (list_ascii_of_string text) []) 1 [] 0 [0].

(** ** Python's side: a model of [eval] on a fragment of the expression syntax

    [eval] is Python's own, so the theorems on [Expression_eval] hold for
    every evaluator.  The examples need the value of concrete texts;
    [py_eval_model] covers integer literals, [True], [False], [None], names,
    [+] and [-], the conditional expression, parentheses and calls with
    positional and keyword arguments.  A text is reported as a
    [SyntaxError] only where an operand is due and the text has ended; any
    other text the parser does not accept is [OutsideFragment]. *)

Inductive operator := Add | Sub.

Inductive ast :=
| Constant (value : obj)
| Name (id : string)
| BinOp (left : ast) (op : operator) (right : ast)
| IfExp (test body orelse : ast)
| Call (func : ast) (args : list ast) (keywords : list (string * ast)).

Inductive parse_result (A : Type) :=
| Parsed (a : A) (rest : list TokenInfo)
| Invalid
| Unknown.
Arguments Parsed {A} a rest.
Arguments Invalid {A}.
Arguments Unknown {A}.

Definition is_tok (ty : toktype) (s : string) (t : TokenInfo) : bool :=
  bool_decide (tok_type t = ty) && bool_decide (tok_string t = s).

(** [keyword.kwlist] *)
Definition kwlist : list string := [
  "False"; "None"; "True"; "and"; "as"; "assert"; "async"; "await"; "break"; "class"; "continue";
  "def"; "del"; "elif"; "else"; "except"; "finally"; "for"; "from"; "global"; "if"; "import"; "in";
  "is"; "lambda"; "nonlocal"; "not"; "or"; "pass"; "raise"; "return"; "try"; "while"; "with"; "yield"].

Definition digit_value (c : ascii) : Z := Z.of_nat (nat_of_ascii c) - 48.

Definition int_of_digits (s : string) : Z :=
  foldl (fun n c => 10 * n + digit_value c) 0 (list_ascii_of_string s).

Fixpoint parse_test (fuel : nat) (toks : list TokenInfo) : parse_result ast :=
  match fuel with
  | O => Unknown
  | S fuel =>
      match parse_sum fuel toks with
      | Parsed body (t :: rest) =>
          if is_tok NAME "if" t then
            match parse_sum fuel rest with
            | Parsed test (t' :: rest') =>
                if is_tok NAME "else" t' then
                  match parse_test fuel rest' with
                  | Parsed orelse rest'' => Parsed (IfExp test body orelse) rest''
                  | r => r
                  end
                else Unknown
            | Parsed _ [] => Invalid
            | r => r
            end
          else Parsed body (t :: rest)
      | r => r
      end
  end
with parse_sum (fuel : nat) (toks : list TokenInfo) : parse_result ast :=
  match fuel with
  | O => Unknown
  | S fuel =>
      match parse_postfix fuel toks with
      | Parsed a rest => parse_sum_tail fuel a rest
      | r => r
      end
  end
with parse_sum_tail (fuel : nat) (lhs : ast) (toks : list TokenInfo) : parse_result ast :=
  match fuel with
  | O => Unknown
  | S fuel =>
      match toks with
      | t :: rest =>
          if is_tok OP "+" t || is_tok OP "-" t then
            match parse_postfix fuel rest with
            | Parsed rhs rest' =>
                parse_sum_tail fuel
                  (BinOp lhs (if is_tok OP "+" t then Add else Sub) rhs) rest'
            | r => r
            end
          else Parsed lhs toks
      | [] => Parsed lhs []
      end
  end
with parse_postfix (fuel : nat) (toks : list TokenInfo) : parse_result ast :=
  match fuel with
  | O => Unknown
  | S fuel =>
      match parse_atom fuel toks with
      | Parsed a rest => parse_trailers fuel a rest
      | r => r
      end
  end
with parse_trailers (fuel : nat) (func : ast) (toks : list TokenInfo) : parse_result ast :=
  match fuel with
  | O => Unknown
  | S fuel =>
      match toks with
      | t :: rest =>
          if is_tok OP "(" t then
            match parse_args fuel [] [] rest with
            | Parsed (args, keywords) rest' => parse_trailers fuel (Call func args keywords) rest'
            | Invalid => Invalid
            | Unknown => Unknown
            end
          else Parsed func toks
      | [] => Parsed func []
      end
  end
with parse_args (fuel : nat) (args : list ast) (keywords : list (string * ast))
    (toks : list TokenInfo) : parse_result (list ast * list (string * ast)) :=
  match fuel with
  | O => Unknown
  | S fuel =>
      let after_argument (args : list ast) (keywords : list (string * ast))
                         (toks : list TokenInfo) :=
        match toks with
        | t :: rest =>
            if is_tok OP "," t then parse_args fuel args keywords rest
            else if is_tok OP ")" t then Parsed (args, keywords) rest
            else Unknown
        | [] => Unknown
        end in
      match toks with
      | [] => Unknown
      | t :: rest =>
          if is_tok OP ")" t then Parsed (args, keywords) rest
          else
            match rest with
            | t' :: rest' =>
                if bool_decide (tok_type t = NAME) && is_tok OP "=" t' then
                  if bool_decide (tok_string t ∈ kwlist)
                     || bool_decide (tok_string t ∈ keywords.*1)
                  then Unknown
                  else
                    match parse_test fuel rest' with
                    | Parsed v rest'' =>
                        after_argument args (keywords ++ [(tok_string t, v)])%list rest''
                    | Invalid => Invalid
                    | Unknown => Unknown
                    end
                else
                  match keywords, parse_test fuel toks with
                  | [], Parsed v rest'' => after_argument (args ++ [v])%list keywords rest''
                  | [], Invalid => Invalid
                  | _, _ => Unknown
                  end
            | [] => Unknown
            end
      end
  end
with parse_atom (fuel : nat) (toks : list TokenInfo) : parse_result ast :=
  match fuel with
  | O => Unknown
  | S fuel =>
      match toks with
      | [] => Invalid
      | t :: rest =>
          if bool_decide (tok_type t = NUMBER) then
            Parsed (Constant (OInt (int_of_digits (tok_string t)))) rest
          else if is_tok NAME "True" t then Parsed (Constant (OBool true)) rest
          else if is_tok NAME "False" t then Parsed (Constant (OBool false)) rest
          else if is_tok NAME "None" t then Parsed (Constant ONone) rest
          else if bool_decide (tok_type t = NAME) then
            if bool_decide (tok_string t ∈ kwlist) then Unknown
            else Parsed (Name (tok_string t)) rest
          else if is_tok OP "(" t then
            match parse_test fuel rest with
            | Parsed a (t' :: rest') =>
                if is_tok OP ")" t' then Parsed a rest' else Unknown
            | Parsed _ [] => Unknown
            | r => r
            end
          else Unknown
      end
  end.

(** The tokens [eval] parses: a one-line text of names, numbers and
    operators. *)
Definition eval_tokens (text : string) : option (list TokenInfo) :=
  let stream := tokenize_model text in
  match stream.2 with
  | Some _ => None
  | None =>
      if forallb (fun t => bool_decide (tok_type t ∈ [NAME; NUMBER; OP; NEWLINE; ENDMARKER]))
                 stream.1
         && forallb (fun c => negb (bool_decide (c = newline))) (list_ascii_of_string text)
      then Some (filter (fun t => negb (is_layout (tok_type t))) stream.1)
      else None
  end.

Definition py_parse (text : string) : parse_result ast :=
  match eval_tokens text with
  | None => Unknown
  | Some toks =>
      match parse_test (8 * S (length toks)) toks with
      | Parsed a [] => Parsed a []
      | Parsed _ (_ :: _) => Unknown
      | r => r
      end
  end.

(** Truth value testing. *)
Definition truthy (v : obj) : bool :=
  match v with
  | ONone => false
  | OBool b => b
  | OInt n => negb (n =? 0)
  | OStr s => negb (bool_decide (s = ""))
  | OTuple items => negb (bool_decide (length items = 0%nat))
  | ODict items => negb (bool_decide (length items = 0%nat))
  | OFunction _ _ _ | OWrapper _ => true
  end.

(** An [int] or a [bool] as a number. *)
Definition as_int (v : obj) : option Z :=
  match v with
  | OInt n => Some n
  | OBool b => Some (if b then 1 else 0)
  | _ => None
  end.

Definition binop (op : operator) (a b : obj) : result obj :=
  match as_int a, as_int b with
  | Some m, Some n => Ok (OInt (match op with Add => m + n | Sub => m - n end))
  | _, _ =>
      match op, a, b with
      | Add, OStr s, OStr t => Ok (OStr (s +:+ t))
      | Add, OTuple s, OTuple t => Ok (OTuple (s ++ t))
      | _, _, _ => Raise TypeError
      end
  end.

(** Name lookup: the globals, then the dict bound to [__builtins__] there. *)
Definition load_name (globals : gmap string obj) (id : string) : result obj :=
  match globals !! id with
  | Some v => Ok v
  | None =>
      match globals !! "__builtins__" with
      | Some (ODict items) =>
          match list_find (fun kv => kv.1 = id) items with
          | Some (_, kv) => Ok kv.2
          | None => Raise (NameError (Some id))
          end
      | _ => Raise OutsideFragment
      end
  end.

Section Calls.
(** What calling a function object of the host does. *)
Variable host_call : obj → list obj → gmap string obj → result obj.

(** Calling an object while an expression is evaluated in [namespace],
    the dict every wrapper in it closes over. *)
Fixpoint call_obj (namespace : gmap string obj) (f : obj)
    (args : list obj) (kwargs : gmap string obj) : result obj :=
  match f with
  | OWrapper fn =>
      supply_namespace_args (call_obj namespace fn) fn namespace args kwargs
  | OFunction _ _ _ => host_call f args kwargs
  | _ => Raise TypeError
  end.

Fixpoint eval_ast (globals : gmap string obj) (e : ast) : result obj :=
  match e with
  | Constant v => Ok v
  | Name id => load_name globals id
  | BinOp l op r =>
      a ← eval_ast globals l; b ← eval_ast globals r; binop op a b
  | IfExp test body orelse =>
      c ← eval_ast globals test;
      if truthy c then eval_ast globals body else eval_ast globals orelse
  | Call func args keywords =>
      f ← eval_ast globals func;
      vs ← (fix eval_args (l : list ast) : result (list obj) :=
              match l with
              | [] => Ok []
              | a :: l' => v ← eval_ast globals a; vs ← eval_args l'; Ok (v :: vs)
              end) args;
      kws ← (fix eval_keywords (l : list (string * ast)) : result (gmap string obj) :=
               match l with
               | [] => Ok ∅
               | (k, a) :: l' =>
                   v ← eval_ast globals a; kws ← eval_keywords l'; Ok (<[k := v]> kws)
               end) keywords;
      call_obj globals f vs kws
  end.

Definition py_eval_model (text : string) (globals : gmap string obj) : result obj :=
  match py_parse text with
  | Parsed a _ => eval_ast globals a
  | Invalid => Raise SyntaxError
  | Unknown => Raise OutsideFragment
  end.
End Calls.

(** *** Evaluation that writes to the dict behind [__builtins__]

    The fragment above never writes to an object.  [py_eval_shared_model]
    adds the one form [__builtins__.setdefault(key, default)] with a string
    key, on globals that bind [__builtins__] to a dict; every other text that
    names [__builtins__] is outside the fragment, and a text that does not
    name it is evaluated as above and leaves the dict as it is. *)

(** The content of the dict that [globals] binds to [__builtins__]. *)
Definition builtins_dict_of (globals : gmap string obj) : list (string * obj) :=
  match globals !! "__builtins__" with
  | Some (ODict content) => content
  | _ => []
  end.

(** An evaluator that never writes to that dict. *)
Definition py_eval_readonly (py_eval : string → gmap string obj → result obj)
    (source : string) (globals : gmap string obj) : result obj * list (string * obj) :=
  (py_eval source globals, builtins_dict_of globals).

(** [d.setdefault(key, default)]: the value, and the content afterwards. *)
Definition dict_setdefault (items : list (string * obj)) (key : string) (dflt : obj)
    : obj * list (string * obj) :=
  match list_find (fun kv => kv.1 = key) items with
  | Some (_, kv) => (kv.2, items)
  | None => (dflt, (items ++ [(key, dflt)])%list)
  end.

(** The tokens after [__builtins__.setdefault(], if the text starts so. *)
Definition setdefault_arguments (toks : list TokenInfo) : option (list TokenInfo) :=
  match toks with
  | t1 :: t2 :: t3 :: t4 :: rest =>
      if is_tok NAME "__builtins__" t1 && is_tok OP "." t2
         && is_tok NAME "setdefault" t3 && is_tok OP "(" t4
      then Some rest else None
  | _ => None
  end.

Definition py_eval_shared_model
    (host_call : obj → list obj → gmap string obj → result obj)
    (text : string) (globals : gmap string obj) : result obj * list (string * obj) :=
  let content := builtins_dict_of globals in
  match globals !! "__builtins__", eval_tokens text with
  | Some (ODict _), Some toks =>
      match setdefault_arguments toks with
      | Some rest =>
          if existsb (is_tok NAME "__builtins__") rest then (Raise OutsideFragment, content)
          else
            match parse_args (8 * S (length rest)) [] [] rest with
            | Parsed ([key; dflt], []) [] =>
                match eval_ast host_call globals key with
                | Ok (OStr k) =>
                    match eval_ast host_call globals dflt with
                    | Ok v => let out := dict_setdefault content k v in (Ok out.1, out.2)
                    | Raise x => (Raise x, content)
                    end
                | Ok _ => (Raise OutsideFragment, content)
                | Raise x => (Raise x, content)
                end
            | _ => (Raise OutsideFragment, content)
            end
      | None =>
          if existsb (is_tok NAME "__builtins__") toks then (Raise OutsideFragment, content)
          else (py_eval_model host_call text globals, content)
      end
  | _, _ => (Raise OutsideFragment, content)
  end.

(** ** The host of the test suite ([test/test_pinas.py]) *)

(** The attributes of [builtins] that the white list and the black list
    name.  Functions and classes of [builtins] have no [__code__]. *)
Definition py_builtins : gmap string obj :=
  <["False" := OBool false]> (<["None" := ONone]> (<["True" := OBool true]>
    (list_to_map
       (map (fun n => (n, OFunction n None None))
            (elements default_allow_builtin_names ++ elements known_unsafe_builtins))))).

Definition def (name : string) (varnames : list string) (posonly args kwonly : nat)
    (kwdefaults : option (list (string * obj))) : string * obj :=
  (name, OFunction name
           (Some {| co_varnames := varnames; co_posonlyargcount := posonly;
                    co_argcount := args; co_kwonlyargcount := kwonly |})
           kwdefaults).

(** The class [module] of the test suite, instantiated. *)
Definition test_module : pymodule := {|
  __all__ := ["add"; "add_d"; "oct"; "bit_length"; "pos_only"; "implied";
              "name_collision"; "implied_name_collision"];
  module_attrs := list_to_map [
    def "add" ["x"; "y"] 0 2 0 None;
    def "add_d" ["x"; "d"] 0 1 1 None;
    def "oct" ["x"] 0 1 0 None;
    def "bit_length" [] 0 0 0 None;
    def "pos_only" ["x"; "y"; "z"; "p"] 1 3 1 (Some [("p", OInt 0)]);
    def "implied" ["x"; "b"] 0 1 1 None;
    def "implied_name_collision" ["a"; "b"] 0 1 1 None;
    def "name_collision" ["a"; "b"] 0 2 0 None ];
|}.

(** Binding the arguments of a call to the parameters of a function without
    positional defaults, [*args] or [**kwargs]. *)
Definition bind_arguments (co : code) (kwdefaults : list (string * obj))
    (args : list obj) (kwargs : gmap string obj) : result (gmap string obj) :=
  let positional := take (co_argcount co) (co_varnames co) in
  let params := take (co_argcount co + co_kwonlyargcount co) (co_varnames co) in
  let named := slice (co_varnames co) (co_posonlyargcount co)
                     (co_argcount co + co_kwonlyargcount co) in
  if (length positional <? length args)%nat then Raise TypeError
  else
    let bound : gmap string obj := list_to_map (zip positional args) in
    if bool_decide (dom kwargs ⊆ list_to_set named ∖ dom bound) then
      let locals := kwargs ∪ bound ∪ list_to_map kwdefaults in
      if bool_decide (list_to_set params ⊆ dom locals) then Ok locals
      else Raise TypeError
    else Raise TypeError.

(** The bodies of the functions of the test module. *)
Definition test_module_body (name : string) (locals : gmap string obj) : result obj :=
  let var (x : string) := default ONone (locals !! x) in
  if bool_decide (name = "add") then binop Add (var "x") (var "y")
  else if bool_decide (name = "add_d") then binop Add (var "x") (var "d")
  else if bool_decide (name = "oct") then
    Ok (OBool (match var "x" with OStr s => bool_decide (s = "octavian") | _ => false end))
  else if bool_decide (name = "bit_length") then Ok (OInt 42)
  else if bool_decide (name = "pos_only") then
    xy ← binop Add (var "x") (var "y"); xyz ← binop Add xy (var "z"); binop Add xyz (var "p")
  else if bool_decide (name = "implied") then Ok (OTuple [var "x"; var "b"])
  else if bool_decide (name = "implied_name_collision") then Ok (OTuple [var "a"; var "b"])
  else if bool_decide (name = "name_collision") then Ok (OTuple [var "a"; var "b"])
  else Raise OutsideFragment.

(** Calling a function of the host whose body is [body]. *)
Definition host_call_with (body : string → gmap string obj → result obj)
    (fn : obj) (args : list obj) (kwargs : gmap string obj) : result obj :=
  match fn with
  | OFunction name (Some co) kwdefaults =>
      locals ← bind_arguments co (default [] kwdefaults) args kwargs;
      body name locals
  | _ => Raise OutsideFragment
  end.

Definition test_host_call : obj → list obj → gmap string obj → result obj :=
  host_call_with test_module_body.

(** The backend a failed construction leaves the examples with. *)
Definition no_backend : Backend := {|
  _allow_methods := ∅; _allow_keywords := ∅; _allow_keywords_and_methods := ∅;
  Backend_predefined_names := ∅; _module_functions := [];
  _SupplyImpliedArguments_for := []; predefined_functions := ∅;
  _named_parameter_names_for := ∅ |}.

Definition backend_of (r : result Backend) : Backend :=
  match r with
  | Ok backend => backend
  | Raise _ => no_backend
  end.

(** The exception of a result, if it is one. *)
Definition raised {A} (r : result A) : option exn :=
  match r with
  | Ok _ => None
  | Raise x => Some x
  end.

Definition expression_of (r : result Expression) : Expression :=
  match r with
  | Ok e => e
  | Raise _ =>
      {| _backend := no_backend; expr := ""; _net_tokens := [];
         Expression_predefined_names := ∅; free_variables := ∅; _base_namespace := ∅ |}
  end.

(** [backend = pinas.Backend(module=module)] *)
Definition test_backend : Backend :=
  backend_of (Backend_init py_builtins test_module None None None).

(** [pinas.Expression(text, backend)] on the modelled tokenizer. *)
Abbreviation compile text := (Expression_init tokenize_model text test_backend).

(** [pinas.Expression(text, backend).eval(namespace)] on the modelled
    tokenizer and evaluator. *)
Definition run (text : string) (namespace : gmap string obj) : result obj :=
  e ← compile text; Expression_eval (py_eval_model test_host_call) e namespace.

(** The namespace of [Test_Cond._test_ex]. *)
Definition test_namespace : gmap string obj :=
  list_to_map [("a", OInt 0); ("b", OInt 1); ("c", OInt 2); ("d", OInt 3)].

(** ** The token loop, read off the token list

    What the loop leaves in its variables is a function of the tokens it has
    run over; the definitions below say which. *)

(** A token that goes into the normalised expression. *)
Definition kept (t : TokenInfo) : bool := negb (is_layout (tok_type t)).

(** The last kept token, [prev0] if there is none. *)
Definition last_kept (prev0 : option TokenInfo) (toks : list TokenInfo) : option TokenInfo :=
  foldl (fun p t => if kept t then Some t else p) prev0 toks.

(** Where the last kept token ended. *)
Definition last_end (end0 : Z * Z) (toks : list TokenInfo) : Z * Z :=
  foldl (fun e t => if kept t then tok_end t else e) end0 toks.

(** An identifier is a [NAME] token that does not follow a dot. *)
Definition is_identifier (prev0 : option TokenInfo) (t : TokenInfo) : bool :=
  bool_decide (tok_type t = NAME) && negb (after_dot prev0).

(** The identifiers of [toks], in order. *)
Fixpoint identifiers (prev0 : option TokenInfo) (toks : list TokenInfo) : list string :=
  match toks with
  | [] => []
  | t :: toks' =>
      (if is_identifier prev0 t then [tok_string t] else [])
        ++ identifiers (if kept t then Some t else prev0) toks'
  end.

(** The named parameters of the functions among [ids]. *)
Definition eligible_names (backend : Backend) (ids : list string) : gset string :=
  ⋃ map (fun n => default ∅ (_named_parameter_names_for backend !! n)) ids.

(** The pieces of the normalised text: before each token the gap from the
    end of the last kept token, then the token unless it is layout. *)
Fixpoint layout_text (end0 : Z * Z) (toks : list TokenInfo) : list string :=
  match toks with
  | [] => []
  | t :: toks' =>
      gap end0 t ++
      (if kept t then tok_string t :: layout_text (tok_end t) toks'
       else layout_text end0 toks')
  end.

(** The separator the normalised text has before a token that starts at
    [start] when the last kept token ended at [end0]: nothing if the two
    touch, the columns in between as spaces on one line, two spaces across
    lines. *)
Definition separator (end0 start : Z * Z) : string :=
  if bool_decide (start = end0) then ""
  else if bool_decide (start.1 = end0.1) then str_repeat " " (start.2 - end0.2)
  else "  ".

(** The normalised text before stripping: every token contributes its
    separator, a kept token its text as well. *)
Fixpoint normalised (end0 : Z * Z) (toks : list TokenInfo) : string :=
  match toks with
  | [] => ""
  | t :: toks' =>
      separator end0 (tok_start t) +:+
      (if kept t then tok_string t +:+ normalised (tok_end t) toks'
       else normalised end0 toks')
  end.

(** The token before a bare [=] names a parameter of an identifier met so
    far, that token included. *)
Definition eligible_before (backend : Backend) (pre : list TokenInfo) : bool :=
  match last_kept None pre with
  | Some p =>
      bool_decide (tok_type p = NAME)
      && bool_decide (tok_string p ∈ eligible_names backend (identifiers None pre))
  | None => false
  end.

(** Operators are not empty: true of every tokenizer, and what keeps
    [tok.string[-1]] from raising [IndexError]. *)
Definition ops_nonempty (toks : list TokenInfo) : Prop :=
  Forall (fun t => tok_type t = OP → tok_string t ≠ "") toks.

(** Two states of the token loop that differ in the normalised text at
    most. *)
Definition same_checks (st st' : scan_state) : Prop :=
  unbound_names st = unbound_names st'
  ∧ used_named_params st = used_named_params st'
  ∧ available_named_parameter_names st = available_named_parameter_names st'
  ∧ net_toks st = net_toks st'
  ∧ prev_end st = prev_end st'
  ∧ prev st = prev st'.

(** Two runs of the loop that raise the same exception or end in such
    states. *)
Definition same_outcome (r r' : result scan_state) : Prop :=
  match r, r' with
  | Ok st, Ok st' => same_checks st st'
  | Raise x, Raise x' => x = x'
  | _, _ => False
  end.

(** ** Hosts used by the examples below *)

(** A token, written as [tokenize] prints it. *)
Definition token (ty : toktype) (s : string) (start end_ : Z * Z) : TokenInfo :=
  {| tok_type := ty; tok_string := s; tok_start := start; tok_end := end_ |}.

(** A host module that exports a function under the name [eval]. *)
Definition eval_module : pymodule := {|
  __all__ := ["eval"];
  module_attrs := {[ "eval" := OFunction "eval" None None ]};
|}.

Definition eval_backend : Backend :=
  backend_of (Backend_init py_builtins eval_module None None None).

(** [pinas.Expression('add(1, 2)', backend)] *)
Definition add_expression : Expression := expression_of (compile "add(1, 2)").

(** A host whose module is the one function [def f(x, *, d): return x + d]. *)
Definition f_module : pymodule := {|
  __all__ := ["f"];
  module_attrs := list_to_map [def "f" ["x"; "d"] 0 1 1 None];
|}.

Definition f_body (name : string) (locals : gmap string obj) : result obj :=
  if bool_decide (name = "f")
  then binop Add (default ONone (locals !! "x")) (default ONone (locals !! "d"))
  else Raise OutsideFragment.

Definition f_host_call : obj → list obj → gmap string obj → result obj :=
  host_call_with f_body.

Definition f_backend : Backend :=
  backend_of (Backend_init py_builtins f_module None None None).

(** [pinas.Expression('f(10)', backend)] with that backend. *)
Definition f_expression : Expression :=
  expression_of (Expression_init tokenize_model "f(10)" f_backend).

(** Expressions over the backend of the test suite. *)
Definition one_plus_expression : Expression := expression_of (compile "1 +").
Definition a_plus_b_expression : Expression := expression_of (compile "a + b").
Definition add_d_zz_expression : Expression := expression_of (compile "add_d(10) + zz").
Definition explicit_expression : Expression :=
  expression_of (compile "implied(name_collision(1, 2), b=9)").
Definition wide_expression : Expression := expression_of (compile "1   +  2").
Definition broken_expression : Expression := expression_of (compile "1 + # one
  2").

(** A host module that exports its own [__builtins__] attribute, the dict
    that every Python module carries; one entry stands for its content. *)
Definition builtins_module : pymodule := {|
  __all__ := ["__builtins__"];
  module_attrs := {[ "__builtins__" := ODict [("eval", OFunction "eval" None None)] ]};
|}.

Definition builtins_backend : Backend :=
  backend_of (Backend_init py_builtins builtins_module None None None).

(** [pinas.Expression('__builtins__', backend)] with that backend. *)
Definition builtins_expression : Expression :=
  expression_of (Expression_init tokenize_model "__builtins__" builtins_backend).

(** [pinas.Expression('c+c', backend)] *)
Definition cc_expression : Expression := expression_of (compile "c+c").

(** The tokens of [1 . bit_length()], around the method name. *)
Definition bit_length_pre : list TokenInfo :=
  [token NUMBER "1" (1, 0) (1, 1); token OP "." (1, 2) (1, 3)].
Definition bit_length_tok : TokenInfo := token NAME "bit_length" (1, 4) (1, 14).
Definition bit_length_post : list TokenInfo :=
  [token OP "(" (1, 14) (1, 15); token OP ")" (1, 15) (1, 16);
   token NEWLINE "" (1, 16) (1, 17); token ENDMARKER "" (2, 0) (2, 0)].

(** The tokens of [a.foo.bar]. *)
Definition foo_tok : TokenInfo := token NAME "foo" (1, 2) (1, 5).
Definition bar_tok : TokenInfo := token NAME "bar" (1, 6) (1, 9).
Definition bar_pre : list TokenInfo :=
  [token NAME "a" (1, 0) (1, 1); token OP "." (1, 1) (1, 2); foo_tok;
   token OP "." (1, 5) (1, 6)].
Definition bar_post : list TokenInfo :=
  [token NEWLINE "" (1, 9) (1, 10); token ENDMARKER "" (2, 0) (2, 0)].

(** The tokens of [add(add=2, y=1)], around the first [=]. *)
Definition add_pre : list TokenInfo :=
  [token NAME "add" (1, 0) (1, 3); token OP "(" (1, 3) (1, 4);
   token NAME "add" (1, 4) (1, 7)].
Definition add_eq : TokenInfo := token OP "=" (1, 7) (1, 8).
Definition add_post : list TokenInfo :=
  [token NUMBER "2" (1, 8) (1, 9); token OP "," (1, 9) (1, 10);
   token NAME "y" (1, 11) (1, 12); token OP "=" (1, 12) (1, 13);
   token NUMBER "1" (1, 13) (1, 14); token OP ")" (1, 14) (1, 15);
   token NEWLINE "" (1, 15) (1, 16); token ENDMARKER "" (2, 0) (2, 0)].

(** The tokens of [add(x=2, y=1)], around the first [=]. *)
Definition x_pre : list TokenInfo :=
  [token NAME "add" (1, 0) (1, 3); token OP "(" (1, 3) (1, 4);
   token NAME "x" (1, 4) (1, 5)].
Definition x_eq : TokenInfo := token OP "=" (1, 5) (1, 6).
Definition x_post : list TokenInfo :=
  [token NUMBER "2" (1, 6) (1, 7); token OP "," (1, 7) (1, 8);
   token NAME "y" (1, 9) (1, 10); token OP "=" (1, 10) (1, 11);
   token NUMBER "1" (1, 11) (1, 12); token OP ")" (1, 12) (1, 13);
   token NEWLINE "" (1, 13) (1, 14); token ENDMARKER "" (2, 0) (2, 0)].

(** The tokens of [oct(y=1) + add(1, 2)], around the [=]. *)
Definition oct_pre : list TokenInfo :=
  [token NAME "oct" (1, 0) (1, 3); token OP "(" (1, 3) (1, 4);
   token NAME "y" (1, 4) (1, 5)].
Definition oct_eq : TokenInfo := token OP "=" (1, 5) (1, 6).
Definition oct_post : list TokenInfo :=
  [token NUMBER "1" (1, 6) (1, 7); token OP ")" (1, 7) (1, 8);
   token OP "+" (1, 9) (1, 10); token NAME "add" (1, 11) (1, 14);
   token OP "(" (1, 14) (1, 15); token NUMBER "1" (1, 15) (1, 16);
   token OP "," (1, 16) (1, 17); token NUMBER "2" (1, 18) (1, 19);
   token OP ")" (1, 19) (1, 20);
   token NEWLINE "" (1, 20) (1, 21); token ENDMARKER "" (2, 0) (2, 0)].

(** [pinas.Expression('add_d(10)', backend)] *)
Definition add_d_expression : Expression := expression_of (compile "add_d(10)").

(** [pinas.Expression('add(x=2, y=1)', backend)] *)
Definition named_expression : Expression := expression_of (compile "add(x=2, y=1)").

(** [pinas.Expression('index + 1', backend)]: [index] is an allowed method
    name. *)
Definition index_expression : Expression := expression_of (compile "index + 1").

(** The tokens of [1 $ 2], around the first error token. *)
Definition stray_pre : list TokenInfo := [token NUMBER "1" (1, 0) (1, 1)].
Definition stray_tok : TokenInfo := token ERRORTOKEN " " (1, 1) (1, 2).
Definition stray_post : list TokenInfo :=
  [token ERRORTOKEN "$" (1, 2) (1, 3); token NUMBER "2" (1, 4) (1, 5);
   token NEWLINE "" (1, 5) (1, 6); token ENDMARKER "" (2, 0) (2, 0)].

(** A host that allows the method names [__builtins__] and [setdefault],
    and [pinas.Expression('__builtins__.setdefault(k, v)', backend)]. *)
Definition setdefault_backend : Backend :=
  backend_of (Backend_init py_builtins test_module None None
                (Some (list_to_set ["__builtins__"; "setdefault"]))).

Definition setdefault_expression : Expression :=
  expression_of
    (Expression_init tokenize_model "__builtins__.setdefault(k, v)" setdefault_backend).

Definition setdefault_namespace (v : Z) : gmap string obj :=
  list_to_map [("k", OStr "x"); ("v", OInt v)].

(** The [=] of [f(10, d=5)]. *)
Definition d_eq : TokenInfo := token OP "=" (1, 7) (1, 8).

(** * Properties *)

(** ** The test suite, on the models

    The cases of [test/test_pinas.py] whose expressions lie inside the
    modelled fragments. *)

Example test_2plus2 : run "c+c" test_namespace = Ok (OInt 4).
Proof. vm_compute. reflexivity. Qed.

Example test_funcall : run "add(b, d)" test_namespace = Ok (OInt 4).
Proof. vm_compute. reflexivity. Qed.

Example test_implied_argument : run "add_d(10)" test_namespace = Ok (OInt 13).
Proof. vm_compute. reflexivity. Qed.

Example test_illegal_as_attribute :
  raised (compile "1 . bit_length()")
  = Some (PinasExpressionError bit_length_tok "Illegal method .bit_length").
Proof. vm_compute. reflexivity. Qed.

Example test_legal_named_attribute : run "add(x=2, y=1)" test_namespace = Ok (OInt 3).
Proof. vm_compute. reflexivity. Qed.

Example test_unknown_named_att :
  raised (compile "add(add=2, y=1)")
  = Some (PinasExpressionError add_eq "No such named parameter: add").
Proof. vm_compute. reflexivity. Qed.

Example test_mixed_args : run "pos_only(1,2,3)" test_namespace = Ok (OInt 6).
Proof. vm_compute. reflexivity. Qed.

Example test_mixed_args_named :
  run "pos_only(1,y=2,z=3,p=4)" test_namespace = Ok (OInt 10).
Proof. vm_compute. reflexivity. Qed.

Example test_pos_only_yet_named :
  raised (compile "pos_only(x=1,y=2,z=3,p=4)")
  = Some (PinasExpressionError (token OP "=" (1, 10) (1, 11)) "No such named parameter: x").
Proof. vm_compute. reflexivity. Qed.

Example test_avoided_name_collision :
  run "name_collision(1,2)" test_namespace = Ok (OTuple [OInt 1; OInt 2]).
Proof. vm_compute. reflexivity. Qed.

Example test_builtins_no_matches :
  map_Forall (fun _ v => ImpliedArguments v = []) py_builtins.
Proof. apply (bool_decide_unpack _). vm_compute. reflexivity. Qed.

Example test_pos_only :
  ImpliedArguments <$> module_attrs test_module !! "pos_only" = Some [].
Proof. vm_compute. reflexivity. Qed.

Example test_implied :
  ImpliedArguments <$> module_attrs test_module !! "implied_name_collision" = Some ["b"].
Proof. vm_compute. reflexivity. Qed.

Example test_named_pos_only :
  NamedParameterNames <$> module_attrs test_module !! "pos_only" = Some ["y"; "z"; "p"].
Proof. vm_compute. reflexivity. Qed.

Example test_named_none :
  NamedParameterNames <$> module_attrs test_module !! "bit_length" = Some [].
Proof. vm_compute. reflexivity. Qed.

Example test_named_one :
  NamedParameterNames <$> module_attrs test_module !! "oct" = Some ["x"].
Proof. vm_compute. reflexivity. Qed.

(** ** The black list *)

Lemma size_inter_nonzero (X Y : gset string) n :
  n ∈ X → n ∈ Y → size (X ∩ Y) ≠ 0%nat.
Proof.
  intros HX HY Hsize. apply size_empty_inv in Hsize.
  assert (n ∈ X ∩ Y) as Hn by set_solver.
  rewrite Hsize in Hn. set_solver.
Qed.

(** C1, as amended: [Backend] construction raises [ValueError] whenever the
    set of allowed builtin names (the override, or the default when none is
    given) has a member in [known_unsafe_builtins], whatever the host module
    exports and whatever [builtins] holds. *)
Theorem blacklist_rejects_allowed_builtin
    (builtins : gmap string obj) (module : pymodule)
    (allow_builtin_names allow_keywords allow_methods : option (gset string))
    (n : string) :
  n ∈ default default_allow_builtin_names allow_builtin_names →
  n ∈ known_unsafe_builtins →
  Backend_init builtins module allow_builtin_names allow_keywords allow_methods
    = Raise (ValueError "").
Proof.
  intros Hallow Hunsafe. unfold Backend_init.
  rewrite bool_decide_eq_true_2; [reflexivity|].
  by eapply size_inter_nonzero.
Qed.

Lemma blacklist_rejects_allowed_builtin_witness :
  "eval" ∈ default default_allow_builtin_names (Some ({[ "abs"; "eval" ]} : gset string))
  ∧ "eval" ∈ known_unsafe_builtins
  ∧ Backend_init py_builtins test_module (Some {[ "abs"; "eval" ]}) None None
    = Raise (ValueError "").
Proof.
  assert ("eval" ∈ default default_allow_builtin_names
                     (Some ({[ "abs"; "eval" ]} : gset string))) as H1
    by (apply (bool_decide_unpack _); vm_compute; reflexivity).
  assert ("eval" ∈ known_unsafe_builtins) as H2
    by (apply (bool_decide_unpack _); vm_compute; reflexivity).
  split; [exact H1|]. split; [exact H2|].
  exact (blacklist_rejects_allowed_builtin py_builtins test_module
           (Some {[ "abs"; "eval" ]}) None None "eval" H1 H2).
Defined.

Lemma backend_of_ok (r : result Backend) : raised r = None → r = Ok (backend_of r).
Proof. by destruct r. Qed.

Lemma expression_of_ok (r : result Expression) : raised r = None → r = Ok (expression_of r).
Proof. by destruct r. Qed.

Lemma raised_None {A} (r : result A) : raised r = None → ∃ a, r = Ok a.
Proof. destruct r; [by eauto|done]. Qed.

(** C1 as stated fails on the module path: a host module that lists [eval]
    in [__all__] gets its backend, with the black-listed name registered. *)
Lemma blacklist_skips_module_names :
  Backend_init py_builtins eval_module None None None = Ok eval_backend
  ∧ "eval" ∈ known_unsafe_builtins
  ∧ "eval" ∈ Backend_predefined_names eval_backend
  ∧ predefined_functions eval_backend !! "eval" = Some (OFunction "eval" None None).
Proof.
  split; [apply backend_of_ok; vm_compute; reflexivity|].
  split; [apply (bool_decide_unpack _); vm_compute; reflexivity|].
  split; [apply (bool_decide_unpack _); vm_compute; reflexivity|].
  vm_compute. reflexivity.
Qed.

(** ** The token loop *)

Lemma last_char_None s : last_char s = None → s = "".
Proof.
  destruct s as [|c s]; [done|]. simpl.
  destruct s; [done|]. intros H. exfalso. revert c H.
  induction s as [|d s IH]; intros c; simpl; [done|].
  destruct s; [done|]. apply (IH d).
Qed.

(** The checks of one token touch the name sets only. *)
Lemma check_token_ok backend st t st' :
  check_token backend st t = Ok st' →
  net_expr st' = net_expr st ∧ net_toks st' = net_toks st
  ∧ prev_end st' = prev_end st ∧ prev st' = prev st
  ∧ unbound_names st' =
      (if is_identifier (prev st) t then unbound_names st ∪ {[ tok_string t ]}
       else unbound_names st)
  ∧ available_named_parameter_names st' =
      (if is_identifier (prev st) t
       then available_named_parameter_names st
            ∪ default ∅ (_named_parameter_names_for backend !! tok_string t)
       else available_named_parameter_names st).
Proof.
  unfold check_token, is_identifier.
  destruct (after_dot (prev st)) eqn:Hdot;
    repeat (case_bool_decide || case_match); intros; simplify_eq/=; done.
Qed.

(** Whatever the checks raise names the token at hand. *)
Lemma check_token_raise backend st t x :
  check_token backend st t = Raise x →
  (∃ errtext, x = PinasExpressionError t errtext)
  ∨ (x = IndexError ∧ tok_type t = OP ∧ tok_string t = "").
Proof.
  unfold check_token.
  repeat (case_bool_decide || case_match); intros; simplify_eq/=;
    eauto using last_char_None.
Qed.

Lemma scan_token_ok backend st t st' :
  scan_token backend st t = Ok st' →
  prev st' = (if kept t then Some t else prev st)
  ∧ prev_end st' = (if kept t then tok_end t else prev_end st)
  ∧ net_expr st' =
      (net_expr st ++ gap (prev_end st) t ++ if kept t then [tok_string t] else [])%list
  ∧ net_toks st' = (net_toks st ++ if kept t then [t] else [])%list
  ∧ unbound_names st' =
      (if is_identifier (prev st) t then unbound_names st ∪ {[ tok_string t ]}
       else unbound_names st)
  ∧ available_named_parameter_names st' =
      (if is_identifier (prev st) t
       then available_named_parameter_names st
            ∪ default ∅ (_named_parameter_names_for backend !! tok_string t)
       else available_named_parameter_names st).
Proof.
  unfold scan_token, kept.
  destruct (check_token backend st t) as [st1|] eqn:Hcheck; [|done].
  apply check_token_ok in Hcheck as (Hexpr & Htoks & Hend & Hprev & Hunb & Hav).
  simpl. destruct (is_layout (tok_type t)); intros [= <-]; simpl;
    rewrite ?Hprev, ?Hend, ?Htoks, ?Hunb, ?Hav, ?app_nil_r, <-?app_assoc; done.
Qed.

Lemma scan_token_raise backend st t x :
  scan_token backend st t = Raise x → check_token backend st t = Raise x.
Proof.
  unfold scan_token. destruct (check_token backend st t); simpl; [|done].
  by destruct (is_layout _).
Qed.

Lemma scan_tokens_app backend st l1 l2 :
  scan_tokens backend st (l1 ++ l2)
  = scan_tokens backend st l1 ≫= fun st1 => scan_tokens backend st1 l2.
Proof.
  revert st. induction l1 as [|t l1 IH]; intros st; simpl; [done|].
  destruct (scan_token backend st t); simpl; [apply IH|done].
Qed.

(** The state after the loop has run over [toks]. *)
Lemma scan_tokens_ok backend toks : ∀ st st',
  scan_tokens backend st toks = Ok st' →
  prev st' = last_kept (prev st) toks
  ∧ prev_end st' = last_end (prev_end st) toks
  ∧ net_expr st' = (net_expr st ++ layout_text (prev_end st) toks)%list
  ∧ net_toks st' = (net_toks st ++ filter (fun t => kept t) toks)%list
  ∧ unbound_names st' = unbound_names st ∪ list_to_set (identifiers (prev st) toks)
  ∧ available_named_parameter_names st' =
      available_named_parameter_names st
      ∪ eligible_names backend (identifiers (prev st) toks).
Proof.
  induction toks as [|t toks IH]; intros st st'; simpl.
  - intros [= <-]. unfold eligible_names. simpl.
    rewrite !app_nil_r. repeat split; set_solver.
  - destruct (scan_token backend st t) as [st1|] eqn:Hstep; [|done]. simpl.
    intros Hrest. apply scan_token_ok in Hstep as (Hprev & Hend & Hexpr & Htoks & Hunb & Hav).
    apply IH in Hrest as (Hprev' & Hend' & Hexpr' & Htoks' & Hunb' & Hav').
    rewrite Hprev', Hend', Hexpr', Htoks', Hunb', Hav'.
    rewrite Hprev, Hend, Hexpr, Htoks, Hunb, Hav.
    unfold last_kept, last_end, eligible_names. rewrite filter_cons.
    destruct (kept t) eqn:Hkept; destruct (is_identifier (prev st) t); simpl;
      rewrite ?app_nil_r, <-?app_assoc; repeat split; try done; set_solver.
Qed.

(** A failing loop has met a token it rejects. *)
Lemma scan_tokens_raise backend toks : ∀ st x,
  scan_tokens backend st toks = Raise x →
  ∃ t, t ∈ toks ∧
    ((∃ errtext, x = PinasExpressionError t errtext)
     ∨ (x = IndexError ∧ tok_type t = OP ∧ tok_string t = "")).
Proof.
  induction toks as [|t toks IH]; intros st x; simpl; [done|].
  destruct (scan_token backend st t) as [st1|] eqn:Hstep; simpl.
  - intros Hrest. apply IH in Hrest as (t' & Hin & Hx). exists t'. set_solver.
  - intros [= <-]. apply scan_token_raise, check_token_raise in Hstep.
    exists t. set_solver.
Qed.

Lemma scan_tokens_raise_expression_error backend toks st x :
  ops_nonempty toks →
  scan_tokens backend st toks = Raise x →
  ∃ t errtext, t ∈ toks ∧ x = PinasExpressionError t errtext.
Proof.
  intros Hops Hraise. apply scan_tokens_raise in Hraise as (t & Hin & [[m ->]|(-> & Hop & Hempty)]).
  - eauto.
  - unfold ops_nonempty in Hops. rewrite Forall_forall in Hops.
    by destruct (Hops t Hin Hop).
Qed.

Lemma test_backend_ok :
  Backend_init py_builtins test_module None None None = Ok test_backend.
Proof. apply backend_of_ok. vm_compute. reflexivity. Qed.

Lemma Expression_init_scan_raise generate_tokens text backend pre toks x :
  (generate_tokens text).1 = (pre ++ toks)%list →
  scan_tokens backend scan_start pre = Raise x →
  Expression_init generate_tokens text backend = Raise x.
Proof.
  intros Hstream Hraise. unfold Expression_init, scan.
  rewrite Hstream, scan_tokens_app, Hraise. reflexivity.
Qed.

Lemma Expression_init_token_raise generate_tokens text backend pre tok post st x :
  (generate_tokens text).1 = (pre ++ tok :: post)%list →
  scan_tokens backend scan_start pre = Ok st →
  check_token backend st tok = Raise x →
  Expression_init generate_tokens text backend = Raise x.
Proof.
  intros Hstream Hpre Hcheck. unfold Expression_init, scan.
  rewrite Hstream, scan_tokens_app, Hpre. simpl.
  unfold scan_token. rewrite Hcheck. reflexivity.
Qed.

(** ** Method names *)

(** C4, as amended: if the token stream of an expression has an identifier
    right after a [.] and the identifier is not an allowed method, then the
    expression does not compile: [Expression_init] raises a
    [PinasExpressionError], so no [Expression] exists to evaluate.  The error
    is the one of the first rejected token: it reports the illegal method at
    that identifier whenever the tokens before it pass the checks. *)
Theorem illegal_method_rejected
    (generate_tokens : string → list TokenInfo * option exn)
    (text : string) (backend : Backend)
    (pre : list TokenInfo) (tok : TokenInfo) (post : list TokenInfo) (dot : TokenInfo) :
  (generate_tokens text).1 = (pre ++ tok :: post)%list →
  ops_nonempty pre →
  tok_type tok = NAME →
  last_kept None pre = Some dot →
  tok_string dot = "." →
  tok_string tok ∉ _allow_methods backend →
  (∃ t errtext,
     Expression_init generate_tokens text backend = Raise (PinasExpressionError t errtext))
  ∧ ((∃ st, scan_tokens backend scan_start pre = Ok st) →
     Expression_init generate_tokens text backend
     = Raise (PinasExpressionError tok ("Illegal method ." +:+ tok_string tok))).
Proof.
  intros Hstream Hops Hname Hlast Hdot Hmethod.
  assert (∀ st, scan_tokens backend scan_start pre = Ok st →
            Expression_init generate_tokens text backend
            = Raise (PinasExpressionError tok ("Illegal method ." +:+ tok_string tok)))
    as Hfirst.
  { intros st Hpre. eapply Expression_init_token_raise; [done..|].
    apply scan_tokens_ok in Hpre as (Hprev & _). simpl in Hprev.
    unfold check_token. rewrite Hprev, Hlast. simpl.
    by rewrite !bool_decide_eq_true_2. }
  split.
  - destruct (scan_tokens backend scan_start pre) as [st|x] eqn:Hpre; [by eauto|].
    destruct (scan_tokens_raise_expression_error _ _ _ _ Hops Hpre) as (t & m & _ & ->).
    exists t, m. by eapply Expression_init_scan_raise.
  - intros [st Hpre]. by eapply Hfirst.
Qed.

(** The test [test_illegal_as_attribute]. *)
Lemma illegal_method_rejected_witness :
  (tokenize_model "1 . bit_length()").1
    = (bit_length_pre ++ bit_length_tok :: bit_length_post)%list
  ∧ ops_nonempty bit_length_pre
  ∧ tok_type bit_length_tok = NAME
  ∧ last_kept None bit_length_pre = Some (token OP "." (1, 2) (1, 3))
  ∧ tok_string (token OP "." (1, 2) (1, 3)) = "."
  ∧ (tok_string bit_length_tok ∉ _allow_methods test_backend)
  ∧ (∃ st, scan_tokens test_backend scan_start bit_length_pre = Ok st)
  ∧ compile "1 . bit_length()"
    = Raise (PinasExpressionError bit_length_tok "Illegal method .bit_length").
Proof.
  assert ((tokenize_model "1 . bit_length()").1
          = (bit_length_pre ++ bit_length_tok :: bit_length_post)%list) as H1
    by (vm_compute; reflexivity).
  assert (ops_nonempty bit_length_pre) as H2 by (repeat constructor; discriminate).
  assert (tok_type bit_length_tok = NAME) as H3 by reflexivity.
  assert (last_kept None bit_length_pre = Some (token OP "." (1, 2) (1, 3))) as H4
    by reflexivity.
  assert (tok_string (token OP "." (1, 2) (1, 3)) = ".") as H5 by reflexivity.
  assert (tok_string bit_length_tok ∉ _allow_methods test_backend) as H6
    by (apply (bool_decide_unpack _); vm_compute; reflexivity).
  assert (∃ st, scan_tokens test_backend scan_start bit_length_pre = Ok st) as H7
    by (apply raised_None; vm_compute; reflexivity).
  repeat (split; [assumption|]).
  exact (proj2 (illegal_method_rejected tokenize_model "1 . bit_length()" test_backend
                  bit_length_pre bit_length_tok bit_length_post _ H1 H2 H3 H4 H5 H6) H7).
Defined.

(** C4 as stated fails where an earlier token is rejected first: in
    [a.foo.bar] the identifier [bar] follows a dot and is no allowed method,
    yet the error raised reports [foo], at column 2, not [bar] at column 6. *)
Lemma illegal_method_reports_first_token_only :
  (tokenize_model "a.foo.bar").1 = (bar_pre ++ bar_tok :: bar_post)%list
  ∧ tok_type bar_tok = NAME
  ∧ last_kept None bar_pre = Some (token OP "." (1, 5) (1, 6))
  ∧ (tok_string bar_tok ∉ _allow_methods test_backend)
  ∧ compile "a.foo.bar" = Raise (PinasExpressionError foo_tok "Illegal method .foo")
  ∧ compile "a.foo.bar" ≠ Raise (PinasExpressionError bar_tok "Illegal method .bar").
Proof.
  assert (compile "a.foo.bar" = Raise (PinasExpressionError foo_tok "Illegal method .foo"))
    as Hc by (vm_compute; reflexivity).
  split; [vm_compute; reflexivity|]. split; [reflexivity|]. split; [reflexivity|].
  split; [apply (bool_decide_unpack _); vm_compute; reflexivity|].
  split; [exact Hc|]. rewrite Hc. discriminate.
Qed.

(** ** Operators that end in [=] *)

Lemma scan_start_state backend pre st :
  scan_tokens backend scan_start pre = Ok st →
  prev st = last_kept None pre
  ∧ available_named_parameter_names st = eligible_names backend (identifiers None pre).
Proof.
  intros Hpre. apply scan_tokens_ok in Hpre as (Hprev & _ & _ & _ & _ & Hav).
  simpl in *. split; [done|]. rewrite Hav. set_solver.
Qed.

Lemma comparison_operators (s : string) :
  s ∈ ["=="; "!="; "<="; ">="] → s ≠ "=" ∧ s ∈ ["="; "=="; "!="; "<="; ">="].
Proof.
  intros H. split.
  - intros ->. revert H. rewrite !elem_of_cons, elem_of_nil.
    intros [?|[?|[?|[?|[]]]]]; discriminate.
  - apply elem_of_cons. by right.
Qed.

(** C5, as amended: take an operator token that ends in [=].  A bare [=] is
    rejected unless the token before it is an identifier that is an eligible
    named parameter of some identifier met so far in the expression, the
    token before it included; functions referenced only after the [=] do not
    count.  Every other such operator is rejected, except [==], [!=], [<=]
    and [>=].  Rejected means that [Expression_init] raises a
    [PinasExpressionError], at this token if the tokens before it pass;
    otherwise the token passes the checks. *)
Theorem assignment_operators_checked
    (generate_tokens : string → list TokenInfo * option exn)
    (text : string) (backend : Backend)
    (pre : list TokenInfo) (tok : TokenInfo) (post : list TokenInfo) :
  (generate_tokens text).1 = (pre ++ tok :: post)%list →
  ops_nonempty pre →
  tok_type tok = OP →
  last_char (tok_string tok) = Some "="%char →
  ((tok_string tok = "=" ∧ eligible_before backend pre = false
    ∨ tok_string tok ∉ ["="; "=="; "!="; "<="; ">="]) →
   (∃ t errtext,
      Expression_init generate_tokens text backend = Raise (PinasExpressionError t errtext))
   ∧ ((∃ st, scan_tokens backend scan_start pre = Ok st) →
      ∃ errtext,
        Expression_init generate_tokens text backend
        = Raise (PinasExpressionError tok errtext)))
  ∧ ((tok_string tok = "=" ∧ eligible_before backend pre = true
      ∨ tok_string tok ∈ ["=="; "!="; "<="; ">="]) →
     ∀ st, scan_tokens backend scan_start pre = Ok st →
       ∃ st', scan_token backend st tok = Ok st').
Proof.
  intros Hstream Hops Hop Hlast. split.
  - intros Hbad.
    assert (∀ st, scan_tokens backend scan_start pre = Ok st →
              ∃ errtext, check_token backend st tok = Raise (PinasExpressionError tok errtext))
      as Hcheck.
    { intros st Hpre. apply scan_start_state in Hpre as [Hprev Hav].
      unfold check_token. rewrite Hop, Hlast, Hprev, Hav. simpl.
      destruct Hbad as [[Heq Hel]|Hother].
      - rewrite Heq. simpl. unfold eligible_before in Hel.
        destruct (last_kept None pre) as [p|]; [|by eauto].
        case_bool_decide as Hname; [|by eauto]. simpl in Hel.
        apply bool_decide_eq_false in Hel. rewrite bool_decide_eq_true_2 by done.
        by eauto.
      - rewrite (bool_decide_eq_false_2 (tok_string tok = "=")) by set_solver.
        rewrite bool_decide_eq_true_2 by done. by eauto. }
    split.
    + destruct (scan_tokens backend scan_start pre) as [st|x] eqn:Hpre.
      * destruct (Hcheck st eq_refl) as [m Hm]. exists tok, m.
        by eapply Expression_init_token_raise.
      * destruct (scan_tokens_raise_expression_error _ _ _ _ Hops Hpre) as (t & m & _ & ->).
        exists t, m. by eapply Expression_init_scan_raise.
    + intros [st Hpre]. destruct (Hcheck st Hpre) as [m Hm]. exists m.
      by eapply Expression_init_token_raise.
  - intros Hgood st Hpre. apply scan_start_state in Hpre as [Hprev Hav].
    assert (∃ st1, check_token backend st tok = Ok st1) as [st1 Hst1].
    { unfold check_token. rewrite Hop, Hlast, Hprev, Hav. simpl.
      destruct Hgood as [[Heq Hel]|Hcmp].
      - rewrite Heq. simpl. unfold eligible_before in Hel.
        destruct (last_kept None pre) as [p|]; [|done].
        apply andb_true_iff in Hel as [Hname Hel]. rewrite Hname.
        apply bool_decide_eq_true in Hel. rewrite bool_decide_eq_false_2 by tauto.
        by eauto.
      - apply comparison_operators in Hcmp as [Hne Hin].
        rewrite (bool_decide_eq_false_2 (tok_string tok = "=")) by done.
        rewrite bool_decide_eq_false_2 by tauto.
        by eauto. }
    unfold scan_token. rewrite Hst1. simpl. destruct (is_layout _); eauto.
Qed.

(** The tests [test_unknown_named_att], where the [=] is rejected, and
    [test_legal_named_attribute], where it passes. *)
Lemma assignment_operators_checked_witness :
  ((tokenize_model "add(add=2, y=1)").1 = (add_pre ++ add_eq :: add_post)%list
   ∧ ops_nonempty add_pre
   ∧ tok_type add_eq = OP
   ∧ last_char (tok_string add_eq) = Some "="%char
   ∧ tok_string add_eq = "="
   ∧ eligible_before test_backend add_pre = false
   ∧ (∃ st, scan_tokens test_backend scan_start add_pre = Ok st)
   ∧ ∃ errtext, compile "add(add=2, y=1)" = Raise (PinasExpressionError add_eq errtext))
  ∧ ((tokenize_model "add(x=2, y=1)").1 = (x_pre ++ x_eq :: x_post)%list
     ∧ ops_nonempty x_pre
     ∧ tok_type x_eq = OP
     ∧ last_char (tok_string x_eq) = Some "="%char
     ∧ tok_string x_eq = "="
     ∧ eligible_before test_backend x_pre = true
     ∧ ∃ st, scan_tokens test_backend scan_start x_pre = Ok st
             ∧ ∃ st', scan_token test_backend st x_eq = Ok st').
Proof.
  split.
  - assert ((tokenize_model "add(add=2, y=1)").1 = (add_pre ++ add_eq :: add_post)%list)
      as H1 by (vm_compute; reflexivity).
    assert (ops_nonempty add_pre) as H2 by (repeat constructor; discriminate).
    assert (tok_type add_eq = OP) as H3 by reflexivity.
    assert (last_char (tok_string add_eq) = Some "="%char) as H4 by reflexivity.
    assert (tok_string add_eq = "=") as H5 by reflexivity.
    assert (eligible_before test_backend add_pre = false) as H6
      by (vm_compute; reflexivity).
    assert (∃ st, scan_tokens test_backend scan_start add_pre = Ok st) as H7
      by (apply raised_None; vm_compute; reflexivity).
    repeat (split; [assumption|]).
    exact (proj2 (proj1 (assignment_operators_checked tokenize_model "add(add=2, y=1)"
                           test_backend add_pre add_eq add_post H1 H2 H3 H4)
                    (or_introl (conj H5 H6))) H7).
  - assert ((tokenize_model "add(x=2, y=1)").1 = (x_pre ++ x_eq :: x_post)%list)
      as H1 by (vm_compute; reflexivity).
    assert (ops_nonempty x_pre) as H2 by (repeat constructor; discriminate).
    assert (tok_type x_eq = OP) as H3 by reflexivity.
    assert (last_char (tok_string x_eq) = Some "="%char) as H4 by reflexivity.
    assert (tok_string x_eq = "=") as H5 by reflexivity.
    assert (eligible_before test_backend x_pre = true) as H6
      by (vm_compute; reflexivity).
    assert (∃ st, scan_tokens test_backend scan_start x_pre = Ok st) as [st H7]
      by (apply raised_None; vm_compute; reflexivity).
    repeat (split; [assumption|]).
    exists st. split; [exact H7|].
    exact (proj2 (assignment_operators_checked tokenize_model "add(x=2, y=1)"
                    test_backend x_pre x_eq x_post H1 H2 H3 H4)
             (or_introl (conj H5 H6)) st H7).
Defined.

(** C5 as stated counts functions referenced after the [=]; the code does
    not.  In [oct(y=1) + add(1, 2)] the name [y] is a named parameter of
    [add], which the expression references, yet the [=] is rejected: [add]
    comes after it, and [y] is no parameter of [oct]. *)
Lemma named_parameter_of_later_function_rejected :
  (tokenize_model "oct(y=1) + add(1, 2)").1 = (oct_pre ++ oct_eq :: oct_post)%list
  ∧ last_kept None oct_pre = Some (token NAME "y" (1, 4) (1, 5))
  ∧ "add" ∈ identifiers None (oct_pre ++ oct_eq :: oct_post)
  ∧ "y" ∈ eligible_names test_backend ["add"]
  ∧ compile "oct(y=1) + add(1, 2)"
    = Raise (PinasExpressionError oct_eq "No such named parameter: y").
Proof.
  split; [vm_compute; reflexivity|]. split; [reflexivity|].
  split; [apply (bool_decide_unpack _); vm_compute; reflexivity|].
  split; [apply (bool_decide_unpack _); vm_compute; reflexivity|].
  vm_compute. reflexivity.
Qed.

(** ** What a compiled expression holds *)

Lemma add_implied_inner backend (args : list string) : ∀ (sets : gset string * gset string),
  sets.1 ⊆ Backend_predefined_names backend →
  sets.2 ## Backend_predefined_names backend →
  let sets' :=
    foldl (fun s implied_arg =>
             if bool_decide (implied_arg ∈ Backend_predefined_names backend)
             then (s.1 ∪ {[ implied_arg ]}, s.2)
             else (s.1, s.2 ∪ {[ implied_arg ]})) sets args in
  sets'.1 ⊆ Backend_predefined_names backend
  ∧ sets'.2 ## Backend_predefined_names backend.
Proof.
  induction args as [|a args IH]; intros sets H1 H2; simpl; [done|].
  apply IH; case_bool_decide; simpl; set_solver.
Qed.

Lemma add_implied_names backend (l : list (string * obj)) : ∀ (sets : gset string * gset string),
  sets.1 ⊆ Backend_predefined_names backend →
  sets.2 ## Backend_predefined_names backend →
  (foldl (add_implied backend) sets l).1 ⊆ Backend_predefined_names backend
  ∧ (foldl (add_implied backend) sets l).2 ## Backend_predefined_names backend.
Proof.
  induction l as [|nfn l IH]; intros sets H1 H2; simpl; [done|].
  unfold add_implied at 2 4. case_bool_decide; [|by apply IH].
  destruct (add_implied_inner backend (ImpliedArguments nfn.2) sets H1 H2) as [H1' H2'].
  by apply IH.
Qed.

Lemma bind_predefined_ok functions names : ∀ ns ns',
  bind_predefined functions names ns = Ok ns' →
  dom ns' = dom ns ∪ list_to_set names
  ∧ ∀ n, ns' !! n = if decide (n ∈ names) then functions !! n else ns !! n.
Proof.
  induction names as [|m names IH]; intros ns ns'; simpl.
  - intros [= <-]. split; [set_solver|]. done.
  - destruct (functions !! m) as [v|] eqn:Hm; [|done].
    intros Hrest. apply IH in Hrest as [Hdom Hlook]. split.
    + rewrite Hdom, dom_insert_L. set_solver.
    + intros n. rewrite Hlook.
      destruct (decide (n ∈ names)) as [Hin|Hnin].
      * case_decide; [done|set_solver].
      * destruct (decide (n = m)) as [->|Hne].
        -- rewrite lookup_insert_eq. case_decide; [done|set_solver].
        -- rewrite lookup_insert_ne by done. case_decide; [set_solver|done].
Qed.

(** The invariants of a compiled expression: bound names come from the
    registry, free variables do not, and the base namespace binds
    [__builtins__] and the bound names, the latter to the registry's values. *)
Lemma compiled_expression generate_tokens text backend e :
  Expression_init generate_tokens text backend = Ok e →
  _backend e = backend
  ∧ Expression_predefined_names e ⊆ Backend_predefined_names backend
  ∧ free_variables e ## Backend_predefined_names backend
  ∧ dom (_base_namespace e) = {[ "__builtins__" ]} ∪ Expression_predefined_names e
  ∧ ∀ n, _base_namespace e !! n =
         if decide (n ∈ Expression_predefined_names e)
         then predefined_functions backend !! n
         else if decide (n = "__builtins__") then Some (ODict []) else None.
Proof.
  unfold Expression_init.
  destruct (scan backend (generate_tokens text)) as [st|]; [|done]. simpl.
  set (P := (unbound_names st ∩ Backend_predefined_names backend)
              ∖ _allow_keywords_and_methods backend).
  set (F := unbound_names st ∖ Backend_predefined_names backend
              ∖ _allow_keywords_and_methods backend).
  destruct (add_implied_names backend (_SupplyImpliedArguments_for backend) (P, F))
    as [HP HF]; [set_solver..|].
  destruct (bind_predefined _ _ _) as [base|] eqn:Hbase; [|done]. simpl.
  intros [= <-]. simpl. apply bind_predefined_ok in Hbase as [Hdom Hlook].
  split; [done|]. split; [done|]. split; [done|]. split.
  - rewrite Hdom, dom_singleton_L. set_solver.
  - intros n. rewrite Hlook.
    destruct (decide (n ∈ elements _)) as [Hin|Hnin].
    + case_decide; [done|set_solver].
    + case_decide; [set_solver|].
      destruct (decide (n = "__builtins__")) as [->|Hne].
      * by rewrite lookup_singleton_eq.
      * by rewrite lookup_singleton_ne.
Qed.

(** ** The effective namespace *)

Lemma supply_free_spec namespace names : ∀ eff,
  NoDup names →
  match supply_free namespace names eff with
  | Ok eff' =>
      (∀ n, n ∈ names → n ∉ dom eff)
      ∧ ∀ k, eff' !! k = if decide (k ∈ names) then namespace !! k else eff !! k
  | Raise x =>
      ∃ n, n ∈ names ∧ n ∈ dom eff ∧ x = ValueError ("'" +:+ n +:+ "' is ambiguous")
  end.
Proof.
  induction names as [|n names IH]; intros eff Hnodup; simpl.
  - split; [set_solver|]. done.
  - apply NoDup_cons in Hnodup as [Hn Hnodup].
    case_bool_decide as Hdom; [exists n; set_solver|].
    set (eff1 := match namespace !! n with
                 | Some v => <[n := v]> eff
                 | None => eff
                 end).
    assert (∀ k, k ≠ n → eff1 !! k = eff !! k) as Hother.
    { intros k Hk. unfold eff1. destruct (namespace !! n); [|done].
      by rewrite lookup_insert_ne. }
    assert (eff1 !! n = namespace !! n) as Hsame.
    { unfold eff1. destruct (namespace !! n) eqn:Hns.
      - by rewrite lookup_insert_eq.
      - by apply not_elem_of_dom. }
    specialize (IH eff1 Hnodup). destruct (supply_free namespace names eff1) as [eff'|x].
    + destruct IH as [Hfresh Hlook]. split.
      * intros m [->|Hm]%elem_of_cons; [done|].
        specialize (Hfresh m Hm). rewrite !not_elem_of_dom in *.
        rewrite <-Hother; [done|]. by intros ->.
      * intros k. rewrite Hlook.
        destruct (decide (k ∈ names)) as [Hin|Hnin].
        -- case_decide; [done|set_solver].
        -- destruct (decide (k = n)) as [->|Hne].
           ++ case_decide; [done|set_solver].
           ++ case_decide; [set_solver|]. by apply Hother.
    + destruct IH as (m & Hm & Hdom1 & ->). exists m.
      split; [set_solver|]. split; [|done].
      apply elem_of_dom. rewrite <-Hother; [by apply elem_of_dom|]. by intros ->.
Qed.

Lemma wrap_implied_lookup (l : list (string * obj)) : ∀ (eff : gmap string obj) k,
  dom (foldl wrap_implied eff l) = dom eff
  ∧ (k ∉ l.*1 → foldl wrap_implied eff l !! k = eff !! k).
Proof.
  induction l as [|nfn l IH]; intros eff k; simpl; [done|].
  destruct (IH (wrap_implied eff nfn) k) as [Hdom Hlook].
  assert (dom (wrap_implied eff nfn) = dom eff) as Hdom1.
  { unfold wrap_implied. case_bool_decide; [|done]. rewrite dom_insert_L. set_solver. }
  split; [by rewrite Hdom|].
  intros Hk. rewrite Hlook by set_solver.
  unfold wrap_implied. case_bool_decide; [|done].
  rewrite lookup_insert_ne; [done|]. set_solver.
Qed.

(** The effective namespace reads the caller's namespace at the free
    variables only. *)
Lemma supply_free_ext ns ns' names : ∀ eff,
  (∀ n, n ∈ names → ns !! n = ns' !! n) →
  supply_free ns names eff = supply_free ns' names eff.
Proof.
  induction names as [|n names IH]; intros eff Hagree; simpl; [done|].
  case_bool_decide; [done|].
  rewrite <-(Hagree n) by set_solver. apply IH. set_solver.
Qed.

Lemma effective_namespace_ext e ns ns' :
  (∀ n, n ∈ free_variables e → ns !! n = ns' !! n) →
  effective_namespace e ns = effective_namespace e ns'.
Proof.
  intros Hagree. unfold effective_namespace.
  rewrite (supply_free_ext ns ns'); [done|]. set_solver.
Qed.

Lemma Expression_eval_ext py_eval e ns ns' :
  (∀ n, n ∈ free_variables e → ns !! n = ns' !! n) →
  Expression_eval py_eval e ns = Expression_eval py_eval e ns'.
Proof.
  intros Hagree. unfold Expression_eval.
  rewrite (effective_namespace_ext e ns ns') by done.
  assert (missing_names e ns = missing_names e ns') as ->; [|done].
  unfold missing_names. apply set_eq. intros n.
  rewrite !elem_of_difference, !not_elem_of_dom.
  split; intros [Hn Hnone]; (split; [done|]); specialize (Hagree n Hn); congruence.
Qed.

(** The only name that can be ambiguous is [__builtins__]. *)
Lemma effective_namespace_cases generate_tokens text backend e namespace :
  Expression_init generate_tokens text backend = Ok e →
  match effective_namespace e namespace with
  | Ok eff =>
      ("__builtins__" ∉ free_variables e)
      ∧ dom eff ⊆ {[ "__builtins__" ]} ∪ Expression_predefined_names e ∪ free_variables e
      ∧ ∀ k, k ∉ (_SupplyImpliedArguments_for backend).*1 →
             eff !! k = if decide (k ∈ free_variables e) then namespace !! k
                        else _base_namespace e !! k
  | Raise x =>
      "__builtins__" ∈ free_variables e ∧ x = ValueError "'__builtins__' is ambiguous"
  end.
Proof.
  intros Hinit. destruct (compiled_expression _ _ _ _ Hinit) as (Hb & HP & HF & Hdom & Hbase).
  unfold effective_namespace.
  pose proof (supply_free_spec namespace (elements (free_variables e)) (_base_namespace e)
                (NoDup_elements _)) as Hspec.
  destruct (supply_free _ _ _) as [eff1|x]; simpl.
  - destruct Hspec as [Hfresh Hlook].
    destruct (wrap_implied_lookup (_SupplyImpliedArguments_for (_backend e)) eff1 "")
      as [Hdomw _].
    split; [|split].
    + intros Hin. apply (Hfresh "__builtins__"); [set_solver|]. rewrite Hdom. set_solver.
    + rewrite Hdomw. intros k [v Hk]%elem_of_dom. rewrite Hlook in Hk.
      case_decide as Hfv; [set_solver|].
      assert (k ∈ dom (_base_namespace e)) as Hkb by (apply elem_of_dom; eauto).
      rewrite Hdom in Hkb. set_solver.
    + intros k Hk. rewrite Hb.
      destruct (wrap_implied_lookup (_SupplyImpliedArguments_for backend) eff1 k) as [_ Hw].
      rewrite Hw by done. rewrite Hlook.
      repeat case_decide; try done; set_solver.
  - destruct Hspec as (n & Hn & Hndom & ->). rewrite Hdom in Hndom.
    assert (n = "__builtins__") as -> by set_solver. set_solver.
Qed.

(** ** Names in the namespace that the registry binds *)

(** C3, as amended: for every compiled expression and every caller
    namespace, [eval] fails with the ambiguous-name error exactly when
    [__builtins__] is one of the expression's free variables, whatever the
    namespace holds; a value the namespace supplies for a registry-bound name
    referenced in the expression is ignored, so [eval] gives what it gives
    without that entry. *)
Theorem namespace_cannot_shadow_bound_names
    (generate_tokens : string → list TokenInfo * option exn)
    (text : string) (backend : Backend) (e : Expression) :
  Expression_init generate_tokens text backend = Ok e →
  (∀ namespace x,
     effective_namespace e namespace = Raise x ↔
     "__builtins__" ∈ free_variables e ∧ x = ValueError "'__builtins__' is ambiguous")
  ∧ (∀ py_eval namespace,
       "__builtins__" ∈ free_variables e →
       Expression_eval py_eval e namespace = Raise (ValueError "'__builtins__' is ambiguous"))
  ∧ (∀ py_eval namespace n v,
       n ∈ Expression_predefined_names e →
       Expression_eval py_eval e (<[n := v]> namespace) = Expression_eval py_eval e namespace).
Proof.
  intros Hinit.
  assert (∀ namespace x,
            effective_namespace e namespace = Raise x ↔
            "__builtins__" ∈ free_variables e
            ∧ x = ValueError "'__builtins__' is ambiguous") as Hiff.
  { intros namespace x.
    pose proof (effective_namespace_cases _ _ _ _ namespace Hinit) as Hcases.
    destruct (effective_namespace e namespace) as [eff|y].
    - destruct Hcases as [Hnot _]. split; [done|]. intros [Hin _]. done.
    - destruct Hcases as [Hin ->]. split; [by intros [= <-]|]. by intros [_ ->]. }
  split; [exact Hiff|]. split.
  - intros py_eval namespace Hin. unfold Expression_eval.
    by rewrite (proj2 (Hiff namespace _) (conj Hin eq_refl)).
  - intros py_eval namespace n v Hn.
    destruct (compiled_expression _ _ _ _ Hinit) as (_ & HP & HF & _).
    apply Expression_eval_ext. intros m Hm.
    rewrite lookup_insert_ne; [done|]. set_solver.
Qed.

(** [add(1, 2)] of the test suite, with a namespace that binds [add]. *)
Lemma namespace_cannot_shadow_bound_names_witness :
  compile "add(1, 2)" = Ok add_expression
  ∧ "add" ∈ Expression_predefined_names add_expression
  ∧ Expression_eval (py_eval_model test_host_call) add_expression
      (<[ "add" := OInt 7 ]> test_namespace)
    = Expression_eval (py_eval_model test_host_call) add_expression test_namespace.
Proof.
  assert (compile "add(1, 2)" = Ok add_expression) as He
    by (apply expression_of_ok; vm_compute; reflexivity).
  assert ("add" ∈ Expression_predefined_names add_expression) as Hadd
    by (apply (bool_decide_unpack _); vm_compute; reflexivity).
  split; [exact He|]. split; [exact Hadd|].
  exact (proj2 (proj2 (namespace_cannot_shadow_bound_names tokenize_model "add(1, 2)"
                         test_backend add_expression He))
           (py_eval_model test_host_call) test_namespace "add" (OInt 7) Hadd).
Defined.

(** C3 as stated fails: [add] is a registry-bound name referenced in
    [add(1, 2)], the namespace supplies a value for it, and [eval] returns 3
    instead of raising. *)
Lemma namespace_entry_for_bound_name_is_ignored :
  compile "add(1, 2)" = Ok add_expression
  ∧ "add" ∈ Expression_predefined_names add_expression
  ∧ ({[ "add" := OInt 7 ]} : gmap string obj) !! "add" = Some (OInt 7)
  ∧ Expression_eval (py_eval_model test_host_call) add_expression {[ "add" := OInt 7 ]}
    = Ok (OInt 3).
Proof.
  split; [apply expression_of_ok; vm_compute; reflexivity|].
  split; [apply (bool_decide_unpack _); vm_compute; reflexivity|].
  split; vm_compute; reflexivity.
Qed.

(** ** The [__builtins__] entry *)

Lemma dict_set_keys {V} k (v : V) d x :
  x ∈ (dict_set k v d).*1 ↔ x = k ∨ x ∈ d.*1.
Proof.
  induction d as [|[k' v'] d IH]; simpl.
  - set_solver.
  - case_decide; simpl; set_solver.
Qed.

Lemma dict_of_names_keys get names : ∀ acc d,
  dict_of_names get names acc = Ok d →
  ∀ x, x ∈ d.*1 ↔ x ∈ names ∨ x ∈ acc.*1.
Proof.
  induction names as [|n names IH]; intros acc d; simpl.
  - intros [= <-]. set_solver.
  - destruct (get n) as [v|]; [|done]. simpl. intros Hrest x.
    rewrite (IH _ _ Hrest x), dict_set_keys. set_solver.
Qed.

(** A backend that [Backend_init] built wraps functions of the module only. *)
Lemma Backend_init_implied builtins module allow_builtin_names allow_keywords
    allow_methods backend n :
  Backend_init builtins module allow_builtin_names allow_keywords allow_methods
    = Ok backend →
  n ∈ (_SupplyImpliedArguments_for backend).*1 →
  n ∈ Backend_predefined_names backend.
Proof.
  unfold Backend_init. case_bool_decide; [done|].
  destruct (dict_of_names (getattr builtins) _ _) as [bf|]; simpl; [|done].
  destruct (dict_of_names (getattr (module_attrs module)) _ _) as [mf|] eqn:Hmf;
    simpl; [|done].
  intros [= <-]. simpl.
  intros ([k fn] & -> & [_ Hin]%list_elem_of_filter)%list_elem_of_fmap. simpl.
  assert (k ∈ mf.*1) as Hk by (apply list_elem_of_fmap; by exists (k, fn)).
  apply (dict_of_names_keys _ _ _ _ Hmf) in Hk. set_solver.
Qed.

(** A registry that holds the name [__builtins__] takes the key: the host
    module exports its own [__builtins__] attribute, the expression names
    it, and the base namespace, the effective namespace and the value of
    the expression are the module's dict, not an empty one. *)
Lemma builtins_entry_overridden_by_module :
  Backend_init py_builtins builtins_module None None None = Ok builtins_backend
  ∧ Expression_init tokenize_model "__builtins__" builtins_backend = Ok builtins_expression
  ∧ _base_namespace builtins_expression !! "__builtins__"
    = Some (ODict [("eval", OFunction "eval" None None)])
  ∧ (eff ← effective_namespace builtins_expression ∅; getattr eff "__builtins__")
    = Ok (ODict [("eval", OFunction "eval" None None)])
  ∧ Expression_eval (py_eval_model test_host_call) builtins_expression ∅
    = Ok (ODict [("eval", OFunction "eval" None None)]).
Proof.
  split; [apply backend_of_ok; vm_compute; reflexivity|].
  split; [apply expression_of_ok; vm_compute; reflexivity|].
  repeat split; vm_compute; reflexivity.
Qed.

(** ** What [eval] raises *)

Lemma elem_of_Some_elements (name : option string) (X : gset string) :
  name ∈ Some <$> elements X ↔ ∃ n, name = Some n ∧ n ∈ X.
Proof.
  rewrite list_elem_of_fmap. split.
  - intros (n & -> & Hn). exists n. by rewrite <-elem_of_elements.
  - intros (n & -> & Hn). exists n. by rewrite elem_of_elements.
Qed.

(** [eval] hands on what Python's [eval] gives, except for a [NameError]
    that names a missing free variable. *)
Lemma Expression_eval_cases py_eval e namespace eff :
  effective_namespace e namespace = Ok eff →
  Expression_eval py_eval e namespace =
  match py_eval (expr e) eff with
  | Raise (NameError name) =>
      if bool_decide (name ∈ Some <$> elements (missing_names e namespace))
      then Raise (PinasNameError (elements (missing_names e namespace)))
      else Raise (NameError name)
  | r => r
  end.
Proof. intros Heff. unfold Expression_eval. by rewrite Heff. Qed.

Lemma effective_namespace_raise e namespace x :
  effective_namespace e namespace = Raise x →
  ∃ n, n ∈ free_variables e ∧ x = ValueError ("'" +:+ n +:+ "' is ambiguous").
Proof.
  unfold effective_namespace.
  pose proof (supply_free_spec namespace (elements (free_variables e)) (_base_namespace e)
                (NoDup_elements _)) as Hspec.
  destruct (supply_free _ _ _) as [eff1|y]; simpl; [done|].
  intros [= <-]. destruct Hspec as (n & Hn & _ & ->). exists n. set_solver.
Qed.

(** C2, as amended: [eval] on a constructed [Expression] raises only the
    ambiguous-name [ValueError], the [PinasNameError] that lists the missing
    free variables, or the very exception that Python's [eval] raises for the
    normalised text in the effective namespace.  The checks that raise
    [PinasExpressionError] all sit in the constructor; a [SyntaxError],
    however, can still come out of [eval], because the constructor looks at
    tokens and not at the grammar. *)
Theorem eval_raises
    (py_eval : string → gmap string obj → result obj)
    (e : Expression) (namespace : gmap string obj) (x : exn) :
  Expression_eval py_eval e namespace = Raise x →
  (∃ n, n ∈ free_variables e ∧ x = ValueError ("'" +:+ n +:+ "' is ambiguous"))
  ∨ x = PinasNameError (elements (missing_names e namespace))
  ∨ (∃ eff, effective_namespace e namespace = Ok eff ∧ py_eval (expr e) eff = Raise x).
Proof.
  intros Hraise.
  destruct (effective_namespace e namespace) as [eff|y] eqn:Heff.
  - rewrite (Expression_eval_cases _ _ _ _ Heff) in Hraise.
    destruct (py_eval (expr e) eff) as [v|z] eqn:Hpy; [done|].
    destruct z; try (right; right; exists eff; by simplify_eq).
    case_bool_decide; simplify_eq; [by right; left|].
    right. right. by exists eff.
  - unfold Expression_eval in Hraise. rewrite Heff in Hraise. simpl in Hraise.
    simplify_eq. left. by apply (effective_namespace_raise e namespace).
Qed.

Lemma eval_raises_witness :
  Expression_eval (py_eval_model test_host_call) one_plus_expression ∅ = Raise SyntaxError
  ∧ ((∃ n, n ∈ free_variables one_plus_expression
           ∧ SyntaxError = ValueError ("'" +:+ n +:+ "' is ambiguous"))
     ∨ SyntaxError = PinasNameError (elements (missing_names one_plus_expression ∅))
     ∨ (∃ eff, effective_namespace one_plus_expression ∅ = Ok eff
               ∧ py_eval_model test_host_call (expr one_plus_expression) eff
                 = Raise SyntaxError)).
Proof.
  assert (Expression_eval (py_eval_model test_host_call) one_plus_expression ∅
          = Raise SyntaxError) as H by (vm_compute; reflexivity).
  split; [exact H|].
  exact (eval_raises (py_eval_model test_host_call) one_plus_expression ∅ SyntaxError H).
Defined.

(** C2 as stated fails: [1 +] passes every check of the constructor, and
    the [SyntaxError] comes when the expression is evaluated. *)
Lemma syntax_error_at_eval_time :
  compile "1 +" = Ok one_plus_expression
  ∧ expr one_plus_expression = "1 +"
  ∧ Expression_eval (py_eval_model test_host_call) one_plus_expression ∅ = Raise SyntaxError.
Proof.
  split; [apply expression_of_ok; vm_compute; reflexivity|].
  split; vm_compute; reflexivity.
Qed.

(** ** Missing names *)

(** C7, as amended: when Python's [eval] fails on an undefined name that is
    one of the free variables the namespace does not supply, [eval] raises a
    [PinasNameError] that carries exactly the free variables minus the keys
    of the namespace; a [NameError] for any other name, and every other
    outcome, is handed on unchanged.  So [a + b] against [{'a': 1}] fails with
    exactly [b].  (A missing implied parameter is not reported this way: the
    wrapper raises its own [PinasNameError] with the unresolved implied
    parameters of that one function.) *)
Theorem missing_names_reported
    (py_eval : string → gmap string obj → result obj)
    (e : Expression) (namespace eff : gmap string obj) :
  effective_namespace e namespace = Ok eff →
  let missing := free_variables e ∖ dom namespace in
  (∀ n, py_eval (expr e) eff = Raise (NameError (Some n)) → n ∈ missing →
        ∃ names, Expression_eval py_eval e namespace = Raise (PinasNameError names)
                 ∧ list_to_set names = missing ∧ NoDup names)
  ∧ (∀ name, py_eval (expr e) eff = Raise (NameError name) →
             (∀ n, name = Some n → n ∉ missing) →
             Expression_eval py_eval e namespace = Raise (NameError name))
  ∧ (∀ r, py_eval (expr e) eff = r → (∀ name, r ≠ Raise (NameError name)) →
          Expression_eval py_eval e namespace = r)
  ∧ (compile "a + b" = Ok a_plus_b_expression
     ∧ Expression_eval (py_eval_model test_host_call) a_plus_b_expression {[ "a" := OInt 1 ]}
       = Raise (PinasNameError ["b"])).
Proof.
  intros Heff missing. rewrite (Expression_eval_cases _ _ _ _ Heff).
  split; [|split; [|split]].
  - intros n Hpy Hn. rewrite Hpy.
    rewrite bool_decide_eq_true_2 by (apply elem_of_Some_elements; exists n; done).
    exists (elements (missing_names e namespace)).
    split; [done|]. split; [|apply NoDup_elements].
    apply set_eq. intros m. rewrite elem_of_list_to_set, elem_of_elements. done.
  - intros name Hpy Hnot. rewrite Hpy.
    rewrite bool_decide_eq_false_2; [done|].
    intros (n & -> & Hn)%elem_of_Some_elements. by apply (Hnot n).
  - intros r <- Hr. destruct (py_eval (expr e) eff) as [v|[]]; try done.
    by destruct (Hr name).
  - split; [apply expression_of_ok; vm_compute; reflexivity|]. vm_compute. reflexivity.
Qed.

Lemma missing_names_reported_witness :
  effective_namespace a_plus_b_expression {[ "a" := OInt 1 ]}
    = Ok (<[ "a" := OInt 1 ]> {[ "__builtins__" := ODict [] ]})
  ∧ py_eval_model test_host_call (expr a_plus_b_expression)
      (<[ "a" := OInt 1 ]> {[ "__builtins__" := ODict [] ]})
    = Raise (NameError (Some "b"))
  ∧ "b" ∈ free_variables a_plus_b_expression ∖ dom ({[ "a" := OInt 1 ]} : gmap string obj)
  ∧ ∃ names,
      Expression_eval (py_eval_model test_host_call) a_plus_b_expression
        {[ "a" := OInt 1 ]} = Raise (PinasNameError names)
      ∧ list_to_set names
        = free_variables a_plus_b_expression ∖ dom ({[ "a" := OInt 1 ]} : gmap string obj)
      ∧ NoDup names.
Proof.
  assert (effective_namespace a_plus_b_expression {[ "a" := OInt 1 ]}
          = Ok (<[ "a" := OInt 1 ]> {[ "__builtins__" := ODict [] ]})) as H1
    by (vm_compute; reflexivity).
  assert (py_eval_model test_host_call (expr a_plus_b_expression)
            (<[ "a" := OInt 1 ]> {[ "__builtins__" := ODict [] ]})
          = Raise (NameError (Some "b"))) as H2 by (vm_compute; reflexivity).
  assert ("b" ∈ free_variables a_plus_b_expression
                ∖ dom ({[ "a" := OInt 1 ]} : gmap string obj)) as H3
    by (apply (bool_decide_unpack _); vm_compute; reflexivity).
  repeat (split; [assumption|]).
  exact (proj1 (missing_names_reported (py_eval_model test_host_call) a_plus_b_expression
                  {[ "a" := OInt 1 ]} _ H1) "b" H2 H3).
Defined.

(** C7 as stated fails when the missing name is an implied parameter: in
    [add_d(10) + zz] against the empty namespace both [d] and [zz] are free
    variables that the namespace does not supply, and the error carries [d]
    alone. *)
Lemma missing_implied_parameter_reported_alone :
  compile "add_d(10) + zz" = Ok add_d_zz_expression
  ∧ free_variables add_d_zz_expression ∖ dom (∅ : gmap string obj) = {[ "d"; "zz" ]}
  ∧ Expression_eval (py_eval_model test_host_call) add_d_zz_expression ∅
    = Raise (PinasNameError ["d"]).
Proof.
  split; [apply expression_of_ok; vm_compute; reflexivity|].
  split; [apply (bool_decide_unpack _); vm_compute; reflexivity|].
  vm_compute. reflexivity.
Qed.

(** ** Implied parameters *)

Lemma implied_kwargs (namespace : gmap string obj) iargs full :
  mapM (fun iarg => (fun v => (iarg, v)) <$> namespace !! iarg) iargs = Some full →
  ∀ a, (list_to_map full : gmap string obj) !! a
       = if decide (a ∈ iargs) then namespace !! a else None.
Proof.
  rewrite mapM_Some. induction 1 as [|a y iargs full Hy _ IH]; intros b.
  - simpl. rewrite lookup_empty. done.
  - destruct (namespace !! a) as [v|] eqn:Ha; simplify_eq/=.
    rewrite lookup_insert, IH.
    repeat case_decide; simplify_eq; try done; set_solver.
Qed.

(** The wrapper: with every implied parameter in the namespace it calls
    the function with the namespace's values underneath the keyword
    arguments of the call; otherwise it raises. *)
Lemma supply_namespace_args_spec call fn (namespace : gmap string obj) args kwargs :
  (Forall (fun a => a ∈ dom namespace) (ImpliedArguments fn) →
   ∃ full_kwargs : gmap string obj,
     supply_namespace_args call fn namespace args kwargs = call args full_kwargs
     ∧ ∀ a, full_kwargs !! a =
            match kwargs !! a with
            | Some v => Some v
            | None => if decide (a ∈ ImpliedArguments fn) then namespace !! a else None
            end)
  ∧ (¬ Forall (fun a => a ∈ dom namespace) (ImpliedArguments fn) →
     supply_namespace_args call fn namespace args kwargs
     = Raise (PinasNameError
                (filter (fun a => a ∉ dom namespace) (ImpliedArguments fn)))).
Proof.
  unfold supply_namespace_args.
  destruct (mapM _ (ImpliedArguments fn)) as [full|] eqn:Hfull.
  - split.
    + intros _. eexists. split; [done|]. intros a.
      rewrite lookup_union, (implied_kwargs _ _ _ Hfull).
      destruct (kwargs !! a); simpl.
      * by destruct (if decide _ then _ else _).
      * by destruct (if decide _ then _ else _).
    + intros Hnot. exfalso. apply Hnot. apply Forall_forall. intros a Ha.
      pose proof (implied_kwargs _ _ _ Hfull a) as Hlook.
      rewrite decide_True in Hlook by done.
      apply mapM_Some in Hfull.
      apply list_elem_of_lookup in Ha as [i Hi].
      destruct (Forall2_lookup_l _ _ _ _ _ Hfull Hi) as (y & _ & Hy).
      apply elem_of_dom. destruct (namespace !! a); [by eauto|done].
  - split; [|done]. intros Hall. exfalso.
    apply mapM_None in Hfull. apply Exists_exists in Hfull as (a & Ha & Hnone).
    rewrite Forall_forall in Hall. specialize (Hall a Ha).
    apply elem_of_dom in Hall as [v Hv]. by rewrite Hv in Hnone.
Qed.

(** ** The conditional expression *)


(** ** The normalised text *)

Lemma append_assoc (s t u : string) : (s +:+ t) +:+ u = s +:+ (t +:+ u).
Proof.
  induction s as [|c s IH]; [done|].
  change (String c ((s +:+ t) +:+ u) = String c (s +:+ (t +:+ u))). by rewrite IH.
Qed.

Lemma append_empty_r (s : string) : s +:+ "" = s.
Proof.
  induction s as [|c s IH]; [done|].
  change (String c (s +:+ "") = String c s). by rewrite IH.
Qed.

Lemma join_app (l1 l2 : list string) : join (l1 ++ l2) = join l1 +:+ join l2.
Proof.
  induction l1 as [|s l1 IH]; [done|].
  change (join ((s :: l1) ++ l2)) with (s +:+ join (l1 ++ l2)).
  change (join (s :: l1)) with (s +:+ join l1).
  by rewrite IH, append_assoc.
Qed.

Lemma join_gap end0 t : join (gap end0 t) = separator end0 (tok_start t).
Proof.
  unfold gap, separator. destruct (decide (tok_start t = end0)) as [Heq|Hne].
  - rewrite bool_decide_eq_false_2 by tauto. by rewrite bool_decide_eq_true_2.
  - rewrite bool_decide_eq_true_2 by done. rewrite (bool_decide_eq_false_2 _ Hne).
    case_bool_decide; unfold join; cbn [foldr]; by rewrite ?append_empty_r.
Qed.

Lemma join_layout_text toks : ∀ end0, join (layout_text end0 toks) = normalised end0 toks.
Proof.
  induction toks as [|t toks IH]; intros end0; simpl; [done|].
  rewrite join_app, join_gap. f_equal.
  destruct (kept t); [|apply IH].
  change (join (tok_string t :: layout_text (tok_end t) toks))
    with (tok_string t +:+ join (layout_text (tok_end t) toks)).
  by rewrite IH.
Qed.

(** C9, as amended: the text of a compiled expression is the stripped
    concatenation of its tokens, each preceded by its separator from the end
    of the last kept token: nothing if the two touch, as many spaces as
    there are columns in between if they are on one line (the width of the
    gap is kept, not reduced to one space), and two spaces if the token
    starts on another line.  Layout tokens (comments, line ends, indents,
    dedents, the end marker) leave their separator and no text, so a line
    break gives two spaces plus the separators of the layout tokens passed on
    the way.  The kept tokens are the tokens of the text minus the layout
    tokens, in order.  So the two-line text of the example, comment and
    indentation included, becomes a one-line text with the same tokens, and
    evaluates to 3. *)
Theorem layout_is_normalised
    (generate_tokens : string → list TokenInfo * option exn)
    (text : string) (backend : Backend) (e : Expression) :
  Expression_init generate_tokens text backend = Ok e →
  expr e = strip (normalised (1, 0) (generate_tokens text).1)
  ∧ net_tokens e = filter (fun t => kept t) (generate_tokens text).1
  ∧ (∀ t, t ∈ net_tokens e →
          tok_type t ∉ [COMMENT; NEWLINE; INDENT; DEDENT; ENDMARKER; NL])
  ∧ (∀ t1 t2 : TokenInfo,
       separator (tok_end t1) (tok_start t2) =
       if bool_decide (tok_start t2 = tok_end t1) then ""
       else if bool_decide ((tok_start t2).1 = (tok_end t1).1)
            then str_repeat " " ((tok_start t2).2 - (tok_end t1).2)
            else "  ")
  ∧ (compile "1 + # one
  2" = Ok broken_expression
     ∧ map (fun t => (tok_type t, tok_string t))
           (filter (fun t => kept t) (tokenize_model (expr broken_expression)).1)
       = map (fun t => (tok_type t, tok_string t)) (net_tokens broken_expression)
     ∧ Expression_eval (py_eval_model test_host_call) broken_expression ∅ = Ok (OInt 3)).
Proof.
  intros Hinit.
  assert (expr e = strip (normalised (1, 0) (generate_tokens text).1)
          ∧ net_tokens e = filter (fun t => kept t) (generate_tokens text).1)
    as [Hexpr Htoks].
  { revert Hinit. unfold Expression_init, scan, net_tokens.
    destruct (scan_tokens backend scan_start (generate_tokens text).1) as [st|] eqn:Hscan;
      simpl; [|done].
    destruct ((generate_tokens text).2); simpl; [done|].
    destruct (bind_predefined _ _ _); simpl; [|done].
    intros [= <-]. simpl.
    apply scan_tokens_ok in Hscan as (_ & _ & Hexpr & Htoks & _). simpl in *.
    by rewrite Hexpr, Htoks, join_layout_text. }
  split; [exact Hexpr|]. split; [exact Htoks|]. split; [|split; [done|]].
  - intros t Ht Hlayout. rewrite Htoks in Ht.
    apply list_elem_of_filter in Ht as [Hkept _].
    unfold kept, is_layout in Hkept. by rewrite bool_decide_eq_true_2 in Hkept.
  - split; [apply expression_of_ok; vm_compute; reflexivity|].
    split; vm_compute; reflexivity.
Qed.

Lemma layout_is_normalised_witness :
  compile "1   +  2" = Ok wide_expression
  ∧ expr wide_expression = strip (normalised (1, 0) (tokenize_model "1   +  2").1)
  ∧ net_tokens wide_expression
    = filter (fun t => kept t) (tokenize_model "1   +  2").1.
Proof.
  assert (compile "1   +  2" = Ok wide_expression) as H
    by (apply expression_of_ok; vm_compute; reflexivity).
  split; [exact H|].
  pose proof (layout_is_normalised tokenize_model "1   +  2" test_backend wide_expression H)
    as (Hexpr & Htoks & _).
  exact (conj Hexpr Htoks).
Defined.

(** C9 as stated fails on both counts: the three and two spaces of
    [1   +  2] are kept, not rejoined with single spaces; and the line break
    of a two-line text with a comment and an indented second line becomes
    eleven spaces, not two. *)
Lemma layout_gaps_keep_their_width :
  compile "1   +  2" = Ok wide_expression
  ∧ expr wide_expression = "1   +  2"
  ∧ expr wide_expression ≠ "1 + 2"
  ∧ compile "1 + # one
  2" = Ok broken_expression
  ∧ expr broken_expression = "1 +           2"
  ∧ expr broken_expression ≠ "1 +  2".
Proof.
  assert (expr wide_expression = "1   +  2") as H1 by (vm_compute; reflexivity).
  assert (expr broken_expression = "1 +           2") as H2 by (vm_compute; reflexivity).
  split; [apply expression_of_ok; vm_compute; reflexivity|].
  split; [exact H1|]. split; [by rewrite H1|].
  split; [apply expression_of_ok; vm_compute; reflexivity|].
  split; [exact H2|]. by rewrite H2.
Qed.

(** * The rest of the module *)

(** ** Building the registry *)

Lemma list_to_map_dict_set {V} k (v : V) d :
  (list_to_map (dict_set k v d) : gmap string V) = <[k := v]> (list_to_map d).
Proof.
  induction d as [|[k' v'] d IH]; simpl; [done|].
  case_decide as Hk; simpl.
  - subst. by rewrite insert_insert_eq.
  - rewrite IH. by apply insert_insert_ne.
Qed.

Lemma dict_set_pairs {V} k (v : V) d kv :
  kv ∈ dict_set k v d → kv = (k, v) ∨ kv ∈ d.
Proof.
  induction d as [|[k' v'] d IH]; simpl.
  - set_solver.
  - case_decide; set_solver.
Qed.

(** Reading the attributes [names] into a dict: it fails at the first
    name that is no attribute, and otherwise holds the attributes. *)
Lemma dict_of_names_getattr attrs names : ∀ acc,
  match dict_of_names (getattr attrs) names acc with
  | Ok d =>
      (∀ n, n ∈ names → is_Some (attrs !! n))
      ∧ ∀ kv, kv ∈ d → kv ∈ acc ∨ (kv.1 ∈ names ∧ attrs !! kv.1 = Some kv.2)
  | Raise x => ∃ n, n ∈ names ∧ attrs !! n = None ∧ x = AttributeError n
  end.
Proof.
  induction names as [|n names IH]; intros acc; simpl.
  - split; [set_solver|]. by left.
  - destruct (attrs !! n) as [v|] eqn:Hn.
    + assert (getattr attrs n = Ok v) as -> by (unfold getattr; by rewrite Hn).
      simpl. specialize (IH (dict_set n v acc)).
      destruct (dict_of_names (getattr attrs) names (dict_set n v acc)) as [d|x].
      * destruct IH as [Hall Hpairs]. split.
        -- intros m [->|Hm]%elem_of_cons; [by eauto|by apply Hall].
        -- intros kv Hkv. destruct (Hpairs kv Hkv) as [Hacc|[Hin Hlook]].
           ++ apply dict_set_pairs in Hacc as [->|Hacc]; [|by left].
              right. simpl. split; [set_solver|done].
           ++ right. split; [set_solver|done].
      * destruct IH as (m & Hm & Hnone & ->). exists m. set_solver.
    + assert (getattr attrs n = Raise (AttributeError n)) as ->
        by (unfold getattr; by rewrite Hn).
      simpl. exists n. set_solver.
Qed.

(** A dict whose values all come from [h] is [h] on its keys. *)
Lemma list_to_map_from {V} (h : string → option V) (d : list (string * V)) n :
  (∀ kv, kv ∈ d → h kv.1 = Some kv.2) →
  (list_to_map d : gmap string V) !! n = if decide (n ∈ d.*1) then h n else None.
Proof.
  induction d as [|[k v] d IH]; intros Hfrom.
  - change (list_to_map []) with (∅ : gmap string V). rewrite lookup_empty.
    case_decide as H; [|done]. by apply elem_of_nil in H.
  - assert (h k = Some v) as Hk by (apply (Hfrom (k, v)), elem_of_cons; by left).
    assert (∀ kv, kv ∈ d → h kv.1 = Some kv.2) as Hrest
      by (intros kv Hkv; apply Hfrom, elem_of_cons; by right).
    change (list_to_map ((k, v) :: d)) with (<[k := v]> (list_to_map d) : gmap string V).
    rewrite fmap_cons. cbn [fst].
    rewrite lookup_insert, (IH Hrest).
    destruct (decide (k = n)) as [->|Hne].
    + rewrite decide_True by (apply elem_of_cons; by left). done.
    + destruct (decide (n ∈ d.*1)) as [Hin|Hnin].
      * rewrite decide_True by (apply elem_of_cons; by right). done.
      * rewrite decide_False; [done|].
        intros [?|?]%elem_of_cons; [by subst|done].
Qed.

Lemma add_builtins_lookup (h : string → option obj) (keys : list string)
    (l : list (string * obj)) n : ∀ init : gmap string obj,
  (∀ kv, kv ∈ l → h kv.1 = Some kv.2) →
  foldl (fun d kv => if bool_decide (kv.1 ∈ keys) then d else <[kv.1 := kv.2]> d) init l !! n
  = if decide (n ∈ l.*1 ∧ n ∉ keys) then h n else init !! n.
Proof.
  induction l as [|[k v] l IH]; intros init Hfrom.
  - cbn [foldl]. case_decide as H; [|done]. destruct H as [H _]. by apply elem_of_nil in H.
  - assert (h k = Some v) as Hk by (apply (Hfrom (k, v)), elem_of_cons; by left).
    assert (∀ kv, kv ∈ l → h kv.1 = Some kv.2) as Hrest
      by (intros kv Hkv; apply Hfrom, elem_of_cons; by right).
    cbn [foldl]. rewrite (IH _ Hrest), fmap_cons. cbn [fst snd].
    destruct (decide (n ∈ l.*1 ∧ n ∉ keys)) as [[Hin Hkeys]|Hnot].
    + rewrite decide_True; [done|]. split; [apply elem_of_cons; by right|done].
    + case_bool_decide as Hkk.
      * rewrite decide_False; [done|].
        intros [[->|Hin]%elem_of_cons Hkeys]; [done|]. by apply Hnot.
      * destruct (decide (n = k)) as [->|Hne].
        -- rewrite lookup_insert_eq, decide_True; [done|].
           split; [apply elem_of_cons; by left|done].
        -- rewrite lookup_insert_ne by done. rewrite decide_False; [done|].
           intros [[->|Hin]%elem_of_cons Hkeys]; [done|]. by apply Hnot.
Qed.

Lemma add_named_lookup {V} (g : obj → V) (h : string → option obj)
    (l : list (string * obj)) n : ∀ init : gmap string V,
  (∀ kv, kv ∈ l → h kv.1 = Some kv.2) →
  foldl (fun d nfn => <[nfn.1 := g nfn.2]> d) init l !! n
  = if decide (n ∈ l.*1) then g <$> h n else init !! n.
Proof.
  induction l as [|[k v] l IH]; intros init Hfrom.
  - cbn [foldl]. case_decide as H; [|done]. by apply elem_of_nil in H.
  - assert (h k = Some v) as Hk by (apply (Hfrom (k, v)), elem_of_cons; by left).
    assert (∀ kv, kv ∈ l → h kv.1 = Some kv.2) as Hrest
      by (intros kv Hkv; apply Hfrom, elem_of_cons; by right).
    cbn [foldl]. rewrite (IH _ Hrest), fmap_cons. cbn [fst snd].
    destruct (decide (n ∈ l.*1)) as [Hin|Hnin].
    + rewrite decide_True by (apply elem_of_cons; by right). done.
    + destruct (decide (n = k)) as [->|Hne].
      * rewrite lookup_insert_eq, Hk, decide_True by (apply elem_of_cons; by left). done.
      * rewrite lookup_insert_ne by done. rewrite decide_False; [done|].
        intros [?|?]%elem_of_cons; [by subst|done].
Qed.

(** What a successful [Backend_init] has read, and from where. *)
Lemma Backend_init_ok builtins module allow_builtin_names allow_keywords
    allow_methods backend :
  Backend_init builtins module allow_builtin_names allow_keywords allow_methods
    = Ok backend →
  let allow := default default_allow_builtin_names allow_builtin_names in
  ∃ bf mf : list (string * obj),
    allow ∩ known_unsafe_builtins = ∅
    ∧ (∀ n, n ∈ allow → is_Some (builtins !! n))
    ∧ (∀ n, n ∈ __all__ module → is_Some (module_attrs module !! n))
    ∧ (∀ n, n ∈ bf.*1 ↔ n ∈ allow)
    ∧ (∀ n, n ∈ mf.*1 ↔ n ∈ __all__ module)
    ∧ (∀ kv, kv ∈ bf → builtins !! kv.1 = Some kv.2)
    ∧ (∀ kv, kv ∈ mf → module_attrs module !! kv.1 = Some kv.2)
    ∧ backend = {|
        _allow_methods := default default_allow_methods allow_methods;
        _allow_keywords := default default_allow_keywords allow_keywords;
        _allow_keywords_and_methods :=
          default default_allow_keywords allow_keywords
          ∪ default default_allow_methods allow_methods;
        Backend_predefined_names := list_to_set (__all__ module) ∪ allow;
        _module_functions := mf;
        _SupplyImpliedArguments_for :=
          filter (fun nfn => (0 < length (ImpliedArguments nfn.2))%nat) mf;
        predefined_functions :=
          foldl (fun d kv => if bool_decide (kv.1 ∈ mf.*1) then d
                             else <[kv.1 := kv.2]> d)
                (list_to_map mf) bf;
        _named_parameter_names_for :=
          foldl (fun d nfn => <[nfn.1 := allowed_named_parameters nfn.2]> d)
                ∅ (bf ++ mf)%list |}.
Proof.
  intros Hinit allow. unfold Backend_init in Hinit. fold allow in Hinit. revert Hinit.
  case_bool_decide as Hsize; [done|].
  pose proof (dict_of_names_getattr builtins (elements allow) []) as Hbf.
  pose proof (dict_of_names_keys (getattr builtins) (elements allow) []) as Hbfk.
  destruct (dict_of_names (getattr builtins) _ _) as [bf|]; simpl; [|done].
  pose proof (dict_of_names_getattr (module_attrs module) (__all__ module) []) as Hmf.
  pose proof (dict_of_names_keys (getattr (module_attrs module)) (__all__ module) []) as Hmfk.
  destruct (dict_of_names (getattr (module_attrs module)) _ _) as [mf|]; simpl; [|done].
  intros [= <-]. exists bf, mf.
  destruct Hbf as [Hball Hbpairs]. destruct Hmf as [Hmall Hmpairs].
  split; [by apply leibniz_equiv, size_empty_inv|].
  split; [intros n Hn; apply Hball; set_solver|].
  split; [done|].
  split; [intros n; rewrite (Hbfk bf eq_refl n); set_solver|].
  split; [intros n; rewrite (Hmfk mf eq_refl n); set_solver|].
  split; [intros kv Hkv; destruct (Hbpairs kv Hkv) as [?|[_ ?]]; [set_solver|done]|].
  split; [intros kv Hkv; destruct (Hmpairs kv Hkv) as [?|[_ ?]]; [set_solver|done]|].
  done.
Qed.

(** X1: [Backend] construction succeeds exactly when no allowed builtin
    name is black-listed, every allowed builtin name is an attribute of
    [builtins] and every name of [__all__] is an attribute of the module.
    Otherwise it raises [ValueError] for the black list first, then
    [AttributeError] for a builtin name, then for a module name. *)
Theorem Backend_init_outcome
    (builtins : gmap string obj) (module : pymodule)
    (allow_builtin_names allow_keywords allow_methods : option (gset string)) :
  let allow := default default_allow_builtin_names allow_builtin_names in
  match Backend_init builtins module allow_builtin_names allow_keywords allow_methods with
  | Ok backend =>
      allow ∩ known_unsafe_builtins = ∅
      ∧ (∀ n, n ∈ allow → is_Some (builtins !! n))
      ∧ (∀ n, n ∈ __all__ module → is_Some (module_attrs module !! n))
  | Raise x =>
      (x = ValueError "" ∧ ∃ n, n ∈ allow ∧ n ∈ known_unsafe_builtins)
      ∨ (allow ∩ known_unsafe_builtins = ∅
         ∧ ∃ n, x = AttributeError n
                ∧ ((n ∈ allow ∧ builtins !! n = None)
                   ∨ ((∀ m, m ∈ allow → is_Some (builtins !! m))
                      ∧ n ∈ __all__ module ∧ module_attrs module !! n = None)))
  end.
Proof.
  intros allow.
  destruct (Backend_init _ _ _ _ _) as [backend|x] eqn:Hinit.
  - apply Backend_init_ok in Hinit as (bf & mf & H1 & H2 & H3 & _). done.
  - revert Hinit. unfold Backend_init. fold allow.
    case_bool_decide as Hsize.
    + intros [= <-]. left. split; [done|].
      destruct (size_pos_elem_of (allow ∩ known_unsafe_builtins)) as [n Hn]; [lia|].
      exists n. set_solver.
    + assert (allow ∩ known_unsafe_builtins = ∅) as Hsafe.
      { apply leibniz_equiv, size_empty_inv.
        destruct (size (allow ∩ known_unsafe_builtins)); [done|by destruct Hsize]. }
      pose proof (dict_of_names_getattr builtins (elements allow) []) as Hbf.
      destruct (dict_of_names (getattr builtins) _ _) as [bf|y]; simpl.
      * pose proof (dict_of_names_getattr (module_attrs module) (__all__ module) []) as Hmf.
        destruct (dict_of_names (getattr (module_attrs module)) _ _) as [mf|y]; simpl;
          [done|].
        intros [= <-]. right. split; [done|].
        destruct Hmf as (n & Hn & Hnone & ->). exists n. split; [done|]. right.
        destruct Hbf as [Hall _]. split; [|done]. intros m Hm. apply Hall. set_solver.
      * intros [= <-]. right. split; [done|].
        destruct Hbf as (n & Hn & Hnone & ->). exists n. split; [done|]. left.
        set_solver.
Qed.

Lemma registry_lookup_of_init builtins module allow_builtin_names allow_keywords
    allow_methods backend :
  Backend_init builtins module allow_builtin_names allow_keywords allow_methods
    = Ok backend →
  ∀ n, predefined_functions backend !! n =
       if decide (n ∈ __all__ module) then module_attrs module !! n
       else if decide (n ∈ default default_allow_builtin_names allow_builtin_names)
            then builtins !! n
            else None.
Proof.
  intros Hinit.
  apply Backend_init_ok in Hinit
    as (bf & mf & _ & Hball & Hmall & Hbk & Hmk & Hbv & Hmv & ->). simpl.
  intros n.
  rewrite (add_builtins_lookup (fun k => builtins !! k)) by done.
  rewrite (list_to_map_from (fun k => module_attrs module !! k)) by done.
  destruct (decide (n ∈ __all__ module)) as [Hin|Hnin].
  - rewrite decide_False by (intros [_ H]; by apply H, Hmk).
    rewrite decide_True by (by apply Hmk). done.
  - destruct (decide (n ∈ default default_allow_builtin_names allow_builtin_names))
      as [Hal|Hnal].
    + rewrite decide_True; [done|]. split; [by apply Hbk|]. by rewrite Hmk.
    + rewrite decide_False by (intros [H _]; by apply Hnal, Hbk).
      rewrite decide_False by (by rewrite Hmk). done.
Qed.

Lemma registry_dom_of_init builtins module allow_builtin_names allow_keywords
    allow_methods backend :
  Backend_init builtins module allow_builtin_names allow_keywords allow_methods
    = Ok backend →
  dom (predefined_functions backend) = Backend_predefined_names backend.
Proof.
  intros Hinit. pose proof (registry_lookup_of_init _ _ _ _ _ _ Hinit) as Hlook.
  apply Backend_init_ok in Hinit
    as (bf & mf & _ & Hball & Hmall & Hbk & Hmk & Hbv & Hmv & Hb).
  apply set_eq. intros n. rewrite elem_of_dom, Hlook. rewrite Hb. simpl.
  rewrite elem_of_union, elem_of_list_to_set.
  destruct (decide (n ∈ __all__ module)) as [Hin|Hnin].
  - split; [by left|]. intros _. by apply Hmall.
  - destruct (decide (n ∈ default default_allow_builtin_names allow_builtin_names))
      as [Hal|Hnal].
    + split; [by right|]. intros _. by apply Hball.
    + split; [by intros [? ?]|]. by intros [?|?].
Qed.

(** X2: in a constructed backend a name of the module's [__all__] is bound
    to the module's attribute, also when [builtins] has the name; any other
    allowed builtin name is bound to the attribute of [builtins]; nothing
    else is bound, so every predefined name has a binding. *)
Theorem registry_prefers_module_functions
    (builtins : gmap string obj) (module : pymodule)
    (allow_builtin_names allow_keywords allow_methods : option (gset string))
    (backend : Backend) :
  Backend_init builtins module allow_builtin_names allow_keywords allow_methods
    = Ok backend →
  (∀ n, predefined_functions backend !! n =
        if decide (n ∈ __all__ module) then module_attrs module !! n
        else if decide (n ∈ default default_allow_builtin_names allow_builtin_names)
             then builtins !! n
             else None)
  ∧ dom (predefined_functions backend) = Backend_predefined_names backend.
Proof.
  intros Hinit. split.
  - by eapply registry_lookup_of_init.
  - by eapply registry_dom_of_init.
Qed.

Lemma registry_prefers_module_functions_witness :
  Backend_init py_builtins test_module None None None = Ok test_backend
  ∧ predefined_functions test_backend !! "oct" = module_attrs test_module !! "oct"
  ∧ predefined_functions test_backend !! "abs" = py_builtins !! "abs"
  ∧ dom (predefined_functions test_backend) = Backend_predefined_names test_backend.
Proof.
  assert (Backend_init py_builtins test_module None None None = Ok test_backend) as H
    by (apply backend_of_ok; vm_compute; reflexivity).
  pose proof (registry_prefers_module_functions py_builtins test_module None None None
                test_backend H) as [Hlook Hdom].
  split; [exact H|]. split; [|split; [|exact Hdom]].
  - rewrite (Hlook "oct"). apply decide_True.
    apply (bool_decide_unpack _). vm_compute. reflexivity.
  - rewrite (Hlook "abs"). rewrite decide_False, decide_True; [done| |].
    + apply (bool_decide_unpack _). vm_compute. reflexivity.
    + apply (bool_decide_unpack _). vm_compute. reflexivity.
Defined.

(** The named parameters of a constructed backend, read off the registry. *)
Lemma named_parameters_of_init
    (builtins : gmap string obj) (module : pymodule)
    (allow_builtin_names allow_keywords allow_methods : option (gset string))
    (backend : Backend) :
  Backend_init builtins module allow_builtin_names allow_keywords allow_methods
    = Ok backend →
  _named_parameter_names_for backend
    = allowed_named_parameters <$> predefined_functions backend
  ∧ ∀ n names p,
      _named_parameter_names_for backend !! n = Some names → p ∈ names →
      ∃ fn, predefined_functions backend !! n = Some fn
            ∧ p ∈ NamedParameterNames fn
            ∧ ¬ String.prefix "_" p
            ∧ p ∉ ImpliedArguments fn.
Proof.
  intros Hinit.
  pose proof (registry_lookup_of_init _ _ _ _ _ _ Hinit) as Hlook.
  assert (_named_parameter_names_for backend
          = allowed_named_parameters <$> predefined_functions backend) as Heq.
  { apply Backend_init_ok in Hinit
      as (bf & mf & _ & Hball & Hmall & Hbk & Hmk & Hbv & Hmv & Hb).
    apply map_eq. intros n. rewrite lookup_fmap, Hlook. rewrite Hb. simpl.
    rewrite foldl_app.
    rewrite (add_named_lookup _ (fun k => module_attrs module !! k)) by done.
    rewrite (add_named_lookup _ (fun k => builtins !! k)) by done.
    rewrite lookup_empty.
    destruct (decide (n ∈ __all__ module)) as [Hin|Hnin].
    - rewrite decide_True by (by apply Hmk). done.
    - rewrite decide_False by (by rewrite Hmk).
      destruct (decide (n ∈ default default_allow_builtin_names allow_builtin_names))
        as [Hal|Hnal].
      + rewrite decide_True by (by apply Hbk). done.
      + rewrite decide_False by (by rewrite Hbk). done. }
  split; [exact Heq|].
  intros n names p Hnames Hp. rewrite Heq, lookup_fmap in Hnames.
  destruct (predefined_functions backend !! n) as [fn|]; [|done].
  simpl in Hnames. simplify_eq. exists fn. split; [done|].
  unfold allowed_named_parameters in Hp.
  apply elem_of_difference in Hp as [Hin Himp].
  apply elem_of_list_to_set, list_elem_of_filter in Hin as [Hunder Hnamed].
  rewrite elem_of_list_to_set in Himp. done.
Qed.

(** X3: the named parameters that a constructed backend offers for a name
    are those of the object the name is bound to - the module's function
    when the module and [builtins] share the name - and they never include a
    name that starts with an underscore or an implied argument of that
    object. *)
Theorem named_parameters_follow_registry
    (builtins : gmap string obj) (module : pymodule)
    (allow_builtin_names allow_keywords allow_methods : option (gset string))
    (backend : Backend) :
  Backend_init builtins module allow_builtin_names allow_keywords allow_methods
    = Ok backend →
  _named_parameter_names_for backend
    = allowed_named_parameters <$> predefined_functions backend
  ∧ ∀ n names p,
      _named_parameter_names_for backend !! n = Some names → p ∈ names →
      ∃ fn, predefined_functions backend !! n = Some fn
            ∧ p ∈ NamedParameterNames fn
            ∧ ¬ String.prefix "_" p
            ∧ p ∉ ImpliedArguments fn.
Proof. apply named_parameters_of_init. Qed.

Lemma named_parameters_follow_registry_witness :
  Backend_init py_builtins test_module None None None = Ok test_backend
  ∧ _named_parameter_names_for test_backend !! "pos_only" = Some {[ "y"; "z"; "p" ]}
  ∧ "p" ∈ ({[ "y"; "z"; "p" ]} : gset string)
  ∧ ∃ fn, predefined_functions test_backend !! "pos_only" = Some fn
          ∧ "p" ∈ NamedParameterNames fn
          ∧ ¬ String.prefix "_" "p"
          ∧ "p" ∉ ImpliedArguments fn.
Proof.
  assert (Backend_init py_builtins test_module None None None = Ok test_backend) as H1
    by (apply backend_of_ok; vm_compute; reflexivity).
  assert (_named_parameter_names_for test_backend !! "pos_only" = Some {[ "y"; "z"; "p" ]})
    as H2 by (apply (bool_decide_unpack _); vm_compute; reflexivity).
  assert ("p" ∈ ({[ "y"; "z"; "p" ]} : gset string)) as H3
    by (apply (bool_decide_unpack _); vm_compute; reflexivity).
  repeat (split; [assumption|]).
  exact (proj2 (named_parameters_follow_registry py_builtins test_module None None None
                  test_backend H1) "pos_only" _ "p" H2 H3).
Defined.

(** ** Introspection *)

Lemma elem_of_slice {A} (l : list A) (lo hi : nat) (x : A) :
  x ∈ slice l lo hi ↔ ∃ i, (lo ≤ i < hi)%nat ∧ l !! i = Some x.
Proof.
  unfold slice. rewrite elem_of_take. split.
  - intros (j & Hj & Hlt). rewrite lookup_drop in Hj. exists (lo + j)%nat.
    split; [lia|done].
  - intros (i & Hi & Hx). exists (i - lo)%nat. rewrite lookup_drop.
    replace (lo + (i - lo))%nat with i by lia. split; [done|lia].
Qed.

(** X4: the implied arguments of a function are all of its keyword-only
    parameters or none of them; one keyword-only parameter with a default is
    enough for none; and, positional-only parameters being counted among the
    positional ones, every implied argument is also a named parameter. *)
Theorem implied_arguments_all_or_nothing (fn : obj) (co : code) :
  get_code fn = Some co →
  let kwonlyargs :=
    slice (co_varnames co) (co_argcount co)
          (co_argcount co + co_kwonlyargcount co)%nat in
  (ImpliedArguments fn = kwonlyargs ∨ ImpliedArguments fn = [])
  ∧ ((∃ kwdefaults a,
        get_kwdefaults fn = Some kwdefaults ∧ a ∈ kwonlyargs ∧ a ∈ kwdefaults.*1) →
     ImpliedArguments fn = [])
  ∧ ((co_posonlyargcount co ≤ co_argcount co)%nat →
     ∀ a, a ∈ ImpliedArguments fn → a ∈ NamedParameterNames fn).
Proof.
  intros Hco kwonlyargs.
  assert (ImpliedArguments fn = kwonlyargs ∨ ImpliedArguments fn = []) as Hcases.
  { unfold ImpliedArguments. rewrite Hco. fold kwonlyargs.
    destruct (co_kwonlyargcount co =? 0)%nat; [by right|].
    destruct (get_kwdefaults fn); [|by left]. destruct (existsb _ _); [by right|by left]. }
  split; [exact Hcases|]. split.
  - intros (kwdefaults & a & Hkw & Ha & Hdef).
    unfold ImpliedArguments. rewrite Hco, Hkw. fold kwonlyargs.
    destruct (co_kwonlyargcount co =? 0)%nat; [done|].
    destruct (existsb _ _) eqn:Hex; [done|].
    assert (existsb (fun anavn => bool_decide (anavn ∈ kwdefaults.*1)) kwonlyargs = true)
      as Htrue; [|congruence].
    apply existsb_exists. exists a. split; [by apply list_elem_of_In|].
    by apply bool_decide_eq_true.
  - intros Hpos a Ha. unfold NamedParameterNames. rewrite Hco.
    destruct Hcases as [Heq|Heq]; rewrite Heq in Ha; [|by apply elem_of_nil in Ha].
    apply elem_of_slice in Ha as (i & Hi & Hx). apply elem_of_slice.
    exists i. split; [lia|done].
Qed.

(** The function [pos_only(x, /, y, z, *, p=0)] of the test module, and
    [implied(x, *, b)]. *)
Lemma implied_arguments_all_or_nothing_witness :
  get_code (def "pos_only" ["x"; "y"; "z"; "p"] 1 3 1 (Some [("p", OInt 0)])).2
    = Some {| co_varnames := ["x"; "y"; "z"; "p"]; co_posonlyargcount := 1;
              co_argcount := 3; co_kwonlyargcount := 1 |}
  ∧ ImpliedArguments (def "pos_only" ["x"; "y"; "z"; "p"] 1 3 1 (Some [("p", OInt 0)])).2 = []
  ∧ get_code (def "implied" ["x"; "b"] 0 1 1 None).2
    = Some {| co_varnames := ["x"; "b"]; co_posonlyargcount := 0;
              co_argcount := 1; co_kwonlyargcount := 1 |}
  ∧ "b" ∈ ImpliedArguments (def "implied" ["x"; "b"] 0 1 1 None).2
  ∧ "b" ∈ NamedParameterNames (def "implied" ["x"; "b"] 0 1 1 None).2.
Proof.
  assert (get_code (def "pos_only" ["x"; "y"; "z"; "p"] 1 3 1 (Some [("p", OInt 0)])).2
          = Some {| co_varnames := ["x"; "y"; "z"; "p"]; co_posonlyargcount := 1;
                    co_argcount := 3; co_kwonlyargcount := 1 |}) as H1 by reflexivity.
  assert (get_code (def "implied" ["x"; "b"] 0 1 1 None).2
          = Some {| co_varnames := ["x"; "b"]; co_posonlyargcount := 0;
                    co_argcount := 1; co_kwonlyargcount := 1 |}) as H2 by reflexivity.
  assert ("b" ∈ ImpliedArguments (def "implied" ["x"; "b"] 0 1 1 None).2) as H3
    by (apply (bool_decide_unpack _); vm_compute; reflexivity).
  split; [exact H1|]. split.
  - apply (proj1 (proj2 (implied_arguments_all_or_nothing _ _ H1))).
    exists [("p", OInt 0)], "p". split; [reflexivity|].
    split; apply (bool_decide_unpack _); vm_compute; reflexivity.
  - split; [exact H2|]. split; [exact H3|].
    apply (proj2 (proj2 (implied_arguments_all_or_nothing _ _ H2))); [simpl; lia|exact H3].
Defined.

(** ** What the constructor of [Expression] raises *)

Lemma bind_predefined_total functions names : ∀ ns,
  (∀ n, n ∈ names → is_Some (functions !! n)) →
  ∃ ns', bind_predefined functions names ns = Ok ns'.
Proof.
  induction names as [|n names IH]; intros ns Hall; simpl; [by eauto|].
  destruct (Hall n) as [v Hv]; [by apply elem_of_cons; left|]. rewrite Hv.
  apply IH. intros m Hm. apply Hall, elem_of_cons. by right.
Qed.

Lemma scan_raise backend stream x :
  scan backend stream = Raise x →
  (∃ t errtext, t ∈ stream.1 ∧ x = PinasExpressionError t errtext)
  ∨ (x = IndexError ∧ ∃ t, t ∈ stream.1 ∧ tok_type t = OP ∧ tok_string t = "")
  ∨ stream.2 = Some x.
Proof.
  unfold scan.
  destruct (scan_tokens backend scan_start stream.1) as [st|y] eqn:Hscan; simpl.
  - destruct stream.2; [|done]. intros [= <-]. by right; right.
  - intros [= <-].
    apply scan_tokens_raise in Hscan as (t & Hin & [[m ->]|(-> & Hop & Hempty)]).
    + left. by eauto.
    + right. left. by eauto.
Qed.

(** X5: with a constructed backend the constructor of [Expression] fails
    exactly when the token loop does: the lookup of the bound names in the
    registry never raises [KeyError].  What it raises is the
    [PinasExpressionError] of a token of the stream, the [IndexError] of an
    operator token with an empty text, or the exception that ended the
    token stream. *)
Theorem compile_fails_in_the_token_loop
    (builtins : gmap string obj) (module : pymodule)
    (allow_builtin_names allow_keywords allow_methods : option (gset string))
    (backend : Backend)
    (generate_tokens : string → list TokenInfo * option exn) (text : string) :
  Backend_init builtins module allow_builtin_names allow_keywords allow_methods
    = Ok backend →
  match Expression_init generate_tokens text backend with
  | Ok e => ∃ st, scan backend (generate_tokens text) = Ok st
  | Raise x =>
      scan backend (generate_tokens text) = Raise x
      ∧ ((∃ t errtext,
            t ∈ (generate_tokens text).1 ∧ x = PinasExpressionError t errtext)
         ∨ (x = IndexError
            ∧ ∃ t, t ∈ (generate_tokens text).1 ∧ tok_type t = OP ∧ tok_string t = "")
         ∨ (generate_tokens text).2 = Some x)
  end.
Proof.
  intros Hinit. pose proof (registry_dom_of_init _ _ _ _ _ _ Hinit) as Hdom.
  unfold Expression_init.
  destruct (scan backend (generate_tokens text)) as [st|x] eqn:Hscan; simpl.
  - set (P := (unbound_names st ∩ Backend_predefined_names backend)
                ∖ _allow_keywords_and_methods backend).
    set (F := unbound_names st ∖ Backend_predefined_names backend
                ∖ _allow_keywords_and_methods backend).
    destruct (add_implied_names backend (_SupplyImpliedArguments_for backend) (P, F))
      as [HP _]; [set_solver..|].
    destruct (bind_predefined_total (predefined_functions backend)
                (elements (foldl (add_implied backend) (P, F)
                             (_SupplyImpliedArguments_for backend)).1)
                {[ "__builtins__" := ODict [] ]}) as [base ->].
    + intros n Hn. apply elem_of_dom. rewrite Hdom. set_solver.
    + simpl. by eauto.
  - split; [done|]. by apply (scan_raise backend).
Qed.

Lemma compile_fails_in_the_token_loop_witness :
  Backend_init py_builtins test_module None None None = Ok test_backend
  ∧ scan test_backend (tokenize_model "(1") = Raise TokenError
  ∧ compile "(1" = Raise TokenError.
Proof.
  assert (Backend_init py_builtins test_module None None None = Ok test_backend) as H
    by (apply backend_of_ok; vm_compute; reflexivity).
  split; [exact H|].
  pose proof (compile_fails_in_the_token_loop py_builtins test_module None None None
                test_backend tokenize_model "(1" H) as Hcase.
  assert (compile "(1" = Raise TokenError) as Hc by (vm_compute; reflexivity).
  rewrite Hc in Hcase. split; [exact (proj1 Hcase)|exact Hc].
Defined.

(** X6: an error token in the stream makes the constructor fail with a
    [PinasExpressionError]; the error is ['Syntax error'] at that token when
    the tokens before it pass. *)
Theorem error_token_rejected
    (generate_tokens : string → list TokenInfo * option exn)
    (text : string) (backend : Backend)
    (pre : list TokenInfo) (tok : TokenInfo) (post : list TokenInfo) :
  (generate_tokens text).1 = (pre ++ tok :: post)%list →
  ops_nonempty pre →
  tok_type tok = ERRORTOKEN →
  (∃ t errtext,
     Expression_init generate_tokens text backend = Raise (PinasExpressionError t errtext))
  ∧ ((∃ st, scan_tokens backend scan_start pre = Ok st) →
     Expression_init generate_tokens text backend
     = Raise (PinasExpressionError tok "Syntax error")).
Proof.
  intros Hstream Hops Htype.
  assert (∀ st, check_token backend st tok = Raise (PinasExpressionError tok "Syntax error"))
    as Hcheck.
  { intros st. unfold check_token. rewrite Htype. simpl. done. }
  split.
  - destruct (scan_tokens backend scan_start pre) as [st|x] eqn:Hpre.
    + exists tok, "Syntax error". by eapply Expression_init_token_raise.
    + destruct (scan_tokens_raise_expression_error _ _ _ _ Hops Hpre) as (t & m & _ & ->).
      exists t, m. by eapply Expression_init_scan_raise.
  - intros [st Hpre]. by eapply Expression_init_token_raise.
Qed.

Lemma error_token_rejected_witness :
  (tokenize_model "1 $ 2").1 = (stray_pre ++ stray_tok :: stray_post)%list
  ∧ ops_nonempty stray_pre
  ∧ tok_type stray_tok = ERRORTOKEN
  ∧ (∃ st, scan_tokens test_backend scan_start stray_pre = Ok st)
  ∧ compile "1 $ 2" = Raise (PinasExpressionError stray_tok "Syntax error").
Proof.
  assert ((tokenize_model "1 $ 2").1 = (stray_pre ++ stray_tok :: stray_post)%list) as H1
    by (vm_compute; reflexivity).
  assert (ops_nonempty stray_pre) as H2 by (repeat constructor; discriminate).
  assert (tok_type stray_tok = ERRORTOKEN) as H3 by reflexivity.
  assert (∃ st, scan_tokens test_backend scan_start stray_pre = Ok st) as H4
    by (apply raised_None; vm_compute; reflexivity).
  repeat (split; [assumption|]).
  exact (proj2 (error_token_rejected tokenize_model "1 $ 2" test_backend
                  stray_pre stray_tok stray_post H1 H2 H3) H4).
Defined.

(** ** Bound names and free variables *)

Lemma add_implied_inner_grows backend (args : list string) :
  ∀ (sets : gset string * gset string),
  let sets' :=
    foldl (fun s implied_arg =>
             if bool_decide (implied_arg ∈ Backend_predefined_names backend)
             then (s.1 ∪ {[ implied_arg ]}, s.2)
             else (s.1, s.2 ∪ {[ implied_arg ]})) sets args in
  sets.1 ⊆ sets'.1 ∧ sets.2 ⊆ sets'.2
  ∧ ∀ n, n ∈ sets'.1 ∪ sets'.2 → n ∈ sets.1 ∪ sets.2 ∨ n ∈ args.
Proof.
  induction args as [|a args IH]; intros sets; simpl; [set_solver|].
  match goal with
  | |- context [foldl ?f ?s0 args] => destruct (IH s0) as (H1 & H2 & H3)
  end.
  case_bool_decide; simpl in *.
  - split; [set_solver|]. split; [set_solver|].
    intros n Hn. destruct (H3 n Hn) as [Hin|Hin]; set_solver.
  - split; [set_solver|]. split; [set_solver|].
    intros n Hn. destruct (H3 n Hn) as [Hin|Hin]; set_solver.
Qed.

(** The loop over the functions with implied arguments only adds names, and
    every name it adds is an implied argument of a function whose name is
    bound in the end. *)
Lemma add_implied_grows backend (l : list (string * obj)) :
  ∀ (sets : gset string * gset string),
  let sets' := foldl (add_implied backend) sets l in
  sets.1 ⊆ sets'.1 ∧ sets.2 ⊆ sets'.2
  ∧ ∀ n, n ∈ sets'.1 ∪ sets'.2 →
         n ∈ sets.1 ∪ sets.2
         ∨ ∃ nfn, nfn ∈ l ∧ nfn.1 ∈ sets'.1 ∧ n ∈ ImpliedArguments nfn.2.
Proof.
  induction l as [|nfn l IH]; intros sets; simpl; [set_solver|].
  destruct (IH (add_implied backend sets nfn)) as (H1 & H2 & H3).
  assert (sets.1 ⊆ (add_implied backend sets nfn).1
          ∧ sets.2 ⊆ (add_implied backend sets nfn).2
          ∧ ∀ n, n ∈ (add_implied backend sets nfn).1 ∪ (add_implied backend sets nfn).2 →
                 n ∈ sets.1 ∪ sets.2
                 ∨ (nfn.1 ∈ sets.1 ∧ n ∈ ImpliedArguments nfn.2)) as (G1 & G2 & G3).
  { unfold add_implied. case_bool_decide as Hin; [|set_solver].
    destruct (add_implied_inner_grows backend (ImpliedArguments nfn.2) sets)
      as (K1 & K2 & K3).
    split; [done|]. split; [done|]. intros n Hn.
    destruct (K3 n Hn); [by left|by right]. }
  split; [set_solver|]. split; [set_solver|].
  intros n Hn. destruct (H3 n Hn) as [Hin|(nfn' & Hl & Hb & Hi)].
  - destruct (G3 n Hin) as [?|[Hname Himp]]; [by left|].
    right. exists nfn. split; [by apply elem_of_cons; left|]. split; [set_solver|done].
  - right. exists nfn'. split; [by apply elem_of_cons; right|done].
Qed.

Lemma Expression_init_names generate_tokens text backend e :
  Expression_init generate_tokens text backend = Ok e →
  ∃ unbound : gset string,
    unbound = list_to_set (identifiers None (generate_tokens text).1)
    ∧ (Expression_predefined_names e, free_variables e)
      = foldl (add_implied backend)
          ((unbound ∩ Backend_predefined_names backend)
             ∖ _allow_keywords_and_methods backend,
           unbound ∖ Backend_predefined_names backend
             ∖ _allow_keywords_and_methods backend)
          (_SupplyImpliedArguments_for backend).
Proof.
  unfold Expression_init, scan.
  destruct (scan_tokens backend scan_start (generate_tokens text).1) as [st|] eqn:Hscan;
    simpl; [|done].
  destruct ((generate_tokens text).2); simpl; [done|].
  destruct (bind_predefined _ _ _); simpl; [|done].
  intros [= <-]. simpl.
  apply scan_tokens_ok in Hscan as (_ & _ & _ & _ & Hunb & _). simpl in Hunb.
  exists (unbound_names st). split; [rewrite Hunb; set_solver|].
  by destruct (foldl _ _ _).
Qed.

(** X7: in a compiled expression no name is both bound and free; bound
    names are registry names and free variables are not.  An identifier of
    the text (a name that does not follow a dot) that is no allowed keyword
    or method is bound if the registry has it and free otherwise; and every
    other bound or free name is an implied argument of a function whose name
    is bound. *)
Theorem names_of_expression
    (generate_tokens : string → list TokenInfo * option exn)
    (text : string) (backend : Backend) (e : Expression) :
  Expression_init generate_tokens text backend = Ok e →
  let ids : gset string := list_to_set (identifiers None (generate_tokens text).1) in
  let registry := Backend_predefined_names backend in
  let words := _allow_keywords_and_methods backend in
  Expression_predefined_names e ## free_variables e
  ∧ Expression_predefined_names e ⊆ registry
  ∧ free_variables e ## registry
  ∧ (ids ∩ registry) ∖ words ⊆ Expression_predefined_names e
  ∧ (ids ∖ registry) ∖ words ⊆ free_variables e
  ∧ ∀ n, n ∈ Expression_predefined_names e ∪ free_variables e →
         n ∈ ids ∖ words
         ∨ ∃ nfn, nfn ∈ _SupplyImpliedArguments_for backend
                  ∧ nfn.1 ∈ Expression_predefined_names e
                  ∧ n ∈ ImpliedArguments nfn.2.
Proof.
  intros Hinit ids registry words.
  destruct (compiled_expression _ _ _ _ Hinit) as (_ & HP & HF & _).
  destruct (Expression_init_names _ _ _ _ Hinit) as (unbound & Hunb & Hsets).
  fold ids in Hunb. subst unbound. fold registry words in Hsets.
  destruct (add_implied_grows backend (_SupplyImpliedArguments_for backend)
              ((ids ∩ registry) ∖ words, ids ∖ registry ∖ words)) as (H1 & H2 & H3).
  rewrite <-Hsets in H1, H2, H3. simpl in *.
  split; [set_solver|]. split; [done|]. split; [done|].
  split; [done|]. split; [done|].
  intros n Hn. destruct (H3 n Hn) as [Hin|Hex]; [left; set_solver|by right].
Qed.

(** The test [test_implied_argument]: [d] is free because [add_d] implies
    it. *)
Lemma names_of_expression_witness :
  compile "add_d(10)" = Ok add_d_expression
  ∧ "d" ∈ Expression_predefined_names add_d_expression ∪ free_variables add_d_expression
  ∧ ("d" ∈ (list_to_set (identifiers None (tokenize_model "add_d(10)").1) : gset string)
             ∖ _allow_keywords_and_methods test_backend
     ∨ ∃ nfn, nfn ∈ _SupplyImpliedArguments_for test_backend
              ∧ nfn.1 ∈ Expression_predefined_names add_d_expression
              ∧ "d" ∈ ImpliedArguments nfn.2).
Proof.
  assert (compile "add_d(10)" = Ok add_d_expression) as H
    by (apply expression_of_ok; vm_compute; reflexivity).
  assert ("d" ∈ Expression_predefined_names add_d_expression
                ∪ free_variables add_d_expression) as Hd
    by (apply (bool_decide_unpack _); vm_compute; reflexivity).
  split; [exact H|]. split; [exact Hd|].
  exact (proj2 (proj2 (proj2 (proj2 (proj2
           (names_of_expression tokenize_model "add_d(10)" test_backend
              add_d_expression H))))) "d" Hd).
Defined.

(** ** The wrapper of a function with implied arguments *)

(** X8: when the namespace lacks an implied argument of the function, the
    wrapper raises a [PinasNameError] without calling the function, whatever
    keyword arguments the call gives, an explicit value for the absent
    argument included.  The error lists exactly the implied arguments that
    the namespace lacks, and at least one. *)
Theorem wrapper_reports_absent_arguments
    (call : list obj → gmap string obj → result obj)
    (fn : obj) (namespace : gmap string obj)
    (args : list obj) (kwargs : gmap string obj) :
  ¬ Forall (fun a => a ∈ dom namespace) (ImpliedArguments fn) →
  ∃ names,
    supply_namespace_args call fn namespace args kwargs = Raise (PinasNameError names)
    ∧ names ≠ []
    ∧ ∀ a, a ∈ names ↔ a ∈ ImpliedArguments fn ∧ a ∉ dom namespace.
Proof.
  intros Hnot.
  destruct (supply_namespace_args_spec call fn namespace args kwargs) as [_ Habsent].
  exists (filter (fun a => a ∉ dom namespace) (ImpliedArguments fn)).
  split; [by apply Habsent|]. split.
  - apply not_Forall_Exists in Hnot; [|intros a; apply _].
    apply Exists_exists in Hnot as (a & Ha & Hdom). simpl in Hdom.
    intros Hnil.
    assert (a ∈ filter (fun a => a ∉ dom namespace) (ImpliedArguments fn)) as Hin
      by (apply list_elem_of_filter; done).
    rewrite Hnil in Hin. by apply elem_of_nil in Hin.
  - intros a. rewrite list_elem_of_filter. tauto.
Qed.

(** [f(x, *, d)] called with [d=5] against a namespace without [d]. *)
Lemma wrapper_reports_absent_arguments_witness :
  ¬ Forall (fun a => a ∈ dom ({[ "x" := OInt 1 ]} : gmap string obj))
           (ImpliedArguments (def "f" ["x"; "d"] 0 1 1 None).2)
  ∧ ∃ names,
      supply_namespace_args (f_host_call (def "f" ["x"; "d"] 0 1 1 None).2)
        (def "f" ["x"; "d"] 0 1 1 None).2 {[ "x" := OInt 1 ]} [OInt 10] {[ "d" := OInt 5 ]}
      = Raise (PinasNameError names)
      ∧ names ≠ []
      ∧ ∀ a, a ∈ names ↔ a ∈ ImpliedArguments (def "f" ["x"; "d"] 0 1 1 None).2
                          ∧ a ∉ dom ({[ "x" := OInt 1 ]} : gmap string obj).
Proof.
  assert (¬ Forall (fun a => a ∈ dom ({[ "x" := OInt 1 ]} : gmap string obj))
                   (ImpliedArguments (def "f" ["x"; "d"] 0 1 1 None).2)) as H
    by (apply (bool_decide_unpack _); vm_compute; reflexivity).
  split; [exact H|].
  exact (wrapper_reports_absent_arguments
           (f_host_call (def "f" ["x"; "d"] 0 1 1 None).2)
           (def "f" ["x"; "d"] 0 1 1 None).2 {[ "x" := OInt 1 ]} [OInt 10]
           {[ "d" := OInt 5 ]} H).
Defined.

(** ** What the evaluation reads of the caller's namespace *)

(** X9: the effective namespace and the result of [eval] depend on the
    caller's namespace through the values of the expression's free variables
    only: two namespaces that agree on them, each absent or with the same
    value, give the same effective namespace and the same outcome. *)
Theorem eval_reads_free_variables_only
    (py_eval : string → gmap string obj → result obj)
    (e : Expression) (namespace namespace' : gmap string obj) :
  (∀ n, n ∈ free_variables e → namespace !! n = namespace' !! n) →
  effective_namespace e namespace = effective_namespace e namespace'
  ∧ Expression_eval py_eval e namespace = Expression_eval py_eval e namespace'.
Proof.
  intros Hagree. split.
  - by apply effective_namespace_ext.
  - by apply Expression_eval_ext.
Qed.

(** [c+c] of the test suite reads [c] alone. *)
Lemma eval_reads_free_variables_only_witness :
  (∀ n, n ∈ free_variables cc_expression →
        test_namespace !! n = ({[ "c" := OInt 2 ]} : gmap string obj) !! n)
  ∧ effective_namespace cc_expression test_namespace
    = effective_namespace cc_expression {[ "c" := OInt 2 ]}
  ∧ Expression_eval (py_eval_model test_host_call) cc_expression test_namespace
    = Expression_eval (py_eval_model test_host_call) cc_expression {[ "c" := OInt 2 ]}.
Proof.
  assert (∀ n, n ∈ free_variables cc_expression →
               test_namespace !! n = ({[ "c" := OInt 2 ]} : gmap string obj) !! n) as H.
  { assert (free_variables cc_expression = {[ "c" ]}) as ->
      by (apply (bool_decide_unpack _); vm_compute; reflexivity).
    intros n ->%elem_of_singleton. vm_compute. reflexivity. }
  split; [exact H|].
  exact (eval_reads_free_variables_only (py_eval_model test_host_call) cc_expression
           test_namespace {[ "c" := OInt 2 ]} H).
Defined.

(** ** The functions of the effective namespace *)

(** The second loop of [effective_namespace] on a list whose functions all
    come from [h]: a name of the list that the namespace binds ends up bound
    to the wrapped function of that name. *)
Lemma wrap_implied_wrapped (h : string → option obj) (l : list (string * obj)) :
  (∀ kv, kv ∈ l → h kv.1 = Some kv.2) →
  ∀ (eff : gmap string obj) k, k ∈ l.*1 → k ∈ dom eff →
  ∃ fn, h k = Some fn
        ∧ foldl wrap_implied eff l !! k = Some (SupplyImpliedArguments fn).
Proof.
  induction l as [|x l IH] using rev_ind; intros Hh eff k Hk Hdom.
  - by apply elem_of_nil in Hk.
  - rewrite foldl_app. simpl.
    destruct (wrap_implied_lookup l eff k) as [Hd _].
    destruct (decide (x.1 = k)) as [Heq|Hne].
    + exists x.2. split.
      * rewrite <-Heq. apply Hh. apply elem_of_app. right. by apply list_elem_of_singleton.
      * assert (x.1 ∈ dom (foldl wrap_implied eff l)) as Hin by (by rewrite Hd, Heq).
        unfold wrap_implied at 1. rewrite bool_decide_eq_true_2 by done.
        rewrite Heq. by rewrite lookup_insert_eq.
    + rewrite fmap_app in Hk. apply elem_of_app in Hk as [Hk|Hk].
      * destruct (IH (fun kv Hkv => Hh kv (proj2 (elem_of_app _ _ _) (or_introl Hkv)))
                    eff k Hk Hdom) as (fn & Hfn & Hlook).
        exists fn. split; [done|].
        unfold wrap_implied at 1. case_bool_decide; [|done].
        by rewrite lookup_insert_ne.
      * simpl in Hk. apply list_elem_of_singleton in Hk. by subst.
Qed.

(** The entries of the effective namespace for bound names and for free
    variables. *)
Lemma effective_namespace_functions
    (builtins : gmap string obj) (module : pymodule)
    (allow_builtin_names allow_keywords allow_methods : option (gset string))
    (backend : Backend)
    (generate_tokens : string → list TokenInfo * option exn)
    (text : string) (e : Expression) (namespace eff : gmap string obj) :
  Backend_init builtins module allow_builtin_names allow_keywords allow_methods
    = Ok backend →
  Expression_init generate_tokens text backend = Ok e →
  effective_namespace e namespace = Ok eff →
  (∀ n, n ∈ Expression_predefined_names e →
        ∃ fn, predefined_functions backend !! n = Some fn
              ∧ eff !! n = Some (if decide (n ∈ __all__ module)
                                 then SupplyImpliedArguments fn else fn))
  ∧ (∀ n, n ∈ free_variables e → eff !! n = namespace !! n).
Proof.
  intros Hbackend Hinit Heff.
  destruct (compiled_expression _ _ _ _ Hinit) as (Hb & HP & HF & Hdom & Hbase).
  pose proof (effective_namespace_cases _ _ _ _ namespace Hinit) as Hcases.
  rewrite Heff in Hcases. destruct Hcases as (_ & _ & Hlook).
  pose proof (registry_lookup_of_init _ _ _ _ _ _ Hbackend) as Hreg.
  pose proof (registry_dom_of_init _ _ _ _ _ _ Hbackend) as Hregdom.
  split.
  - intros n Hn.
    assert (is_Some (predefined_functions backend !! n)) as [fn Hfn].
    { apply elem_of_dom. rewrite Hregdom. by apply HP. }
    exists fn. split; [done|].
    assert (n ∉ free_variables e) as Hnfree by set_solver.
    assert (_base_namespace e !! n = Some fn) as Hbn
      by (rewrite Hbase, decide_True by done; done).
    apply Backend_init_ok in Hbackend
      as (bf & mf & _ & _ & _ & _ & Hmk & _ & Hmv & Hrec).
    assert (_SupplyImpliedArguments_for backend
            = filter (fun nfn => (0 < length (ImpliedArguments nfn.2))%nat) mf) as Hsia
      by (by rewrite Hrec).
    destruct (decide (n ∈ (_SupplyImpliedArguments_for backend).*1)) as [Hw|Hnw].
    + (* the function is wrapped *)
      revert Heff. unfold effective_namespace. rewrite Hb.
      pose proof (supply_free_spec namespace (elements (free_variables e))
                    (_base_namespace e) (NoDup_elements _)) as Hspec.
      destruct (supply_free _ _ _) as [eff1|]; simpl; [|done].
      intros [= <-]. destruct Hspec as [_ Heff1].
      assert (n ∈ dom eff1) as Hdom1.
      { apply elem_of_dom. rewrite Heff1, decide_False by set_solver.
        rewrite Hbn. by eexists. }
      destruct (wrap_implied_wrapped (fun k => module_attrs module !! k)
                  (_SupplyImpliedArguments_for backend)) with (eff := eff1) (k := n)
        as (fn' & Hfn' & Hwrapped); [|done|done|].
      { intros kv Hkv. rewrite Hsia in Hkv.
        apply list_elem_of_filter in Hkv as [_ Hkv]. by apply Hmv. }
      assert (n ∈ __all__ module) as Hall.
      { apply Hmk. rewrite Hsia in Hw.
        apply list_elem_of_fmap in Hw as (kv & -> & [_ Hkv]%list_elem_of_filter).
        apply list_elem_of_fmap. by exists kv. }
      rewrite Hwrapped, decide_True by done.
      rewrite Hreg, decide_True in Hfn by done. congruence.
    + (* the entry of the base namespace stays *)
      rewrite (Hlook n Hnw), decide_False, Hbn by done.
      destruct (decide (n ∈ __all__ module)) as [Hall|Hnall]; [|done].
      apply Hmk, list_elem_of_fmap in Hall as ([k fn'] & -> & Hkv). simpl in *.
      pose proof (Hmv _ Hkv) as Hattr. simpl in Hattr.
      rewrite Hreg, decide_True in Hfn
        by (apply Hmk, list_elem_of_fmap; by exists (k, fn')).
      assert (fn' = fn) as -> by congruence.
      unfold SupplyImpliedArguments.
      destruct (length (ImpliedArguments fn)) eqn:Hlen; [done|].
      exfalso. apply Hnw. rewrite Hsia. apply list_elem_of_fmap. exists (k, fn).
      split; [done|]. apply list_elem_of_filter. simpl. split; [lia|done].
  - intros n Hn.
    assert (n ∉ (_SupplyImpliedArguments_for backend).*1) as Hnw.
    { intros Hw. apply (Backend_init_implied _ _ _ _ _ _ _ Hbackend) in Hw. set_solver. }
    by rewrite (Hlook n Hnw), decide_True.
Qed.

(** X10: with a constructed backend, the effective namespace binds every
    bound name of the expression to its registry function, wrapped by
    [SupplyImpliedArguments] when the name is in the module's [__all__] and
    unwrapped when it is a builtin only, whatever the caller's namespace
    holds; and it binds every free variable to what the caller's namespace
    holds for it, if anything. *)
Theorem effective_namespace_entries
    (builtins : gmap string obj) (module : pymodule)
    (allow_builtin_names allow_keywords allow_methods : option (gset string))
    (backend : Backend)
    (generate_tokens : string → list TokenInfo * option exn)
    (text : string) (e : Expression) (namespace eff : gmap string obj) :
  Backend_init builtins module allow_builtin_names allow_keywords allow_methods
    = Ok backend →
  Expression_init generate_tokens text backend = Ok e →
  effective_namespace e namespace = Ok eff →
  (∀ n, n ∈ Expression_predefined_names e →
        ∃ fn, predefined_functions backend !! n = Some fn
              ∧ eff !! n = Some (if decide (n ∈ __all__ module)
                                 then SupplyImpliedArguments fn else fn))
  ∧ (∀ n, n ∈ free_variables e → eff !! n = namespace !! n).
Proof. apply effective_namespace_functions. Qed.

(** The test [test_implied_argument]: [add_d] is wrapped, [d] comes from the
    namespace. *)
Lemma effective_namespace_entries_witness :
  Backend_init py_builtins test_module None None None = Ok test_backend
  ∧ compile "add_d(10)" = Ok add_d_expression
  ∧ ∃ eff,
      effective_namespace add_d_expression test_namespace = Ok eff
      ∧ (∀ n, n ∈ Expression_predefined_names add_d_expression →
              ∃ fn, predefined_functions test_backend !! n = Some fn
                    ∧ eff !! n = Some (if decide (n ∈ __all__ test_module)
                                       then SupplyImpliedArguments fn else fn))
      ∧ (∀ n, n ∈ free_variables add_d_expression → eff !! n = test_namespace !! n).
Proof.
  assert (Backend_init py_builtins test_module None None None = Ok test_backend) as H1
    by (apply backend_of_ok; vm_compute; reflexivity).
  assert (compile "add_d(10)" = Ok add_d_expression) as H2
    by (apply expression_of_ok; vm_compute; reflexivity).
  assert (∃ eff, effective_namespace add_d_expression test_namespace = Ok eff) as [eff H3]
    by (apply raised_None; vm_compute; reflexivity).
  split; [exact H1|]. split; [exact H2|].
  exists eff. split; [exact H3|].
  exact (effective_namespace_entries py_builtins test_module None None None test_backend
           tokenize_model "add_d(10)" add_d_expression test_namespace eff H1 H2 H3).
Defined.

(** ** What the tokens of a compiled expression have passed *)

Lemma check_token_passes backend st t st' :
  check_token backend st t = Ok st' →
  tok_type t ≠ ERRORTOKEN
  ∧ (tok_type t = NAME → after_dot (prev st) = true →
     tok_string t ∈ _allow_methods backend)
  ∧ (tok_type t = OP → last_char (tok_string t) = Some "="%char →
     tok_string t ∈ ["="; "=="; "!="; "<="; ">="])
  ∧ (tok_type t = OP → tok_string t = "=" →
     ∃ p, prev st = Some p ∧ tok_type p = NAME
          ∧ tok_string p ∈ available_named_parameter_names st).
Proof.
  unfold check_token. intros H. split; [|split; [|split]].
  - intros Herr. rewrite Herr in H. simpl in H. done.
  - intros Hname Hdot. rewrite Hname, Hdot in H. simpl in H.
    case_bool_decide as Hm; [done|].
    by destruct (decide (tok_string t ∈ _allow_methods backend)).
  - intros Hop Hlast. rewrite Hop, Hlast in H. simpl in H.
    case_bool_decide as Heq.
    + rewrite Heq. apply elem_of_cons. by left.
    + case_bool_decide as Hin; [done|].
      by destruct (decide (tok_string t ∈ ["="; "=="; "!="; "<="; ">="])).
  - intros Hop Heq. rewrite Hop, Heq in H. simpl in H.
    destruct (prev st) as [p|]; [|done].
    case_bool_decide as Hname; [|done].
    case_bool_decide as Hin; [done|].
    exists p. split; [done|]. split; [done|].
    by destruct (decide (tok_string p ∈ available_named_parameter_names st)).
Qed.

Lemma filter_split {A} (P : A → Prop) `{!∀ x, Decision (P x)} (l : list A) :
  ∀ pre t post,
  filter P l = (pre ++ t :: post)%list →
  ∃ l1 l2, l = (l1 ++ t :: l2)%list ∧ filter P l1 = pre ∧ filter P l2 = post.
Proof.
  induction l as [|x l IH]; intros pre t post Hsplit.
  - by destruct pre.
  - rewrite filter_cons in Hsplit. destruct (decide (P x)) as [Hx|Hx].
    + destruct pre as [|y pre]; simpl in Hsplit.
      * injection Hsplit as -> <-. exists [], l. done.
      * injection Hsplit as -> Hrest.
        destruct (IH _ _ _ Hrest) as (l1 & l2 & -> & <- & <-).
        exists (y :: l1), l2. rewrite filter_cons, decide_True by done. done.
    + destruct (IH _ _ _ Hsplit) as (l1 & l2 & -> & <- & <-).
      exists (x :: l1), l2. rewrite filter_cons, decide_False by done. done.
Qed.

(** The token before the next one is the last of the tokens kept so far. *)
Lemma last_kept_filter toks : ∀ p0,
  last_kept p0 toks =
  match last (filter (fun t => kept t) toks) with
  | Some t => Some t
  | None => p0
  end.
Proof.
  unfold last_kept. induction toks as [|x toks IH]; intros p0; simpl; [done|].
  rewrite IH, filter_cons. destruct (decide (kept x)) as [Hx|Hx].
  - apply Is_true_true in Hx. rewrite Hx, last_cons. by destruct (last _).
  - apply Is_true_false in Hx. by rewrite Hx.
Qed.

(** Layout tokens are no identifiers. *)
Lemma identifiers_filter toks : ∀ p0,
  identifiers p0 (filter (fun t => kept t) toks) = identifiers p0 toks.
Proof.
  induction toks as [|x toks IH]; intros p0; simpl; [done|].
  rewrite filter_cons. destruct (decide (kept x)) as [Hx|Hx].
  - apply Is_true_true in Hx. simpl. rewrite Hx. by rewrite IH.
  - apply Is_true_false in Hx. rewrite Hx, IH.
    assert (is_identifier p0 x = false) as ->; [|done].
    unfold kept, is_layout in Hx. unfold is_identifier.
    destruct (tok_type x); try done.
Qed.

(** X11: [net_tokens] of a compiled expression is the token stream without
    its comment, newline, indent, dedent and end tokens, in order.  None of
    them is an error token; a name that follows a dot is an allowed method;
    an operator that ends in [=] is one of [=], [==], [!=], [<=], [>=]; and
    a bare [=] follows a name that is a named parameter of some identifier
    before it. *)
Theorem net_tokens_are_checked
    (generate_tokens : string → list TokenInfo * option exn)
    (text : string) (backend : Backend) (e : Expression) :
  Expression_init generate_tokens text backend = Ok e →
  net_tokens e = filter (fun t => kept t) (generate_tokens text).1
  ∧ ∀ pre t post,
      net_tokens e = (pre ++ t :: post)%list →
      kept t = true
      ∧ tok_type t ≠ ERRORTOKEN
      ∧ (tok_type t = NAME → after_dot (last pre) = true →
         tok_string t ∈ _allow_methods backend)
      ∧ (tok_type t = OP → last_char (tok_string t) = Some "="%char →
         tok_string t ∈ ["="; "=="; "!="; "<="; ">="])
      ∧ (tok_type t = OP → tok_string t = "=" →
         ∃ p, last pre = Some p ∧ tok_type p = NAME
              ∧ tok_string p ∈ eligible_names backend (identifiers None pre)).
Proof.
  intros Hinit.
  assert (∃ st, scan_tokens backend scan_start (generate_tokens text).1 = Ok st
                ∧ net_tokens e = net_toks st) as (st & Hscan & Hnet).
  { revert Hinit. unfold Expression_init, scan.
    destruct (scan_tokens backend scan_start (generate_tokens text).1) as [st|];
      simpl; [|done].
    destruct ((generate_tokens text).2); simpl; [done|].
    destruct (bind_predefined _ _ _); simpl; [|done].
    intros [= <-]. by exists st. }
  assert (net_tokens e = filter (fun t => kept t) (generate_tokens text).1) as Hfilter.
  { rewrite Hnet. by apply scan_tokens_ok in Hscan as (_ & _ & _ & -> & _). }
  split; [done|]. intros pre t post Hsplit. rewrite Hfilter in Hsplit.
  assert (kept t = true) as Hkept.
  { assert (t ∈ filter (fun t => kept t) (generate_tokens text).1) as Hin
      by (rewrite Hsplit; apply elem_of_app; right; apply elem_of_cons; by left).
    apply list_elem_of_filter in Hin as [Hk _]. by apply Is_true_true. }
  split; [done|].
  apply filter_split in Hsplit as (l1 & l2 & Htoks & Hpre & _).
  rewrite Htoks, scan_tokens_app in Hscan.
  destruct (scan_tokens backend scan_start l1) as [st1|] eqn:Hl1; simpl in Hscan; [|done].
  destruct (scan_token backend st1 t) as [st2|] eqn:Hstep; simpl in Hscan; [|done].
  apply scan_start_state in Hl1 as [Hprev Hav].
  rewrite last_kept_filter, Hpre in Hprev.
  rewrite <-identifiers_filter, Hpre in Hav.
  assert (prev st1 = last pre) as Hlast by (rewrite Hprev; by destruct (last pre)).
  unfold scan_token in Hstep.
  destruct (check_token backend st1 t) as [st1'|] eqn:Hcheck; [|done].
  apply check_token_passes in Hcheck as (H1 & H2 & H3 & H4).
  rewrite Hlast in H2, H4. rewrite Hav in H4. done.
Qed.

(** The test [test_legal_named_attribute]. *)
Lemma net_tokens_are_checked_witness :
  compile "add(x=2, y=1)" = Ok named_expression
  ∧ net_tokens named_expression
    = filter (fun t => kept t) (tokenize_model "add(x=2, y=1)").1.
Proof.
  assert (compile "add(x=2, y=1)" = Ok named_expression) as H
    by (apply expression_of_ok; vm_compute; reflexivity).
  split; [exact H|].
  exact (proj1 (net_tokens_are_checked tokenize_model "add(x=2, y=1)" test_backend
                  named_expression H)).
Defined.

(** ** Identifiers that are allowed keywords or method names *)

(** X12: a name of the allowed keywords and methods is taken out of both
    name sets, also when the text uses it as a variable or the registry has
    a function of that name.  Unless it is an implied argument of a bound
    function, it is neither bound nor free in the compiled expression, and
    no effective namespace has an entry for it, whatever the caller's
    namespace supplies. *)
Theorem allowed_words_are_never_variables
    (generate_tokens : string → list TokenInfo * option exn)
    (text : string) (backend : Backend) (e : Expression)
    (namespace eff : gmap string obj) (n : string) :
  Expression_init generate_tokens text backend = Ok e →
  effective_namespace e namespace = Ok eff →
  n ∈ _allow_keywords_and_methods backend →
  n ≠ "__builtins__" →
  (∀ nfn, nfn ∈ _SupplyImpliedArguments_for backend →
          nfn.1 ∈ Expression_predefined_names e → n ∉ ImpliedArguments nfn.2) →
  n ∉ Expression_predefined_names e ∧ n ∉ free_variables e ∧ eff !! n = None.
Proof.
  intros Hinit Heff Hword Hne Himplied.
  destruct (compiled_expression _ _ _ _ Hinit) as (Hb & _ & _ & _ & Hbase).
  destruct (Expression_init_names _ _ _ _ Hinit) as (unbound & _ & Hsets).
  destruct (add_implied_grows backend (_SupplyImpliedArguments_for backend)
              ((unbound ∩ Backend_predefined_names backend)
                 ∖ _allow_keywords_and_methods backend,
               unbound ∖ Backend_predefined_names backend
                 ∖ _allow_keywords_and_methods backend)) as (_ & _ & Hnew).
  rewrite <-Hsets in Hnew. simpl in Hnew.
  assert (n ∉ Expression_predefined_names e ∪ free_variables e) as Hout.
  { intros Hin. destruct (Hnew n Hin) as [Hold|(nfn & Hl & Hbound & Harg)].
    - clear -Hold Hword. set_solver.
    - by apply (Himplied nfn). }
  apply not_elem_of_union in Hout as [Hbound Hfree].
  split; [done|]. split; [done|].
  clear Hnew Himplied Hsets.
  revert Heff. unfold effective_namespace.
  pose proof (supply_free_spec namespace (elements (free_variables e))
                (_base_namespace e) (NoDup_elements _)) as Hspec.
  destruct (supply_free _ _ _) as [eff1|]; simpl; [|done].
  intros [= <-]. destruct Hspec as [_ Heff1].
  destruct (wrap_implied_lookup (_SupplyImpliedArguments_for (_backend e)) eff1 n)
    as [Hdom _].
  apply not_elem_of_dom. rewrite Hdom. apply not_elem_of_dom.
  rewrite Heff1, decide_False by (by rewrite elem_of_elements).
  rewrite Hbase, decide_False by done.
  by rewrite decide_False.
Qed.

(** [index + 1] against a namespace that has [index]: the name is not
    supplied. *)
Lemma allowed_words_are_never_variables_witness :
  compile "index + 1" = Ok index_expression
  ∧ "index" ∈ _allow_keywords_and_methods test_backend
  ∧ ∃ eff,
      effective_namespace index_expression {[ "index" := OInt 1 ]} = Ok eff
      ∧ ("index" ∉ Expression_predefined_names index_expression)
      ∧ ("index" ∉ free_variables index_expression)
      ∧ eff !! "index" = None.
Proof.
  assert (compile "index + 1" = Ok index_expression) as H1
    by (apply expression_of_ok; vm_compute; reflexivity).
  assert (∃ eff, effective_namespace index_expression {[ "index" := OInt 1 ]} = Ok eff)
    as [eff H2] by (apply raised_None; vm_compute; reflexivity).
  assert ("index" ∈ _allow_keywords_and_methods test_backend) as H3
    by (apply (bool_decide_unpack _); vm_compute; reflexivity).
  assert ("index" ≠ "__builtins__") as H4 by discriminate.
  assert (∀ nfn, nfn ∈ _SupplyImpliedArguments_for test_backend →
                 nfn.1 ∈ Expression_predefined_names index_expression →
                 "index" ∉ ImpliedArguments nfn.2) as H5.
  { assert (Expression_predefined_names index_expression = ∅) as ->
      by (apply (bool_decide_unpack _); vm_compute; reflexivity).
    intros nfn _ Hin. exfalso. exact (not_elem_of_empty (C:=gset string) nfn.1 Hin). }
  split; [exact H1|]. split; [exact H3|].
  exists eff. split; [exact H2|].
  exact (allowed_words_are_never_variables tokenize_model "index + 1" test_backend
           index_expression {[ "index" := OInt 1 ]} eff "index" H1 H2 H3 H4 H5).
Defined.

(** ** Comments and line ends in the token loop *)

Lemma same_outcome_sym r r' : same_outcome r r' → same_outcome r' r.
Proof.
  unfold same_outcome, same_checks. destruct r, r'; try done.
  intros (? & ? & ? & ? & ? & ?). done.
Qed.

Lemma same_outcome_trans r1 r2 r3 :
  same_outcome r1 r2 → same_outcome r2 r3 → same_outcome r1 r3.
Proof.
  unfold same_outcome, same_checks. destruct r1, r2, r3; try done.
  - intros (? & ? & ? & ? & ? & ?) (? & ? & ? & ? & ? & ?).
    repeat split; congruence.
  - congruence.
Qed.

(** The checks read the last kept token and the named parameters met so
    far, nothing of the text. *)
Lemma check_token_same backend st1 st2 t :
  same_checks st1 st2 →
  same_outcome (check_token backend st1 t) (check_token backend st2 t).
Proof.
  intros (Hunb & Hused & Hav & Htoks & Hend & Hprev).
  unfold check_token, same_outcome, same_checks. rewrite <-Hprev, <-Hav.
  repeat (case_bool_decide || case_match); simplify_eq/=; try done;
    repeat split; congruence.
Qed.

Lemma scan_token_same backend st1 st2 t :
  same_checks st1 st2 →
  same_outcome (scan_token backend st1 t) (scan_token backend st2 t).
Proof.
  intros Hsame. pose proof (check_token_same backend st1 st2 t Hsame) as Hcheck.
  unfold scan_token.
  destruct (check_token backend st1 t) as [a|x], (check_token backend st2 t) as [b|y];
    simpl in *; try done.
  destruct Hcheck as (? & ? & ? & ? & ? & ?).
  destruct (is_layout (tok_type t)); unfold same_outcome, same_checks; simpl;
    repeat split; congruence.
Qed.

(** A layout token passes the checks and leaves the state as it is, the
    text apart. *)
Lemma scan_token_layout backend st t :
  kept t = false → same_outcome (scan_token backend st t) (Ok st).
Proof.
  unfold kept, is_layout, scan_token, check_token. intros Hkept.
  destruct (tok_type t) eqn:Hty; try done; simpl; unfold same_checks; simpl; done.
Qed.

Lemma scan_tokens_filter backend toks : ∀ st1 st2,
  same_checks st1 st2 →
  same_outcome (scan_tokens backend st1 toks)
               (scan_tokens backend st2 (filter (fun t => kept t) toks)).
Proof.
  induction toks as [|t toks IH]; intros st1 st2 Hsame; [done|].
  rewrite filter_cons. destruct (decide (kept t)) as [Hk|Hk]; simpl.
  - pose proof (scan_token_same backend st1 st2 t Hsame) as Hstep.
    destruct (scan_token backend st1 t) as [a|x], (scan_token backend st2 t) as [b|y];
      simpl in *; try done.
    by apply IH.
  - apply Is_true_false in Hk.
    pose proof (scan_token_layout backend st1 t Hk) as Hstep.
    destruct (scan_token backend st1 t) as [a|x]; simpl in *; [|done].
    apply IH.
    exact (same_outcome_trans (Ok a) (Ok st1) (Ok st2) Hstep Hsame).
Qed.

(** X13: the validation looks at the kept tokens only.  Two texts whose
    token streams hold the same tokens once comments, line ends, indents,
    dedents and end markers are left out, and end alike, are both rejected
    with the same exception or both compile, to expressions with the same
    bound names, free variables, base namespace and net tokens. *)
Theorem layout_tokens_are_not_validated
    (generate_tokens generate_tokens' : string → list TokenInfo * option exn)
    (text text' : string) (backend : Backend) :
  filter (fun t => kept t) (generate_tokens text).1
    = filter (fun t => kept t) (generate_tokens' text').1 →
  (generate_tokens text).2 = (generate_tokens' text').2 →
  match Expression_init generate_tokens text backend,
        Expression_init generate_tokens' text' backend with
  | Ok e, Ok e' =>
      Expression_predefined_names e = Expression_predefined_names e'
      ∧ free_variables e = free_variables e'
      ∧ _base_namespace e = _base_namespace e'
      ∧ net_tokens e = net_tokens e'
  | Raise x, Raise x' => x = x'
  | _, _ => False
  end.
Proof.
  intros Hkept Hend.
  assert (same_checks scan_start scan_start) as Hstart by done.
  pose proof (scan_tokens_filter backend (generate_tokens text).1 _ _ Hstart) as H1.
  pose proof (scan_tokens_filter backend (generate_tokens' text').1 _ _ Hstart) as H2.
  rewrite Hkept in H1.
  pose proof (same_outcome_trans _ _ _ H1 (same_outcome_sym _ _ H2)) as Hsame.
  unfold Expression_init, scan. rewrite Hend.
  destruct (scan_tokens backend scan_start (generate_tokens text).1) as [st|x],
           (scan_tokens backend scan_start (generate_tokens' text').1) as [st'|x'];
    simpl in *; try done.
  destruct Hsame as (Hunb & _ & _ & Htoks & _ & _).
  destruct ((generate_tokens' text').2); simpl; [done|].
  rewrite Hunb.
  destruct (bind_predefined _ _ _); simpl; [|done].
  done.
Qed.

(** [c+c] of the test suite, with and without a trailing comment. *)
Lemma layout_tokens_are_not_validated_witness :
  filter (fun t => kept t) (tokenize_model "c+c").1
    = filter (fun t => kept t) (tokenize_model "c+c # twice").1
  ∧ (tokenize_model "c+c").2 = (tokenize_model "c+c # twice").2
  ∧ match compile "c+c", compile "c+c # twice" with
    | Ok e, Ok e' =>
        Expression_predefined_names e = Expression_predefined_names e'
        ∧ free_variables e = free_variables e'
        ∧ _base_namespace e = _base_namespace e'
        ∧ net_tokens e = net_tokens e'
    | Raise x, Raise x' => x = x'
    | _, _ => False
    end.
Proof.
  assert (filter (fun t => kept t) (tokenize_model "c+c").1
          = filter (fun t => kept t) (tokenize_model "c+c # twice").1) as H1
    by (vm_compute; reflexivity).
  assert ((tokenize_model "c+c").2 = (tokenize_model "c+c # twice").2) as H2
    by (vm_compute; reflexivity).
  split; [exact H1|]. split; [exact H2|].
  exact (layout_tokens_are_not_validated tokenize_model tokenize_model
           "c+c" "c+c # twice" test_backend H1 H2).
Defined.

(** ** An explicit keyword argument for an implied parameter *)

(** A token of a compiled expression has passed the checks, in the state
    the tokens before it have left. *)
Lemma scanned_token generate_tokens text backend e pre t post :
  Expression_init generate_tokens text backend = Ok e →
  (generate_tokens text).1 = (pre ++ t :: post)%list →
  ∃ st1 st1',
    scan_tokens backend scan_start pre = Ok st1
    ∧ check_token backend st1 t = Ok st1'.
Proof.
  intros Hinit Htoks.
  assert (∃ st, scan_tokens backend scan_start (generate_tokens text).1 = Ok st)
    as [st Hscan].
  { revert Hinit. unfold Expression_init, scan.
    destruct (scan_tokens backend scan_start (generate_tokens text).1) as [st|];
      simpl; [|done].
    intros _. by exists st. }
  rewrite Htoks, scan_tokens_app in Hscan.
  destruct (scan_tokens backend scan_start pre) as [st1|]; simpl in Hscan; [|done].
  destruct (scan_token backend st1 t) as [st2|] eqn:Hstep; simpl in Hscan; [|done].
  unfold scan_token in Hstep.
  destruct (check_token backend st1 t) as [st1'|] eqn:Hcheck; [|done].
  exists st1, st1'. split; [reflexivity|exact Hcheck].
Qed.

Lemma elem_of_eligible_names backend ids p :
  p ∈ eligible_names backend ids →
  ∃ id names,
    id ∈ ids ∧ _named_parameter_names_for backend !! id = Some names ∧ p ∈ names.
Proof.
  unfold eligible_names. induction ids as [|id ids IH]; simpl.
  - intros H. by apply elem_of_empty in H.
  - intros [Hhere|Hrest]%elem_of_union.
    + destruct (_named_parameter_names_for backend !! id) as [names|] eqn:Hnames.
      * exists id, names. split; [by apply elem_of_cons; left|done].
      * by apply elem_of_empty in Hhere.
    + destruct (IH Hrest) as (id' & names & Hin & Hnames & Hp).
      exists id', names. split; [by apply elem_of_cons; right|done].
Qed.

(** C6, as amended: with [f(x, *, d)] registered and [d] without a default,
    [f(10)] against [{'d': 3}] is 13, and against any namespace without [d]
    it raises a [PinasNameError] that names exactly [d].  An explicit
    keyword argument reaches the wrapper only past the constructor: in
    every compiled expression over a constructed backend a bare [=] follows
    a name that is a named parameter, and no implied argument, of the
    function bound to some identifier before it, so [f(10, d=5)] is
    rejected with ['No such named parameter: d'].  Where an explicit keyword
    for an implied parameter is let through by another function's parameter
    of that name, as in [implied(name_collision(1, 2), b=9)] of the test
    module, the wrapper puts it over the value from the namespace. *)
Theorem implied_parameter_supplied :
  Expression_init tokenize_model "f(10)" f_backend = Ok f_expression
  ∧ ImpliedArguments (OFunction "f" (Some {| co_varnames := ["x"; "d"];
                                             co_posonlyargcount := 0; co_argcount := 1;
                                             co_kwonlyargcount := 1 |}) None) = ["d"]
  ∧ Expression_eval (py_eval_model f_host_call) f_expression {[ "d" := OInt 3 ]}
    = Ok (OInt 13)
  ∧ (∀ namespace : gmap string obj,
       "d" ∉ dom namespace →
       Expression_eval (py_eval_model f_host_call) f_expression namespace
       = Raise (PinasNameError ["d"]))
  ∧ (∀ call fn (namespace : gmap string obj) args kwargs k v,
       Forall (fun a => a ∈ dom namespace) (ImpliedArguments fn) →
       k ∈ ImpliedArguments fn →
       kwargs !! k = Some v →
       ∃ full_kwargs : gmap string obj,
         supply_namespace_args call fn namespace args kwargs = call args full_kwargs
         ∧ full_kwargs !! k = Some v
         ∧ ∀ a, a ∈ ImpliedArguments fn → kwargs !! a = None →
                full_kwargs !! a = namespace !! a)
  ∧ (compile "implied(name_collision(1, 2), b=9)" = Ok explicit_expression
     ∧ Expression_eval (py_eval_model test_host_call) explicit_expression {[ "b" := OInt 1 ]}
       = Ok (OTuple [OTuple [OInt 1; OInt 2]; OInt 9]))
  ∧ (∀ (builtins : gmap string obj) (module : pymodule)
       (allow_builtin_names allow_keywords allow_methods : option (gset string))
       (backend : Backend) (generate_tokens : string → list TokenInfo * option exn)
       (text : string) (e : Expression)
       (pre : list TokenInfo) (tok : TokenInfo) (post : list TokenInfo),
       Backend_init builtins module allow_builtin_names allow_keywords allow_methods
         = Ok backend →
       Expression_init generate_tokens text backend = Ok e →
       (generate_tokens text).1 = (pre ++ tok :: post)%list →
       tok_type tok = OP →
       tok_string tok = "=" →
       ∃ p id fn,
         last_kept None pre = Some p
         ∧ tok_type p = NAME
         ∧ id ∈ identifiers None pre
         ∧ predefined_functions backend !! id = Some fn
         ∧ tok_string p ∈ NamedParameterNames fn
         ∧ tok_string p ∉ ImpliedArguments fn)
  ∧ Expression_init tokenize_model "f(10, d=5)" f_backend
    = Raise (PinasExpressionError d_eq "No such named parameter: d").
Proof.
  split; [apply expression_of_ok; vm_compute; reflexivity|].
  split; [reflexivity|].
  split; [vm_compute; reflexivity|].
  split; [|split; [|split; [|split]]].
  - intros namespace Hd.
    assert (free_variables f_expression = {[ "d" ]}) as Hfv
      by (apply (bool_decide_unpack _); vm_compute; reflexivity).
    rewrite (Expression_eval_ext _ f_expression namespace ∅).
    + vm_compute. reflexivity.
    + intros n. rewrite Hfv, elem_of_singleton. intros ->.
      rewrite lookup_empty. by apply not_elem_of_dom.
  - intros call fn namespace args kwargs k v Hall Hk Hv.
    destruct (supply_namespace_args_spec call fn namespace args kwargs) as [Hpresent _].
    destruct (Hpresent Hall) as (full & Hcall & Hlook).
    exists full. split; [done|]. split.
    + by rewrite Hlook, Hv.
    + intros a Ha Hnone. rewrite Hlook, Hnone. by case_decide.
  - split; [apply expression_of_ok; vm_compute; reflexivity|]. vm_compute. reflexivity.
  - intros builtins module abn ak am backend generate_tokens text e pre tok post
      Hbackend Hinit Htoks Hop Heq.
    destruct (scanned_token _ _ _ _ _ _ _ Hinit Htoks) as (st1 & st1' & Hpre & Hcheck).
    apply scan_start_state in Hpre as [Hprev Hav].
    apply check_token_passes in Hcheck as (_ & _ & _ & Hnamed).
    destruct (Hnamed Hop Heq) as (p & Hp & Hname & Hin).
    rewrite Hav in Hin.
    apply elem_of_eligible_names in Hin as (id & names & Hid & Hnames & Hpn).
    destruct (named_parameters_of_init _ _ _ _ _ _ Hbackend) as [_ Hfrom].
    destruct (Hfrom id names (tok_string p) Hnames Hpn) as (fn & Hfn & Hnp & _ & Himp).
    exists p, id, fn. rewrite <-Hprev. done.
  - vm_compute. reflexivity.
Qed.

Lemma implied_parameter_supplied_witness :
  ("d" ∉ dom ({[ "x" := OInt 1 ]} : gmap string obj)
   ∧ Expression_eval (py_eval_model f_host_call) f_expression {[ "x" := OInt 1 ]}
     = Raise (PinasNameError ["d"]))
  ∧ (Forall (fun a => a ∈ dom ({[ "d" := OInt 3 ]} : gmap string obj))
            (ImpliedArguments (def "f" ["x"; "d"] 0 1 1 None).2)
     ∧ "d" ∈ ImpliedArguments (def "f" ["x"; "d"] 0 1 1 None).2
     ∧ ({[ "d" := OInt 5 ]} : gmap string obj) !! "d" = Some (OInt 5)
     ∧ ∃ full_kwargs : gmap string obj,
         supply_namespace_args (f_host_call (def "f" ["x"; "d"] 0 1 1 None).2)
           (def "f" ["x"; "d"] 0 1 1 None).2 {[ "d" := OInt 3 ]} [OInt 10] {[ "d" := OInt 5 ]}
         = f_host_call (def "f" ["x"; "d"] 0 1 1 None).2 [OInt 10] full_kwargs
         ∧ full_kwargs !! "d" = Some (OInt 5)
         ∧ ∀ a, a ∈ ImpliedArguments (def "f" ["x"; "d"] 0 1 1 None).2 →
                ({[ "d" := OInt 5 ]} : gmap string obj) !! a = None →
                full_kwargs !! a = ({[ "d" := OInt 3 ]} : gmap string obj) !! a).
Proof.
  split.
  - assert ("d" ∉ dom ({[ "x" := OInt 1 ]} : gmap string obj)) as H
      by (apply (bool_decide_unpack _); vm_compute; reflexivity).
    split; [exact H|].
    exact (proj1 (proj2 (proj2 (proj2 implied_parameter_supplied))) {[ "x" := OInt 1 ]} H).
  - assert (Forall (fun a => a ∈ dom ({[ "d" := OInt 3 ]} : gmap string obj))
                   (ImpliedArguments (def "f" ["x"; "d"] 0 1 1 None).2)) as H1
      by (apply (bool_decide_unpack _); vm_compute; reflexivity).
    assert ("d" ∈ ImpliedArguments (def "f" ["x"; "d"] 0 1 1 None).2) as H2
      by (apply (bool_decide_unpack _); vm_compute; reflexivity).
    assert (({[ "d" := OInt 5 ]} : gmap string obj) !! "d" = Some (OInt 5)) as H3
      by (vm_compute; reflexivity).
    repeat (split; [assumption|]).
    exact (proj1 (proj2 (proj2 (proj2 (proj2 implied_parameter_supplied))))
             (f_host_call (def "f" ["x"; "d"] 0 1 1 None).2)
             (def "f" ["x"; "d"] 0 1 1 None).2 {[ "d" := OInt 3 ]} [OInt 10]
             {[ "d" := OInt 5 ]} "d" (OInt 5) H1 H2 H3).
Defined.

(** C6 as stated fails in its own host: [d] is an implied parameter of [f],
    the only function of the registry, and the expression [f(10, d=5)] that
    gives it explicitly does not compile; the [=] is rejected. *)
Lemma explicit_keyword_for_implied_parameter_rejected :
  Expression_init tokenize_model "f(10)" f_backend = Ok f_expression
  ∧ "d" ∈ ImpliedArguments (def "f" ["x"; "d"] 0 1 1 None).2
  ∧ predefined_functions f_backend !! "f" = Some (def "f" ["x"; "d"] 0 1 1 None).2
  ∧ _named_parameter_names_for f_backend !! "f" = Some {[ "x" ]}
  ∧ Expression_init tokenize_model "f(10, d=5)" f_backend
    = Raise (PinasExpressionError (token OP "=" (1, 7) (1, 8))
               "No such named parameter: d").
Proof.
  split; [apply expression_of_ok; vm_compute; reflexivity|].
  split; [apply (bool_decide_unpack _); vm_compute; reflexivity|].
  split; [vm_compute; reflexivity|].
  split; [apply (bool_decide_unpack _); vm_compute; reflexivity|].
  vm_compute. reflexivity.
Qed.

(** ** The dict behind [__builtins__], from one evaluation to the next *)

Lemma identifiers_app l1 l2 : ∀ p0,
  identifiers p0 (l1 ++ l2)
  = (identifiers p0 l1 ++ identifiers (last_kept p0 l1) l2)%list.
Proof.
  induction l1 as [|t l1 IH]; intros p0; simpl; [done|].
  rewrite IH, <-app_assoc. done.
Qed.

(** With a registry that has no [__builtins__], the key stays with the
    dict of the constructor, in the base namespace and in every effective
    namespace. *)
Lemma builtins_dict_kept builtins module allow_builtin_names allow_keywords
    allow_methods backend generate_tokens text e :
  Backend_init builtins module allow_builtin_names allow_keywords allow_methods
    = Ok backend →
  "__builtins__" ∉ Backend_predefined_names backend →
  Expression_init generate_tokens text backend = Ok e →
  base_aliases e = true
  ∧ eff_aliases e = true
  ∧ _base_namespace e !! "__builtins__" = Some (ODict [])
  ∧ ∀ namespace eff,
      effective_namespace e namespace = Ok eff →
      eff !! "__builtins__" = Some (ODict []).
Proof.
  intros Hbackend Hnot Hinit.
  destruct (compiled_expression _ _ _ _ Hinit) as (Hb & HP & HF & Hdom & Hbase).
  assert ("__builtins__" ∉ Expression_predefined_names e) as Hbound
    by (intros Hin; by apply Hnot, HP).
  assert ("__builtins__" ∉ (_SupplyImpliedArguments_for backend).*1) as Hwrapped
    by (intros Hin; by apply Hnot, (Backend_init_implied _ _ _ _ _ _ _ Hbackend)).
  assert (base_aliases e = true) as Hbase_alias
    by (unfold base_aliases; by apply bool_decide_eq_true).
  assert (_base_namespace e !! "__builtins__" = Some (ODict [])) as Hempty.
  { rewrite Hbase, decide_False by done. by rewrite decide_True. }
  split; [done|]. split; [|split; [done|]].
  - unfold eff_aliases. rewrite Hbase_alias, Hb. simpl. by apply bool_decide_eq_true.
  - intros namespace eff Heff.
    pose proof (effective_namespace_cases _ _ _ _ namespace Hinit) as Hcases.
    rewrite Heff in Hcases. destruct Hcases as (Hfv & _ & Hlook).
    rewrite (Hlook _ Hwrapped), decide_False by done. done.
Qed.

(** With a Python that leaves the dict alone, an evaluation that finds it
    empty is the evaluation of [Expression_eval], and leaves it empty. *)
Lemma Expression_eval_at_empty
    (py_eval_shared : string → gmap string obj → result obj * list (string * obj))
    (e : Expression) (namespace : gmap string obj) :
  eff_aliases e = true →
  (∀ eff, effective_namespace e namespace = Ok eff →
          eff !! "__builtins__" = Some (ODict [])) →
  (∀ source globals content,
     globals !! "__builtins__" = Some (ODict content) →
     (py_eval_shared source globals).2 = content) →
  Expression_eval_at py_eval_shared e namespace []
  = (Expression_eval (fun source globals => (py_eval_shared source globals).1) e namespace,
     []).
Proof.
  intros Halias Hplace Hkeeps.
  unfold Expression_eval_at, effective_namespace_at, Expression_eval.
  destruct (effective_namespace e namespace) as [eff|x]; simpl; [|done].
  rewrite Halias. simpl.
  rewrite (insert_id eff "__builtins__" (ODict [])) by (by apply Hplace).
  rewrite (Hkeeps (expr e) eff []) by (by apply Hplace). done.
Qed.

(** C10, as amended: for a backend whose registry has no name
    [__builtins__], the base namespace of a compiled expression binds
    [__builtins__] to a dict of its own that is empty when the constructor
    returns.  Every effective namespace binds [__builtins__] to that same
    dict, not to a copy, with whatever it holds by then; every other entry is
    a function that the host has white-listed and the expression refers to,
    as the registry has it (wrapped if it is of the module), or the caller's
    value of a free variable.  The module itself never writes to the dict:
    over any number of evaluations it stays empty if Python's [eval] leaves
    it as it is, and the outcomes are then those of [Expression_eval].  And
    unless [__builtins__] is an allowed keyword or method name, an expression
    that gets as far as Python's [eval] has no name token [__builtins__]. *)
Theorem builtins_entry_is_empty
    (builtins : gmap string obj) (module : pymodule)
    (allow_builtin_names allow_keywords allow_methods : option (gset string))
    (backend : Backend)
    (generate_tokens : string → list TokenInfo * option exn)
    (text : string) (e : Expression) :
  Backend_init builtins module allow_builtin_names allow_keywords allow_methods
    = Ok backend →
  "__builtins__" ∉ Backend_predefined_names backend →
  Expression_init generate_tokens text backend = Ok e →
  (base_aliases e = true
   ∧ eff_aliases e = true
   ∧ base_namespace_at e [] !! "__builtins__" = Some (ODict []))
  ∧ (∀ namespace content globals,
       effective_namespace_at e namespace content = Ok globals →
       globals !! "__builtins__" = base_namespace_at e content !! "__builtins__"
       ∧ globals !! "__builtins__" = Some (ODict content)
       ∧ ∀ n v, n ≠ "__builtins__" → globals !! n = Some v →
           (n ∈ Expression_predefined_names e
            ∧ ∃ fn, predefined_functions backend !! n = Some fn
                    ∧ v = (if decide (n ∈ __all__ module)
                           then SupplyImpliedArguments fn else fn)
                    ∧ if decide (n ∈ __all__ module)
                      then module_attrs module !! n = Some fn
                      else n ∈ default default_allow_builtin_names allow_builtin_names
                           ∧ builtins !! n = Some fn)
           ∨ (n ∈ free_variables e ∧ namespace !! n = Some v))
  ∧ (∀ (py_eval_shared : string → gmap string obj → result obj * list (string * obj))
       (namespaces : list (gmap string obj)),
       (∀ source globals content,
          globals !! "__builtins__" = Some (ODict content) →
          (py_eval_shared source globals).2 = content) →
       eval_all py_eval_shared e namespaces []
       = (Expression_eval (fun source globals => (py_eval_shared source globals).1) e
            <$> namespaces,
          []))
  ∧ ("__builtins__" ∉ _allow_keywords_and_methods backend →
     "__builtins__" ∉ free_variables e →
     ∀ t, t ∈ (generate_tokens text).1 → tok_type t = NAME →
          tok_string t ≠ "__builtins__").
Proof.
  intros Hbackend Hnot Hinit.
  destruct (builtins_dict_kept _ _ _ _ _ _ _ _ _ Hbackend Hnot Hinit)
    as (Hbase_alias & Heff_alias & Hempty & Hplace).
  split; [|split; [|split]].
  - split; [done|]. split; [done|].
    unfold base_namespace_at, with_builtins_dict. rewrite Hbase_alias.
    by rewrite lookup_insert_eq.
  - intros namespace content globals.
    unfold effective_namespace_at, base_namespace_at, with_builtins_dict.
    rewrite Hbase_alias, Heff_alias.
    destruct (effective_namespace e namespace) as [eff|] eqn:Heff; simpl; [|done].
    intros [= <-]. rewrite !lookup_insert_eq.
    split; [done|]. split; [done|].
    intros n v Hn Hv. rewrite lookup_insert_ne in Hv by done.
    pose proof (effective_namespace_cases _ _ _ _ namespace Hinit) as Hcases.
    rewrite Heff in Hcases. destruct Hcases as (_ & Hdom & _).
    destruct (effective_namespace_functions _ _ _ _ _ _ _ _ _ _ _
                Hbackend Hinit Heff) as [Hbound Hfree].
    pose proof (registry_lookup_of_init _ _ _ _ _ _ Hbackend n) as Hreg.
    assert (n ∈ dom eff) as Hin by (apply elem_of_dom; by eexists).
    apply Hdom in Hin.
    apply elem_of_union in Hin as [Hin|Hin]; [apply elem_of_union in Hin as [Hin|Hin]|].
    + by apply elem_of_singleton in Hin.
    + left. split; [done|].
      destruct (Hbound n Hin) as (fn & Hfn & Hlook).
      exists fn. split; [done|]. split; [congruence|].
      rewrite Hfn in Hreg.
      destruct (decide (n ∈ __all__ module)); [done|].
      destruct (decide (n ∈ default default_allow_builtin_names allow_builtin_names));
        [done|discriminate].
    + right. split; [done|]. by rewrite <-(Hfree n Hin).
  - intros py_eval_shared namespaces Hkeeps.
    induction namespaces as [|namespace namespaces IH]; [done|].
    cbn [eval_all].
    rewrite (Expression_eval_at_empty _ _ _ Heff_alias (Hplace namespace) Hkeeps).
    cbn [fst snd]. rewrite IH. done.
  - intros Hword Hfree t Ht Hname Hstr.
    apply list_elem_of_split in Ht as (pre & post & Htoks).
    destruct (scanned_token _ _ _ _ _ _ _ Hinit Htoks) as (st1 & st1' & Hpre & Hcheck).
    apply scan_start_state in Hpre as [Hprev _].
    apply check_token_passes in Hcheck as (_ & Hmethod & _).
    destruct (after_dot (last_kept None pre)) eqn:Hdot.
    + (* after a dot it would be an allowed method *)
      rewrite Hprev in Hmethod. specialize (Hmethod Hname Hdot).
      apply Backend_init_ok in Hbackend as (bf & mf & _ & _ & _ & _ & _ & _ & _ & Hrec).
      apply Hword. rewrite Hrec. simpl. rewrite Hrec in Hmethod. simpl in Hmethod.
      rewrite <-Hstr. by apply elem_of_union; right.
    + (* anywhere else it would be a free variable *)
      destruct (Expression_init_names _ _ _ _ Hinit) as (unbound & Hunb & Hsets).
      destruct (add_implied_grows backend (_SupplyImpliedArguments_for backend)
                  ((unbound ∩ Backend_predefined_names backend)
                     ∖ _allow_keywords_and_methods backend,
                   unbound ∖ Backend_predefined_names backend
                     ∖ _allow_keywords_and_methods backend)) as (_ & Hgrow & _).
      rewrite <-Hsets in Hgrow. simpl in Hgrow.
      apply Hfree, Hgrow.
      assert ("__builtins__" ∈ unbound) as Hin.
      { rewrite Hunb, Htoks, identifiers_app. simpl.
        unfold is_identifier. rewrite Hname, Hdot, Hstr. simpl.
        apply elem_of_list_to_set, elem_of_app. right. by apply elem_of_cons; left. }
      clear -Hin Hnot Hword. set_solver.
Qed.

Lemma py_eval_readonly_keeps (py_eval : string → gmap string obj → result obj)
    (source : string) (globals : gmap string obj) (content : list (string * obj)) :
  globals !! "__builtins__" = Some (ODict content) →
  (py_eval_readonly py_eval source globals).2 = content.
Proof.
  intros H. unfold py_eval_readonly, builtins_dict_of. cbn [snd]. rewrite H. reflexivity.
Qed.

(** The test [test_2plus2], evaluated twice. *)
Lemma builtins_entry_is_empty_witness :
  Backend_init py_builtins test_module None None None = Ok test_backend
  ∧ ("__builtins__" ∉ Backend_predefined_names test_backend)
  ∧ compile "c+c" = Ok cc_expression
  ∧ (base_aliases cc_expression = true
     ∧ eff_aliases cc_expression = true
     ∧ base_namespace_at cc_expression [] !! "__builtins__" = Some (ODict []))
  ∧ eval_all (py_eval_readonly (py_eval_model test_host_call)) cc_expression
      [test_namespace; test_namespace] []
    = (Expression_eval
         (fun source globals =>
            (py_eval_readonly (py_eval_model test_host_call) source globals).1)
         cc_expression <$> [test_namespace; test_namespace],
       []).
Proof.
  assert (Backend_init py_builtins test_module None None None = Ok test_backend) as H1
    by (apply backend_of_ok; vm_compute; reflexivity).
  assert ("__builtins__" ∉ Backend_predefined_names test_backend) as H2
    by (apply (bool_decide_unpack _); vm_compute; reflexivity).
  assert (compile "c+c" = Ok cc_expression) as H3
    by (apply expression_of_ok; vm_compute; reflexivity).
  split; [exact H1|]. split; [exact H2|]. split; [exact H3|].
  split.
  - exact (proj1 (builtins_entry_is_empty py_builtins test_module None None None
                    test_backend tokenize_model "c+c" cc_expression H1 H2 H3)).
  - exact (proj1 (proj2 (proj2 (builtins_entry_is_empty py_builtins test_module None None
                                  None test_backend tokenize_model "c+c" cc_expression
                                  H1 H2 H3)))
             (py_eval_readonly (py_eval_model test_host_call))
             [test_namespace; test_namespace]
             (py_eval_readonly_keeps (py_eval_model test_host_call))).
Defined.

(** C10 as stated fails where the host allows the method names
    [__builtins__] and [setdefault]: the registry has no name
    [__builtins__], the expression [__builtins__.setdefault(k, v)] compiles
    with the free variables [k] and [v], and the base namespace binds
    [__builtins__] to an empty dict.  The first evaluation, against
    [{'k': 'x', 'v': 1}], puts ['x'] into that dict; the second, against
    [{'k': 'x', 'v': 2}], finds it there and returns 1 again, and the
    effective namespace of any later evaluation binds [__builtins__] to
    [{'x': 1}]. *)
Lemma builtins_dict_filled_by_evaluation :
  Backend_init py_builtins test_module None None
    (Some (list_to_set ["__builtins__"; "setdefault"])) = Ok setdefault_backend
  ∧ ("__builtins__" ∉ Backend_predefined_names setdefault_backend)
  ∧ Expression_init tokenize_model "__builtins__.setdefault(k, v)" setdefault_backend
    = Ok setdefault_expression
  ∧ base_namespace_at setdefault_expression [] !! "__builtins__" = Some (ODict [])
  ∧ eval_all (py_eval_shared_model test_host_call) setdefault_expression
      [setdefault_namespace 1; setdefault_namespace 2] []
    = ([Ok (OInt 1); Ok (OInt 1)], [("x", OInt 1)])
  ∧ (globals ← effective_namespace_at setdefault_expression (setdefault_namespace 2)
                  [("x", OInt 1)];
     getattr globals "__builtins__")
    = Ok (ODict [("x", OInt 1)]).
Proof.
  split; [apply backend_of_ok; vm_compute; reflexivity|].
  split; [apply (bool_decide_unpack _); vm_compute; reflexivity|].
  split; [apply expression_of_ok; vm_compute; reflexivity|].
  repeat split; vm_compute; reflexivity.
Qed.
